(** * A shallow embedding of the virtual-memory simulator core (pa3.c)

    The file models the entry points of [pa3.c]
    ([lookup_tlb], [insert_tlb], [alloc_page], [free_page],
    [handle_page_fault], [switch_process]) as functions on an explicit
    machine state and proves properties of them.

    Memory model.  The C program keeps its state in globals
    ([processes], [current], [ptbr], [tlb], [mapcounts]) and in objects
    obtained from [malloc] (one [struct process] per forked process, one
    [struct pte_directory] per populated page-directory slot).  Nothing is
    ever released with [free].  Each kind of object therefore lives in an
    append-only store, and a pointer is the position of the object in its
    store (its allocation number); [NULL] is [None].  [malloc] is taken to
    succeed.

    Machine integers.  [unsigned int] values are integers in [Z]; the only
    arithmetic the program performs on them that can leave the 32-bit range
    is [mapcounts[..]++] and [mapcounts[..]--], whose wrap-around is
    written out ([wrap32]).

    Array accesses outside the bounds of an array, and accesses through a
    pointer that designates no object, are undefined behaviour in C.  The
    model reads nothing and writes nothing there; the theorems that depend
    on such an access carry the hypothesis that it is in range. *)

From Stdlib Require Import ZArith List Bool Lia.
From stdpp Require Import base option list.
Import ListNotations.

Local Open Scope Z_scope.

(** ** Constants of [vm.h] *)

(** Modelled from the spec: [vm.h] is not among the sources.  The access
    modes are "a small bitmask (READ bit, WRITE bit)"; [alloc_page(vpn, 3)]
    in [handle_page_fault] asks for read-write, so the two bits are 1 and
    2. *)
Definition ACCESS_READ : Z := 1.

(** Modelled from the spec: see [ACCESS_READ]. *)
Definition ACCESS_WRITE : Z := 2.

(** [(unsigned int) -1]. *)
Definition UINT_MINUS_1 : Z := 4294967295.

(** Wrap-around of 32-bit unsigned arithmetic. *)
Definition wrap32 (z : Z) : Z := z mod 4294967296.

(** A C integer used as a condition: non-zero is true. *)
Definition nonzero (z : Z) : bool := negb (z =? 0).

(** ** Data structures of [vm.h] *)

(** [struct pte]. *)
Record pte := mk_pte {
  pte_valid : bool;
  pte_rw : Z;
  pte_pfn : Z;
  pte_private : Z
}.

(** [struct pte_directory]: the array [ptes[NR_PTES_PER_PAGE]]. *)
Abbreviation pte_directory := (list pte) (only parsing).

(** [struct pagetable]: the array [pdes[NR_PDES_PER_PAGE]] of pointers to
    page-table pages. *)
Record pagetable := mk_pagetable {
  pdes : list (option nat)
}.

(** [struct process]; the [list] linkage is the position of the process in
    the ready queue. *)
Record process := mk_process {
  pid : Z;
  proc_pagetable : pagetable
}.

(** [struct tlb_entry]. *)
Record tlb_entry := mk_tlb_entry {
  tlb_valid : bool;
  tlb_rw : Z;
  tlb_vpn : Z;
  tlb_pfn : Z;
  tlb_private : Z
}.

(** The globals and the two object stores. *)
Record state := mk_state {
  pd_mem : list pte_directory;  (* every malloc'ed struct pte_directory *)
  proc_mem : list process;      (* every struct process *)
  processes : list nat;         (* the ready queue, head first *)
  current : nat;                (* the running process *)
  ptbr : nat;                   (* ptbr == &p->pagetable, as the process p *)
  tlb : list tlb_entry;         (* tlb[NR_TLB_ENTRIES] *)
  mapcounts : list Z            (* mapcounts[NR_PAGEFRAMES] *)
}.

(** Assignments to one component of the state. *)
Definition set_pd_mem (m : list pte_directory) (s : state) : state :=
  mk_state m (proc_mem s) (processes s) (current s) (ptbr s) (tlb s) (mapcounts s).

Definition set_proc_mem (m : list process) (s : state) : state :=
  mk_state (pd_mem s) m (processes s) (current s) (ptbr s) (tlb s) (mapcounts s).

Definition set_tlb (t : list tlb_entry) (s : state) : state :=
  mk_state (pd_mem s) (proc_mem s) (processes s) (current s) (ptbr s) t (mapcounts s).

Definition set_mapcounts (m : list Z) (s : state) : state :=
  mk_state (pd_mem s) (proc_mem s) (processes s) (current s) (ptbr s) (tlb s) m.

(** ** The TLB *)

(** [lookup_tlb]: [Some pfn] is "return true with [*pfn] set", [None] is
    "return false".  The loop visits [tlb[0]], [tlb[1]], ... in order. *)
Fixpoint lookup_tlb_from (t : list tlb_entry) (vpn rw : Z) : option Z :=
  match t with
  | [] => None
  | e :: t' =>
      if (tlb_vpn e =? vpn) && nonzero (Z.land (tlb_rw e) rw)
      then Some (tlb_pfn e)
      else lookup_tlb_from t' vpn rw
  end.

Definition lookup_tlb (vpn rw : Z) (s : state) : option Z :=
  lookup_tlb_from (tlb s) vpn rw.

(** [insert_tlb].  The loop leaves at the first invalid slot ([idx = i;
    break], after which the slot is filled) or at the first valid slot
    before it that holds [vpn] (updated in place, [return]). *)
Fixpoint insert_tlb_from (t : list tlb_entry) (vpn rw pfn : Z) : list tlb_entry :=
  match t with
  | [] => []
  | e :: t' =>
      if negb (tlb_valid e)
      then mk_tlb_entry true rw vpn pfn (tlb_private e) :: t'
      else if tlb_vpn e =? vpn
      then mk_tlb_entry true rw (tlb_vpn e) pfn (tlb_private e) :: t'
      else e :: insert_tlb_from t' vpn rw pfn
  end.

Definition insert_tlb (vpn rw pfn : Z) (s : state) : state :=
  set_tlb (insert_tlb_from (tlb s) vpn rw pfn) s.

(** The loop of [free_page] over the TLB. *)
Definition tlb_invalidate_pfn (pfn : Z) (t : list tlb_entry) : list tlb_entry :=
  map (fun e =>
         if tlb_valid e && (tlb_pfn e =? pfn)
         then mk_tlb_entry false 0 (tlb_vpn e) 0 (tlb_private e)
         else e) t.

(** The loop of [switch_process] over the TLB: it stops at the first
    invalid entry. *)
Fixpoint tlb_flush (t : list tlb_entry) : list tlb_entry :=
  match t with
  | [] => []
  | e :: t' =>
      if negb (tlb_valid e) then e :: t'
      else mk_tlb_entry false 0 0 0 0 :: tlb_flush t'
  end.

(** ** Page tables *)

Section VM.

(** The sizes of the arrays, fixed by [vm.h], which is not among the
    sources: they are parameters of the development.  [tlb] has
    [NR_TLB_ENTRIES] entries, [mapcounts] has [NR_PAGEFRAMES], a page
    directory has [NR_PDES_PER_PAGE] slots and a page-table page has
    [NR_PTES_PER_PAGE] entries.  The loops of the program that run over a
    whole array are recursions over the list that models it. *)
Variable NR_PAGEFRAMES : nat.
Variable NR_PTES_PER_PAGE : nat.
Variable NR_PDES_PER_PAGE : nat.
Variable NR_TLB_ENTRIES : nat.

(** [int page_dir_idx = vpn / NR_PTES_PER_PAGE]. *)
Definition page_dir_idx (vpn : Z) : nat :=
  Z.to_nat (vpn / Z.of_nat NR_PTES_PER_PAGE).

(** [int page_entry_idx = vpn - page_dir_idx * NR_PTES_PER_PAGE]. *)
Definition page_entry_idx (vpn : Z) : nat :=
  Z.to_nat (vpn - (vpn / Z.of_nat NR_PTES_PER_PAGE) * Z.of_nat NR_PTES_PER_PAGE).

(** [p->pagetable.pdes[i]]. *)
Definition proc_pde (s : state) (p i : nat) : option nat :=
  match proc_mem s !! p with
  | Some pr =>
      match pdes (proc_pagetable pr) !! i with
      | Some d => d
      | None => None
      end
  | None => None
  end.

(** [current->pagetable.pdes[i] = pd]. *)
Definition set_cur_pde (i : nat) (d : nat) (s : state) : state :=
  set_proc_mem
    (alter (fun pr => mk_process (pid pr)
                        (mk_pagetable (<[i := Some d]> (pdes (proc_pagetable pr)))))
           (current s) (proc_mem s)) s.

(** [malloc(sizeof(struct pte_directory))], the new object holding
    [content]. *)
Definition malloc_pd (content : pte_directory) (s : state) : nat * state :=
  (length (pd_mem s), set_pd_mem (pd_mem s ++ [content]) s).

(** [pd->ptes[e]]. *)
Definition read_pte (s : state) (pd e : nat) : option pte :=
  match pd_mem s !! pd with
  | Some dir => dir !! e
  | None => None
  end.

(** An assignment to fields of [pd->ptes[e]]. *)
Definition update_pte (pd e : nat) (f : pte -> pte) (s : state) : state :=
  set_pd_mem (alter (alter f e) pd (pd_mem s)) s.

(** [mc[pfn]] for an array of map counts. *)
Definition mc_get (mc : list Z) (pfn : Z) : Z := default 0 (mc !! Z.to_nat pfn).

(** [mapcounts[pfn]]. *)
Definition mapcount (s : state) (pfn : Z) : Z := mc_get (mapcounts s) pfn.

(** The page-table entry of [vpn] in the page table of process [p], when
    its page-table page is present. *)
Definition pte_of (s : state) (p : nat) (vpn : Z) : option pte :=
  match proc_pde s p (page_dir_idx vpn) with
  | Some pd => read_pte s pd (page_entry_idx vpn)
  | None => None
  end.

(** The page-table page of [vpn] in the current process:
    [pd = current->pagetable.pdes[page_dir_idx]], and when it is [NULL],
    [pd = malloc(..); current->pagetable.pdes[page_dir_idx] = pd], the new
    page holding [content]. *)
Definition locate_pd (content : pte_directory) (vpn : Z) (s : state) : nat * state :=
  match proc_pde s (current s) (page_dir_idx vpn) with
  | Some pd => (pd, s)
  | None =>
      let '(pd, s) := malloc_pd content s in
      (pd, set_cur_pde (page_dir_idx vpn) pd s)
  end.

(** A page-table page set to zero by [memset]. *)
Definition zero_pd : pte_directory :=
  replicate NR_PTES_PER_PAGE (mk_pte false 0 0 0).

(** ** [alloc_page] *)

(** The scan [for (pfn = 0; pfn < NR_PAGEFRAMES; pfn++) if (mapcounts[pfn] == 0)]. *)
Fixpoint find_free (mc : list Z) (pfn : nat) : option nat :=
  match mc with
  | [] => None
  | m :: mc' => if m =? 0 then Some pfn else find_free mc' (S pfn)
  end.

(** [alloc_page].  [junk] is the content of the memory [malloc] returns
    when the page-table page is absent: [alloc_page] does not clear it. *)
Definition alloc_page (junk : pte_directory) (vpn rw : Z) (s : state) : Z * state :=
  match find_free (mapcounts s) 0 with
  | Some pfn =>
      let s := set_mapcounts (<[pfn := 1]> (mapcounts s)) s in
      let '(pd, s) := locate_pd junk vpn s in
      let s := update_pte pd (page_entry_idx vpn)
                 (fun p => mk_pte true rw (Z.of_nat pfn) (pte_private p)) s in
      (Z.of_nat pfn, s)
  | None => (UINT_MINUS_1, s)
  end.

(** ** [free_page] *)

(** [free_page]: nothing happens unless the page-table page is there and
    the entry is valid. *)
Definition free_page (vpn : Z) (s : state) : state :=
  match proc_pde s (current s) (page_dir_idx vpn) with
  | Some pd =>
      match read_pte s pd (page_entry_idx vpn) with
      | Some p =>
          if pte_valid p then
            let s := set_mapcounts
                       (alter (fun m => wrap32 (m - 1)) (Z.to_nat (pte_pfn p))
                              (mapcounts s)) s in
            let s := set_tlb (tlb_invalidate_pfn (pte_pfn p) (tlb s)) s in
            update_pte pd (page_entry_idx vpn)
              (fun p => mk_pte false 0 0 (pte_private p)) s
          else s
      | None => s
      end
  | None => s
  end.

(** ** [handle_page_fault] *)

(** [handle_page_fault].  By the time the handler calls [alloc_page] the
    page-table page of [vpn] is there, so [alloc_page] does not call
    [malloc] and the content passed for a new page ([[]]) is not used.
    The result of [alloc_page] is tested on a first touch and ignored
    when a shared page is copied.  An entry outside the arrays, which C
    leaves undefined, is reported as a failure. *)
Definition handle_page_fault (vpn rw : Z) (s : state) : bool * state :=
  let '(pd, s) := locate_pd zero_pd vpn s in
  match read_pte s pd (page_entry_idx vpn) with
  | None => (false, s)
  | Some p =>
      if negb (pte_valid p) then
        let '(r, s) := alloc_page [] vpn rw s in
        if r =? UINT_MINUS_1 then (false, s) else (true, s)
      else if negb (pte_rw p =? rw) && nonzero (Z.land rw ACCESS_WRITE) then
        if nonzero (Z.land (pte_rw p) ACCESS_READ)
           && nonzero (Z.land (pte_private p) ACCESS_WRITE) then
          if 1 <? mapcount s (pte_pfn p) then
            let old_pfn := pte_pfn p in
            let '(new_pfn, s) := alloc_page [] vpn 3 s in
            let s := set_mapcounts
                       (alter (fun m => wrap32 (m - 1)) (Z.to_nat old_pfn)
                              (mapcounts s)) s in
            let s := update_pte pd (page_entry_idx vpn)
                       (fun p => mk_pte (pte_valid p) (Z.lor (pte_rw p) ACCESS_WRITE)
                                   (pte_pfn p) (pte_private p)) s in
            let s := update_pte pd (page_entry_idx vpn)
                       (fun p => mk_pte (pte_valid p) (pte_rw p) new_pfn (pte_private p)) s in
            (true, s)
          else
            (true, update_pte pd (page_entry_idx vpn)
                     (fun p => mk_pte (pte_valid p) (Z.lor (pte_rw p) ACCESS_WRITE)
                                 (pte_pfn p) (pte_private p)) s)
        else (false, s)
      else (true, s)
  end.

(** ** [switch_process] *)

(** [list_for_each_entry (p, &processes, list) if (p->pid == pid)]: the
    position in the ready queue of the first process with [pid], and the
    process. *)
Fixpoint find_process (mem : list process) (q : list nat) (target : Z) (i : nat)
  : option (nat * nat) :=
  match q with
  | [] => None
  | p :: q' =>
      match mem !! p with
      | Some pr =>
          if pid pr =? target then Some (i, p)
          else find_process mem q' target (S i)
      | None => find_process mem q' target (S i)
      end
  end.

(** One iteration of the inner loop of the fork: the parent's entry after
    it, and the child's entry. *)
Definition fork_pte (c : pte) (mc : list Z) : pte * pte * list Z :=
  let n := c in
  if pte_valid c then
    let n := mk_pte true (pte_rw n) (pte_pfn n) (pte_private n) in
    let '(c, n) :=
      if negb (nonzero (pte_private c))
      then (mk_pte (pte_valid c) (pte_rw c) (pte_pfn c) (pte_rw c),
            mk_pte (pte_valid n) (pte_rw n) (pte_pfn n) (pte_rw c))
      else (c, n) in
    let c := mk_pte (pte_valid c) ACCESS_READ (pte_pfn c) (pte_private c) in
    let n := mk_pte (pte_valid n) ACCESS_READ (pte_pfn n) (pte_private n) in
    let n := mk_pte (pte_valid n) (pte_rw n) (pte_pfn c) (pte_private n) in
    (c, n, alter (fun m => wrap32 (m + 1)) (Z.to_nat (pte_pfn n)) mc)
  else (c, n, mc).

(** The inner loop over the entries of one page-table page. *)
Fixpoint fork_ptes (cur : list pte) (mc : list Z) : list pte * list pte * list Z :=
  match cur with
  | [] => ([], [], mc)
  | c :: cur' =>
      let '(c1, n1, mc) := fork_pte c mc in
      let '(cs, ns, mc) := fork_ptes cur' mc in
      (c1 :: cs, n1 :: ns, mc)
  end.

(** The outer loop over the page directory of the parent: the page
    directory of the child, the store of page-table pages and the map
    counts after it. *)
Fixpoint fork_pdes (cur : list (option nat)) (mem : list pte_directory) (mc : list Z)
  : list (option nat) * list pte_directory * list Z :=
  match cur with
  | [] => ([], mem, mc)
  | None :: cur' =>
      let '(ns, mem, mc) := fork_pdes cur' mem mc in
      (None :: ns, mem, mc)
  | Some d :: cur' =>
      let nd := length mem in
      let '(cdir, ndir, mc) := fork_ptes (default [] (mem !! d)) mc in
      let mem := <[d := cdir]> mem ++ [ndir] in
      let '(ns, mem, mc) := fork_pdes cur' mem mc in
      (Some nd :: ns, mem, mc)
  end.

(** [current->pagetable.pdes]. *)
Definition cur_pdes (s : state) : list (option nat) :=
  match proc_mem s !! current s with
  | Some pr => pdes (proc_pagetable pr)
  | None => []
  end.

(** [switch_process]: the search of the ready queue, the fork when the
    search fails ([next] is a new process object) or the removal of [next]
    from the queue, then the loop over the TLB, [list_add_tail] of the
    running process, [current = next] and [ptbr = &current->pagetable]. *)
Definition switch_process (target : Z) (s : state) : state :=
  let '(next, s) :=
    match find_process (proc_mem s) (processes s) target 0 with
    | None =>
        let next := length (proc_mem s) in
        let '(npdes, mem, mc) := fork_pdes (cur_pdes s) (pd_mem s) (mapcounts s) in
        (next,
         mk_state mem (proc_mem s ++ [mk_process target (mk_pagetable npdes)])
           (processes s) (current s) (ptbr s) (tlb s) mc)
    | Some (i, next) =>
        (next,
         mk_state (pd_mem s) (proc_mem s) (delete i (processes s)) (current s)
           (ptbr s) (tlb s) (mapcounts s))
    end in
  mk_state (pd_mem s) (proc_mem s) (processes s ++ [current s]) next next
    (tlb_flush (tlb s)) (mapcounts s).

(** ** The state at simulation start *)

(** Modelled from the spec: the framework that creates the first process
    is not among the sources.  "A Process is created ... by the external
    framework at simulation start"; the globals of a C program start
    zeroed, so no frame is mapped, the TLB is empty, the ready queue is
    empty and the first process has an empty page table. *)
Definition init_state (pid0 : Z) : state :=
  mk_state []
    [mk_process pid0 (mk_pagetable (replicate NR_PDES_PER_PAGE None))]
    [] 0%nat 0%nat
    (replicate NR_TLB_ENTRIES (mk_tlb_entry false 0 0 0 0))
    (replicate NR_PAGEFRAMES 0).

(** ** Vocabulary of the properties *)

(** The virtual page numbers the two-level table covers. *)
Definition in_range (vpn : Z) : Prop :=
  0 <= vpn < Z.of_nat NR_PDES_PER_PAGE * Z.of_nat NR_PTES_PER_PAGE.

(** The live processes: the running one and the ready queue. *)
Definition live (s : state) : list nat := current s :: processes s.

(** The page-table pages a page directory points to. *)
Definition dirs_of (l : list (option nat)) : list nat := omap id l.

(** The page-table pages of process [p]. *)
Definition proc_dirs (s : state) (p : nat) : list nat :=
  match proc_mem s !! p with
  | Some pr => dirs_of (pdes (proc_pagetable pr))
  | None => []
  end.

(** The page-table pages of all live processes. *)
Definition all_dirs (s : state) : list nat := live s ≫= proc_dirs s.

(** [p] is a valid entry that maps frame [f]. *)
Definition maps_frame (f : Z) (p : pte) : bool :=
  pte_valid p && (pte_pfn p =? f).

(** The number of valid entries of a page-table page that map [f]. *)
Fixpoint dir_refs (f : Z) (dir : list pte) : nat :=
  match dir with
  | [] => 0%nat
  | p :: dir' => (Nat.b2n (maps_frame f p) + dir_refs f dir')%nat
  end.

(** The number of valid entries that map [f] in the pages [ds] of the
    store [mem]. *)
Definition sum_refs (f : Z) (mem : list pte_directory) (ds : list nat) : nat :=
  sum_list_with (fun d => dir_refs f (default [] (mem !! d))) ds.

(** The number of valid page-table entries of process [p] that map [f]. *)
Definition proc_refs (s : state) (f : Z) (p : nat) : nat :=
  sum_refs f (pd_mem s) (proc_dirs s p).

(** The number of valid page-table entries across all live processes
    that map [f]. *)
Definition refs (s : state) (f : Z) : nat :=
  sum_list_with (proc_refs s f) (live s).

(** The number of valid entries that map [f] in the whole store of
    page-table pages. *)
Definition total_refs (f : Z) (mem : list pte_directory) : nat :=
  sum_list_with (dir_refs f) mem.

(** A frame is free. *)
Definition has_free (s : state) : Prop :=
  exists f : nat, mapcounts s !! f = Some 0.

(** ** Well-formed states *)

(** A valid entry maps one of the frames. *)
Definition wf_pte (p : pte) : Prop :=
  pte_valid p = true -> 0 <= pte_pfn p < Z.of_nat NR_PAGEFRAMES.

(** A page-table page has [NR_PTES_PER_PAGE] entries. *)
Definition wf_dir (dir : pte_directory) : Prop :=
  length dir = NR_PTES_PER_PAGE /\ Forall wf_pte dir.

(** [p] designates a process, whose page directory has
    [NR_PDES_PER_PAGE] slots. *)
Definition wf_proc (s : state) (p : nat) : Prop :=
  exists pr, proc_mem s !! p = Some pr /\
             length (pdes (proc_pagetable pr)) = NR_PDES_PER_PAGE.

(** The arrays have their declared sizes, the map counts are 32-bit
    values, the live processes are distinct objects, and every page-table
    page of the store belongs to exactly one slot of one live process. *)
Record wf_state (s : state) : Prop := mk_wf_state {
  wf_mapcounts : length (mapcounts s) = NR_PAGEFRAMES;
  wf_counts : Forall (fun m => 0 <= m < 4294967296) (mapcounts s);
  wf_live : NoDup (live s);
  wf_procs : Forall (wf_proc s) (live s);
  wf_owned : all_dirs s ≡ₚ seq 0 (length (pd_mem s));
  wf_dirs : Forall wf_dir (pd_mem s)
}.

(** Every map count is the number of valid entries that map the frame,
    as a 32-bit value. *)
Definition counted (s : state) : Prop :=
  forall f, 0 <= f < Z.of_nat NR_PAGEFRAMES ->
            mapcount s f = wrap32 (Z.of_nat (total_refs f (pd_mem s))).

(** ** Runs of the simulator *)

(** The page-fault handler is about to copy a shared page. *)
Definition cow_copy (s : state) (vpn rw : Z) : Prop :=
  exists p, pte_of s (current s) vpn = Some p /\
            pte_valid p = true /\
            pte_rw p <> rw /\
            Z.land rw ACCESS_WRITE <> 0 /\
            Z.land (pte_rw p) ACCESS_READ <> 0 /\
            Z.land (pte_private p) ACCESS_WRITE <> 0 /\
            1 < mapcount s (pte_pfn p).

(** The page-fault handler is about to call the allocator: on a first
    touch, and to copy a shared page. *)
Definition fault_allocates (s : state) (vpn rw : Z) : Prop :=
  pte_of s (current s) vpn = None \/
  (exists p, pte_of s (current s) vpn = Some p /\ pte_valid p = false) \/
  cow_copy s vpn rw.

(** No valid entry in the memory [malloc] hands out. *)
Definition clean (junk : pte_directory) : Prop :=
  length junk = NR_PTES_PER_PAGE /\ Forall (fun p => pte_valid p = false) junk.

(** [vpn] is not mapped in the current process, and if its page-table
    page is absent the memory that [alloc_page] will obtain for it is
    clean. *)
Definition unmapped (s : state) (vpn : Z) (junk : pte_directory) : Prop :=
  match pte_of s (current s) vpn with
  | Some p => pte_valid p = false
  | None => clean junk
  end.

(** One call of an operation, with an in-range page number and no
    allocation failure; [ok] is what is required in addition for a call
    of [alloc_page]. *)
Inductive step (ok : state -> Z -> pte_directory -> Prop) : state -> state -> Prop :=
| step_alloc_page junk vpn rw s :
    in_range vpn -> has_free s -> length junk = NR_PTES_PER_PAGE ->
    ok s vpn junk ->
    step ok s (alloc_page junk vpn rw s).2
| step_free_page vpn s :
    in_range vpn ->
    step ok s (free_page vpn s)
| step_handle_page_fault vpn rw s :
    in_range vpn -> (fault_allocates s vpn rw -> has_free s) ->
    step ok s (handle_page_fault vpn rw s).2
| step_switch_process target s :
    step ok s (switch_process target s).

(** The states reached from the initial state. *)
Inductive reachable (ok : state -> Z -> pte_directory -> Prop) (pid0 : Z)
  : state -> Prop :=
| reachable_init : reachable ok pid0 (init_state pid0)
| reachable_step s s' :
    reachable ok pid0 s -> step ok s s' -> reachable ok pid0 s'.

(** Any sequence of the four operations. *)
Definition any_call (s : state) (vpn : Z) (junk : pte_directory) : Prop := True.

(** The downgrade of a page-table entry by the fork. *)
Definition cow_pte (c : pte) : pte :=
  if pte_valid c
  then mk_pte true ACCESS_READ (pte_pfn c)
         (if pte_private c =? 0 then pte_rw c else pte_private c)
  else c.

(** The state after a new page-table page has been installed in an empty
    slot of the current process. *)
Definition attach_pd (content : pte_directory) (i : nat) (s : state) : state :=
  mk_state (pd_mem s ++ [content])
    (alter (fun pr => mk_process (pid pr)
                        (mk_pagetable (<[i := Some (length (pd_mem s))]>
                                         (pdes (proc_pagetable pr)))))
           (current s) (proc_mem s))
    (processes s) (current s) (ptbr s) (tlb s) (mapcounts s).

(** The map counts after the inner loop of the fork over one page-table
    page. *)
Fixpoint fork_counts (cur : list pte) (mc : list Z) : list Z :=
  match cur with
  | [] => mc
  | c :: cur' =>
      fork_counts cur'
        (if pte_valid c
         then alter (fun m => wrap32 (m + 1)) (Z.to_nat (pte_pfn c)) mc
         else mc)
  end.


(** ** Sequences of calls *)

(** A call of one of the entry points that change the state
    ([lookup_tlb] only reads it).  A call of [alloc_page] comes with the
    content of the memory [malloc] returns if the call needs a page-table
    page. *)
Inductive call :=
| call_insert_tlb (vpn rw pfn : Z)
| call_alloc_page (junk : pte_directory) (vpn rw : Z)
| call_free_page (vpn : Z)
| call_handle_page_fault (vpn rw : Z)
| call_switch_process (target : Z).

(** The state after a call; the value the call returns is dropped. *)
Definition exec (c : call) (s : state) : state :=
  match c with
  | call_insert_tlb vpn rw pfn => insert_tlb vpn rw pfn s
  | call_alloc_page junk vpn rw => (alloc_page junk vpn rw s).2
  | call_free_page vpn => free_page vpn s
  | call_handle_page_fault vpn rw => (handle_page_fault vpn rw s).2
  | call_switch_process target => switch_process target s
  end.

(** The state after a sequence of calls, the first call first. *)
Definition run (cs : list call) (s : state) : state :=
  fold_left (fun s c => exec c s) cs s.

(** The call is not a call of [free_page]. *)
Definition not_free_page (c : call) : Prop :=
  match c with
  | call_free_page _ => False
  | _ => True
  end.

(** No invalid entry of the TLB keeps an access bit. *)
Definition tlb_ok (t : list tlb_entry) : Prop :=
  Forall (fun e => tlb_valid e = false -> tlb_rw e = 0) t.

(** The valid entries of the TLB come first. *)
Fixpoint tlb_packed (t : list tlb_entry) : Prop :=
  match t with
  | [] => True
  | e :: t' =>
      if tlb_valid e then tlb_packed t'
      else Forall (fun e => tlb_valid e = false) t'
  end.

(** The pids of the live processes, the running one first. *)
Definition live_pids (s : state) : list Z :=
  omap (fun p => pid <$> proc_mem s !! p) (live s).
(** * The TLB *)

(** What [lookup_tlb] computes: the frame of the first entry whose [vpn]
    matches and whose [rw] shares a bit with the access. *)
Lemma lookup_tlb_from_Some t vpn rw pfn :
  lookup_tlb_from t vpn rw = Some pfn <->
  exists i e,
    t !! i = Some e /\ tlb_vpn e = vpn /\ Z.land (tlb_rw e) rw <> 0 /\
    tlb_pfn e = pfn /\
    forall j e', (j < i)%nat -> t !! j = Some e' ->
                 ~ (tlb_vpn e' = vpn /\ Z.land (tlb_rw e') rw <> 0).
Proof.
  induction t as [|a t IH]; simpl.
  - split; [discriminate|]. intros (i & e & H & _). destruct i; discriminate.
  - unfold nonzero.
    destruct (Z.eqb_spec (tlb_vpn a) vpn) as [Hv|Hv];
      destruct (Z.eqb_spec (Z.land (tlb_rw a) rw) 0) as [Hz|Hz]; simpl.
    all: try (rewrite IH; split;
      [ intros (i & e & H1 & H2 & H3 & H4 & H5); exists (S i), e;
        repeat split; auto; intros [|j] e' Hj Hl;
        [ simpl in Hl; injection Hl as <-; tauto
        | apply (H5 j e'); [lia | exact Hl] ]
      | intros ([|i] & e & H1 & H2 & H3 & H4 & H5);
        [ simpl in H1; injection H1 as <-; tauto
        | exists i, e; repeat split; auto; intros j e' Hj Hl;
          apply (H5 (S j) e'); [lia | exact Hl] ] ]).
    split.
    + intros [= <-]. exists 0%nat, a. repeat split; auto. intros j e' Hj; lia.
    + intros ([|i] & e & H1 & H2 & H3 & H4 & H5).
      * simpl in H1. injection H1 as <-. congruence.
      * exfalso. apply (H5 0%nat a); [lia | reflexivity | tauto].
Qed.

(** C6: a valid TLB entry caching [vpn] read-only answers a read-write
    access: [lookup_tlb] tests that the cached bits and the access share
    a bit, not that the cached bits contain the access. *)
Theorem lookup_tlb_read_only_serves_read_write
  (s : state) (e : tlb_entry) (t : list tlb_entry) (vpn : Z) :
  tlb s = e :: t ->
  tlb_valid e = true ->
  tlb_vpn e = vpn ->
  tlb_rw e = ACCESS_READ ->
  lookup_tlb vpn (Z.lor ACCESS_READ ACCESS_WRITE) s = Some (tlb_pfn e).
Proof.
  intros Ht _ Hv Hrw. unfold lookup_tlb. rewrite Ht. simpl.
  rewrite Hv, Hrw, Z.eqb_refl. reflexivity.
Qed.

(** [insert_tlb] when the scan meets no invalid slot before a valid entry
    for [vpn]: that entry is updated in place. *)
Lemma insert_tlb_from_update t1 e t2 vpn rw pfn :
  Forall (fun a => tlb_valid a = true /\ tlb_vpn a <> vpn) t1 ->
  tlb_valid e = true -> tlb_vpn e = vpn ->
  insert_tlb_from (t1 ++ e :: t2) vpn rw pfn =
  t1 ++ mk_tlb_entry true rw vpn pfn (tlb_private e) :: t2.
Proof.
  intros H He Hv. induction H as [|a t1 [Ha1 Ha2] _ IH]; simpl.
  - rewrite He, Hv, Z.eqb_refl. reflexivity.
  - rewrite Ha1. simpl. destruct (Z.eqb_spec (tlb_vpn a) vpn); [tauto|].
    rewrite IH. reflexivity.
Qed.

(** [insert_tlb] when no valid entry for [vpn] precedes the first invalid
    slot: that slot is occupied. *)
Lemma insert_tlb_from_fill t1 e t2 vpn rw pfn :
  Forall (fun a => tlb_valid a = true /\ tlb_vpn a <> vpn) t1 ->
  tlb_valid e = false ->
  insert_tlb_from (t1 ++ e :: t2) vpn rw pfn =
  t1 ++ mk_tlb_entry true rw vpn pfn (tlb_private e) :: t2.
Proof.
  intros H He. induction H as [|a t1 [Ha1 Ha2] _ IH]; simpl.
  - rewrite He. reflexivity.
  - rewrite Ha1. simpl. destruct (Z.eqb_spec (tlb_vpn a) vpn); [tauto|].
    rewrite IH. reflexivity.
Qed.

(** [insert_tlb] when every slot is valid and none holds [vpn]: nothing
    changes. *)
Lemma insert_tlb_from_full t vpn rw pfn :
  Forall (fun a => tlb_valid a = true /\ tlb_vpn a <> vpn) t ->
  insert_tlb_from t vpn rw pfn = t.
Proof.
  intros H. induction H as [|a t [Ha1 Ha2] _ IH]; simpl; [reflexivity|].
  rewrite Ha1. simpl. destruct (Z.eqb_spec (tlb_vpn a) vpn); [tauto|].
  rewrite IH. reflexivity.
Qed.

(** C7: when an invalid slot precedes the valid entry for [vpn],
    [insert_tlb] fills the invalid slot and leaves the old entry as it
    is: the TLB then holds two valid entries for [vpn]. *)
Theorem insert_tlb_duplicates_after_hole
  (s : state) (e0 e1 : tlb_entry) (t : list tlb_entry) (vpn rw pfn : Z) :
  tlb s = e0 :: e1 :: t ->
  tlb_valid e0 = false ->
  tlb_valid e1 = true ->
  tlb_vpn e1 = vpn ->
  tlb (insert_tlb vpn rw pfn s) =
    mk_tlb_entry true rw vpn pfn (tlb_private e0) :: e1 :: t.
Proof.
  intros Ht H0 _ _. unfold insert_tlb. simpl. rewrite Ht. simpl.
  rewrite H0. reflexivity.
Qed.

(** * [switch_process]: the TLB, the ready queue and [ptbr] *)

Lemma switch_process_tlb target s :
  tlb (switch_process target s) = tlb_flush (tlb s).
Proof.
  unfold switch_process.
  destruct (find_process _ _ _ _) as [[i next]|]; [reflexivity|].
  destruct (fork_pdes _ _ _) as [[ns mem] mc]. reflexivity.
Qed.

(** The flush clears the TLB when its valid entries come first. *)
Lemma tlb_flush_prefix t1 t2 :
  Forall (fun e => tlb_valid e = true) t1 ->
  Forall (fun e => tlb_valid e = false) t2 ->
  Forall (fun e => tlb_valid e = false) (tlb_flush (t1 ++ t2)).
Proof.
  intros H1 H2. induction H1 as [|e t1 He _ IH]; simpl.
  - destruct H2 as [|e t2 He H2]; simpl; [constructor|].
    rewrite He. simpl. constructor; assumption.
  - rewrite He. simpl. constructor; [reflexivity | exact IH].
Qed.

(** After [switch_process] the process that was running is the last
    element of the ready queue, the process switched to is no longer the
    element that was found there, and [ptbr] designates the page table of
    the new current process. *)
Lemma switch_process_queue_ptbr target s :
  let s' := switch_process target s in
  ptbr s' = current s' /\
  match find_process (proc_mem s) (processes s) target 0 with
  | Some (i, next) =>
      current s' = next /\ processes s' = delete i (processes s) ++ [current s]
  | None =>
      current s' = length (proc_mem s) /\ processes s' = processes s ++ [current s]
  end.
Proof.
  unfold switch_process.
  destruct (find_process _ _ _ _) as [[i next]|]; simpl; [auto|].
  destruct (fork_pdes _ _ _) as [[ns mem] mc]. simpl. auto.
Qed.

(** C4: [switch_process] stops clearing the TLB at the first invalid
    entry, so a valid entry that sits behind an invalid one survives the
    switch. *)
Theorem switch_process_keeps_tlb_entry_behind_hole
  (s : state) (e0 e1 : tlb_entry) (t : list tlb_entry) (target : Z) :
  tlb s = e0 :: e1 :: t ->
  tlb_valid e0 = false ->
  tlb_valid e1 = true ->
  tlb (switch_process target s) !! 1%nat = Some e1.
Proof.
  intros Ht H0 _. rewrite switch_process_tlb, Ht. simpl. rewrite H0. reflexivity.
Qed.


(** * Arithmetic and arrays *)

Lemma wrap32_range z : 0 <= wrap32 z < 4294967296.
Proof. unfold wrap32. apply Z.mod_pos_bound. lia. Qed.

Lemma wrap32_small z : 0 <= z < 4294967296 -> wrap32 z = z.
Proof. intros H. unfold wrap32. apply Z.mod_small. exact H. Qed.

Lemma wrap32_add_l a b : wrap32 (wrap32 a + b) = wrap32 (a + b).
Proof. unfold wrap32. apply Zplus_mod_idemp_l. Qed.


Lemma page_dir_idx_lt vpn :
  in_range vpn -> (page_dir_idx vpn < NR_PDES_PER_PAGE)%nat.
Proof.
  unfold in_range, page_dir_idx. intros [H0 H1].
  assert (0 < Z.of_nat NR_PTES_PER_PAGE) by nia.
  assert (vpn / Z.of_nat NR_PTES_PER_PAGE < Z.of_nat NR_PDES_PER_PAGE).
  { apply Z.div_lt_upper_bound; lia. }
  assert (0 <= vpn / Z.of_nat NR_PTES_PER_PAGE) by (apply Z.div_pos; lia).
  lia.
Qed.

Lemma page_entry_idx_lt vpn :
  in_range vpn -> (page_entry_idx vpn < NR_PTES_PER_PAGE)%nat.
Proof.
  unfold in_range, page_entry_idx. intros [H0 H1].
  assert (Hn : 0 < Z.of_nat NR_PTES_PER_PAGE) by nia.
  pose proof (Z.mod_pos_bound vpn _ Hn) as Hm.
  rewrite Z.mod_eq in Hm by lia.
  replace (vpn / Z.of_nat NR_PTES_PER_PAGE * Z.of_nat NR_PTES_PER_PAGE)
    with (Z.of_nat NR_PTES_PER_PAGE * (vpn / Z.of_nat NR_PTES_PER_PAGE)) by lia.
  lia.
Qed.

(** Two page numbers with the same indices are the same page. *)
Lemma page_idx_inj v w :
  in_range v -> in_range w ->
  page_dir_idx v = page_dir_idx w -> page_entry_idx v = page_entry_idx w ->
  v = w.
Proof.
  unfold in_range, page_dir_idx, page_entry_idx. intros [Hv0 Hv1] [Hw0 Hw1] Hd He.
  assert (Hn : 0 < Z.of_nat NR_PTES_PER_PAGE) by nia.
  pose proof (Z.div_pos v _ Hv0 Hn). pose proof (Z.div_pos w _ Hw0 Hn).
  pose proof (Z.mod_pos_bound v _ Hn) as Hmv.
  pose proof (Z.mod_pos_bound w _ Hn) as Hmw.
  rewrite Z.mod_eq in Hmv, Hmw by lia.
  assert (v / Z.of_nat NR_PTES_PER_PAGE = w / Z.of_nat NR_PTES_PER_PAGE) by lia.
  nia.
Qed.

Lemma mc_get_alter h (g f : Z) mc :
  0 <= g -> 0 <= f ->
  mc_get (alter h (Z.to_nat g) mc) f =
  if decide (f = g) then
    match mc !! Z.to_nat g with Some m => h m | None => 0 end
  else mc_get mc f.
Proof.
  intros Hg Hf. unfold mc_get. destruct (decide (f = g)) as [->|Hne].
  - rewrite list_lookup_alter_eq. destruct (mc !! Z.to_nat g); reflexivity.
  - rewrite list_lookup_alter_ne by lia. reflexivity.
Qed.

Lemma mc_get_insert (pfn : nat) (f : Z) x mc :
  0 <= f -> (pfn < length mc)%nat ->
  mc_get (<[pfn := x]> mc) f =
  if decide (f = Z.of_nat pfn) then x else mc_get mc f.
Proof.
  intros Hf Hl. unfold mc_get. destruct (decide (f = Z.of_nat pfn)) as [->|Hne].
  - rewrite Nat2Z.id, list_lookup_insert_eq by exact Hl. reflexivity.
  - rewrite list_lookup_insert_ne by lia. reflexivity.
Qed.

Lemma mc_get_range mc f :
  Forall (fun m => 0 <= m < 4294967296) mc -> 0 <= mc_get mc f < 4294967296.
Proof.
  intros H. unfold mc_get. destruct (mc !! Z.to_nat f) as [m|] eqn:E; simpl; [|lia].
  exact (proj1 (Forall_lookup _ _) H _ _ E).
Qed.


(** The scan for a free frame returns the first frame whose count is
    zero. *)
Lemma find_free_Some mc k pfn :
  find_free mc k = Some pfn ->
  (k <= pfn)%nat /\ mc !! (pfn - k)%nat = Some 0 /\
  forall g, (g < pfn - k)%nat -> mc !! g <> Some 0.
Proof.
  revert k. induction mc as [|m mc IH]; intros k; simpl; [discriminate|].
  destruct (Z.eqb_spec m 0) as [->|Hm].
  - intros [= <-]. rewrite Nat.sub_diag. repeat split; auto. intros g Hg. lia.
  - intros H. destruct (IH _ H) as (H1 & H2 & H3).
    replace (pfn - k)%nat with (S (pfn - S k)) by lia. simpl.
    repeat split; [lia | exact H2 |].
    intros [|g] Hg; simpl; [congruence | apply H3; lia].
Qed.

Lemma find_free_None mc k :
  find_free mc k = None <-> forall g, mc !! g <> Some 0.
Proof.
  revert k. induction mc as [|m mc IH]; intros k; simpl.
  - split; [intros _ g; rewrite lookup_nil; discriminate | reflexivity].
  - destruct (Z.eqb_spec m 0) as [->|Hm].
    + split; [discriminate|]. intros H. exfalso. apply (H 0%nat). reflexivity.
    + rewrite IH. split.
      * intros H [|g]; simpl; [congruence | apply H].
      * intros H g. apply (H (S g)).
Qed.

Lemma has_free_find s :
  has_free s -> exists pfn, find_free (mapcounts s) 0 = Some pfn.
Proof.
  intros [f Hf]. destruct (find_free (mapcounts s) 0) as [pfn|] eqn:E; [eauto|].
  rewrite find_free_None in E. exfalso. exact (E f Hf).
Qed.


Lemma dir_refs_alter f g e dir p :
  dir !! e = Some p ->
  (dir_refs f (alter g e dir) + Nat.b2n (maps_frame f p) =
   dir_refs f dir + Nat.b2n (maps_frame f (g p)))%nat.
Proof.
  revert e. induction dir as [|q dir IH]; intros [|e]; simpl; try discriminate.
  - intros [= ->]. lia.
  - intros H. specialize (IH e H). unfold alter in IH. lia.
Qed.

Lemma dir_refs_invalid f dir :
  Forall (fun p => pte_valid p = false) dir -> dir_refs f dir = 0%nat.
Proof.
  induction 1 as [|p dir Hp _ IH]; simpl; [reflexivity|].
  unfold maps_frame. rewrite Hp, IH. reflexivity.
Qed.


Lemma total_refs_app f m1 m2 :
  total_refs f (m1 ++ m2) = (total_refs f m1 + total_refs f m2)%nat.
Proof. unfold total_refs. apply sum_list_with_app. Qed.

Lemma total_refs_alter f (h : pte_directory -> pte_directory) d mem dir :
  mem !! d = Some dir ->
  (total_refs f (alter h d mem) + dir_refs f dir =
   total_refs f mem + dir_refs f (h dir))%nat.
Proof.
  unfold total_refs. revert d.
  induction mem as [|x mem IH]; intros [|d]; simpl; try discriminate.
  - intros [= ->]. lia.
  - intros H. specialize (IH d H). unfold alter in IH. lia.
Qed.

Lemma total_refs_insert f d mem dir dir' :
  mem !! d = Some dir ->
  (total_refs f (<[d := dir']> mem) + dir_refs f dir =
   total_refs f mem + dir_refs f dir')%nat.
Proof.
  intros H. rewrite list_insert_alter. apply (total_refs_alter f (fun _ => dir') d mem dir H).
Qed.

Lemma sum_refs_perm f mem ds ds' :
  ds ≡ₚ ds' -> sum_refs f mem ds = sum_refs f mem ds'.
Proof. intros H. unfold sum_refs. rewrite H. reflexivity. Qed.

Lemma sum_refs_app f mem ds ds' :
  sum_refs f mem (ds ++ ds') = (sum_refs f mem ds + sum_refs f mem ds')%nat.
Proof. unfold sum_refs. apply sum_list_with_app. Qed.

Lemma sum_refs_seq f mem :
  sum_refs f mem (seq 0 (length mem)) = total_refs f mem.
Proof.
  unfold sum_refs, total_refs.
  induction mem as [|x mem IH] using rev_ind; [reflexivity|].
  rewrite length_app. simpl. rewrite Nat.add_1_r, seq_S, !sum_list_with_app. simpl.
  rewrite lookup_app_r, Nat.sub_diag by lia. simpl. rewrite <- IH.
  f_equal. clear IH. generalize (Nat.le_refl (length mem)).
  generalize (length mem) at 1 3 4 as n. intros n Hn.
  assert (H : forall k, (k + n <= length mem)%nat ->
            sum_list_with (fun d => dir_refs f (default [] ((mem ++ [x]) !! d))) (seq k n) =
            sum_list_with (fun d => dir_refs f (default [] (mem !! d))) (seq k n)).
  { clear Hn. induction n as [|n IHn]; intros k Hk; simpl; [reflexivity|].
    rewrite lookup_app_l by lia. rewrite IHn by lia. reflexivity. }
  apply H. lia.
Qed.

(** The count over the live processes is the count over their pages. *)
Lemma refs_all_dirs s f : refs s f = sum_refs f (pd_mem s) (all_dirs s).
Proof.
  unfold refs, all_dirs, proc_refs. induction (live s) as [|p l IH]; simpl.
  - reflexivity.
  - rewrite sum_refs_app, IH. reflexivity.
Qed.

(** In a well-formed state the count over the live processes is the
    count over the store. *)
Lemma refs_total s f :
  all_dirs s ≡ₚ seq 0 (length (pd_mem s)) ->
  refs s f = total_refs f (pd_mem s).
Proof.
  intros H. rewrite refs_all_dirs, (sum_refs_perm _ _ _ _ H). apply sum_refs_seq.
Qed.

(** * Well-formed states *)

Lemma b2n_b2z b : Z.of_nat (Nat.b2n b) = Z.b2z b.
Proof. destruct b; reflexivity. Qed.

Lemma wf_current s :
  wf_state s ->
  exists pr, proc_mem s !! current s = Some pr /\
             length (pdes (proc_pagetable pr)) = NR_PDES_PER_PAGE.
Proof.
  intros H. pose proof (wf_procs s H) as Hp. unfold live in Hp.
  apply Forall_cons_1 in Hp. exact (proj1 Hp).
Qed.

Lemma current_live s : current s ∈ live s.
Proof. unfold live. apply list_elem_of_here. Qed.

Lemma proc_pde_in_dirs s p i d :
  proc_pde s p i = Some d -> d ∈ proc_dirs s p.
Proof.
  unfold proc_pde, proc_dirs. destruct (proc_mem s !! p) as [pr|]; [|discriminate].
  destruct (pdes (proc_pagetable pr) !! i) as [o|] eqn:E; [|discriminate].
  intros ->. unfold dirs_of. apply list_elem_of_omap. exists (Some d).
  split; [eapply list_elem_of_lookup_2; exact E | reflexivity].
Qed.

Lemma all_dirs_elem s p d :
  p ∈ live s -> d ∈ proc_dirs s p -> d ∈ all_dirs s.
Proof. unfold all_dirs. intros Hp Hd. apply list_elem_of_bind. eauto. Qed.

Lemma wf_dir_lookup s d :
  wf_state s -> d ∈ all_dirs s ->
  exists dir, pd_mem s !! d = Some dir /\ wf_dir dir.
Proof.
  intros H Hd. rewrite (wf_owned s H) in Hd. apply elem_of_seq in Hd.
  destruct (lookup_lt_is_Some_2 (pd_mem s) d) as [dir Hdir]; [lia|].
  exists dir. split; [exact Hdir|].
  exact (proj1 (Forall_lookup _ _) (wf_dirs s H) d dir Hdir).
Qed.

(** The page-table entry of an in-range page in a live process: its
    page-table page is absent, or the entry exists. *)
Lemma wf_pte_lookup s p vpn :
  wf_state s -> p ∈ live s -> in_range vpn ->
  (proc_pde s p (page_dir_idx vpn) = None /\ pte_of s p vpn = None) \/
  (exists pd dir x,
      proc_pde s p (page_dir_idx vpn) = Some pd /\
      pd_mem s !! pd = Some dir /\ wf_dir dir /\
      dir !! page_entry_idx vpn = Some x /\ pte_of s p vpn = Some x).
Proof.
  intros H Hp Hv. unfold pte_of.
  destruct (proc_pde s p (page_dir_idx vpn)) as [pd|] eqn:E; [right | left; auto].
  destruct (wf_dir_lookup s pd H) as (dir & Hdir & Hwf).
  { eapply all_dirs_elem; [exact Hp | eapply proc_pde_in_dirs; exact E]. }
  destruct (lookup_lt_is_Some_2 dir (page_entry_idx vpn)) as [x Hx].
  { rewrite (proj1 Hwf). apply page_entry_idx_lt, Hv. }
  exists pd, dir, x. unfold read_pte. rewrite Hdir. auto.
Qed.

Lemma wf_pde_absent s i :
  wf_state s -> (i < NR_PDES_PER_PAGE)%nat ->
  proc_pde s (current s) i = None ->
  exists pr, proc_mem s !! current s = Some pr /\
             pdes (proc_pagetable pr) !! i = Some None.
Proof.
  intros H Hi. destruct (wf_current s H) as (pr & Hpr & Hlen).
  unfold proc_pde. rewrite Hpr. intros E. exists pr. split; [reflexivity|].
  destruct (lookup_lt_is_Some_2 (pdes (proc_pagetable pr)) i) as [o Ho]; [lia|].
  rewrite Ho in E |- *. rewrite E. reflexivity.
Qed.

Lemma dirs_of_insert l i n :
  l !! i = Some None -> dirs_of (<[i := Some n]> l) ≡ₚ n :: dirs_of l.
Proof.
  unfold dirs_of. revert i. induction l as [|o l IH]; intros [|i]; simpl; try discriminate.
  - intros [= ->]. reflexivity.
  - intros H. specialize (IH i H). destruct o as [d|]; simpl.
    + etransitivity; [apply Permutation_skip, IH | apply Permutation_swap].
    + exact IH.
Qed.

Lemma bind_ext_in {A B} (f g : A -> list B) l :
  (forall x, x ∈ l -> f x = g x) -> l ≫= f = l ≫= g.
Proof.
  induction l as [|a l IH]; intros H; [reflexivity|].
  change ((a :: l) ≫= f) with (f a ++ (l ≫= f)).
  change ((a :: l) ≫= g) with (g a ++ (l ≫= g)).
  rewrite (H a) by apply list_elem_of_here.
  rewrite IH; [reflexivity|]. intros x Hx. apply H. apply list_elem_of_further, Hx.
Qed.

(** The state after a page-table entry has been assigned, whatever
    happened to the TLB: it is well formed, and the map counts are right
    when they changed as the mapping did. *)
Lemma wf_write_pte s pd e dir p' mc' t' :
  wf_state s ->
  pd_mem s !! pd = Some dir -> wf_pte p' ->
  length mc' = NR_PAGEFRAMES -> Forall (fun m => 0 <= m < 4294967296) mc' ->
  wf_state (mk_state (<[pd := <[e := p']> dir]> (pd_mem s)) (proc_mem s)
              (processes s) (current s) (ptbr s) t' mc').
Proof.
  intros H Hdir Hp' Hlen Hrng.
  assert (Hwd : wf_dir dir)
    by exact (proj1 (Forall_lookup _ _) (wf_dirs s H) pd dir Hdir).
  constructor; simpl; try assumption.
  - exact (wf_live s H).
  - exact (wf_procs s H).
  - unfold all_dirs, proc_dirs, live. simpl. rewrite length_insert.
    exact (wf_owned s H).
  - apply Forall_insert; [exact (wf_dirs s H)|].
    split; [rewrite length_insert; exact (proj1 Hwd)|].
    destruct (decide (e < length dir)%nat).
    + apply Forall_insert; [exact (proj2 Hwd) | exact Hp'].
    + rewrite list_insert_ge by lia. exact (proj2 Hwd).
Qed.

Lemma counted_write_pte s pd e dir p p' mc' t' :
  counted s ->
  pd_mem s !! pd = Some dir -> dir !! e = Some p ->
  (forall f, 0 <= f < Z.of_nat NR_PAGEFRAMES ->
     mc_get mc' f =
     wrap32 (mapcount s f - Z.b2z (maps_frame f p) + Z.b2z (maps_frame f p'))) ->
  counted (mk_state (<[pd := <[e := p']> dir]> (pd_mem s)) (proc_mem s)
             (processes s) (current s) (ptbr s) t' mc').
Proof.
  intros Hc Hdir He Hmc f Hf.
  change (mc_get mc' f =
          wrap32 (Z.of_nat (total_refs f (<[pd := <[e := p']> dir]> (pd_mem s))))).
  rewrite (Hmc f Hf), (Hc f Hf).
  pose proof (total_refs_insert f pd (pd_mem s) dir (<[e := p']> dir) Hdir) as H1.
  pose proof (dir_refs_alter f (fun _ => p') e dir p He) as H2.
  rewrite <- list_insert_alter in H2.
  rewrite <- !b2n_b2z.
  replace (Z.of_nat (total_refs f (<[pd:=<[e:=p']> dir]> (pd_mem s))))
    with (Z.of_nat (total_refs f (pd_mem s)) - Z.of_nat (Nat.b2n (maps_frame f p))
          + Z.of_nat (Nat.b2n (maps_frame f p'))) by lia.
  unfold wrap32. rewrite <- Zplus_mod_idemp_l, Zminus_mod_idemp_l.
  rewrite Zplus_mod_idemp_l. reflexivity.
Qed.


(** * Installing a page-table page *)

Lemma locate_pd_present content vpn s pd :
  proc_pde s (current s) (page_dir_idx vpn) = Some pd ->
  locate_pd content vpn s = (pd, s).
Proof. unfold locate_pd. intros ->. reflexivity. Qed.

Lemma locate_pd_absent content vpn s :
  proc_pde s (current s) (page_dir_idx vpn) = None ->
  locate_pd content vpn s =
  (length (pd_mem s), attach_pd content (page_dir_idx vpn) s).
Proof. unfold locate_pd. intros ->. reflexivity. Qed.

Lemma attach_pd_pde_eq content i s :
  wf_state s -> (i < NR_PDES_PER_PAGE)%nat ->
  proc_pde (attach_pd content i s) (current s) i = Some (length (pd_mem s)).
Proof.
  intros H Hi. destruct (wf_current s H) as (pr & Hpr & Hlen).
  unfold proc_pde, attach_pd. simpl.
  rewrite list_lookup_alter_eq, Hpr. simpl.
  rewrite list_lookup_insert_eq by lia. reflexivity.
Qed.


Lemma attach_pd_mem_new content i s :
  pd_mem (attach_pd content i s) !! length (pd_mem s) = Some content.
Proof. simpl. rewrite lookup_app_r, Nat.sub_diag by lia. reflexivity. Qed.

Lemma attach_pd_proc_dirs_ne content i s p :
  p <> current s -> proc_dirs (attach_pd content i s) p = proc_dirs s p.
Proof.
  intros Hp. unfold proc_dirs, attach_pd. simpl.
  rewrite list_lookup_alter_ne by congruence. reflexivity.
Qed.

Lemma attach_pd_wf content i s :
  wf_state s -> (i < NR_PDES_PER_PAGE)%nat ->
  proc_pde s (current s) i = None ->
  wf_dir content ->
  wf_state (attach_pd content i s).
Proof.
  intros H Hi Habs Hc.
  destruct (wf_pde_absent s i H Hi Habs) as (pr & Hpr & Hslot).
  pose proof (wf_live s H) as Hnd. unfold live in Hnd.
  apply NoDup_cons in Hnd. destruct Hnd as [Hcur Hnd].
  constructor.
  - exact (wf_mapcounts s H).
  - exact (wf_counts s H).
  - exact (wf_live s H).
  - apply Forall_forall. intros p Hp.
    pose proof (proj1 (Forall_forall _ _) (wf_procs s H) p Hp) as (pr0 & Hpr0 & Hlen).
    unfold wf_proc, attach_pd. simpl.
    destruct (decide (p = current s)) as [->|Hne].
    + rewrite list_lookup_alter_eq, Hpr0. simpl. eexists. split; [reflexivity|].
      simpl. rewrite length_insert. exact Hlen.
    + rewrite list_lookup_alter_ne by congruence. eauto.
  - unfold all_dirs, live.
    change ((current (attach_pd content i s) :: processes (attach_pd content i s))
              ≫= proc_dirs (attach_pd content i s))
      with (proc_dirs (attach_pd content i s) (current s)
              ++ (processes s ≫= proc_dirs (attach_pd content i s))).
    rewrite (bind_ext_in (proc_dirs (attach_pd content i s)) (proc_dirs s)).
    2:{ intros p Hp. apply attach_pd_proc_dirs_ne. intros ->. exact (Hcur Hp). }
    assert (Hd : proc_dirs (attach_pd content i s) (current s)
                 ≡ₚ length (pd_mem s) :: proc_dirs s (current s)).
    { unfold proc_dirs, attach_pd. simpl. rewrite list_lookup_alter_eq, Hpr. simpl.
      apply dirs_of_insert, Hslot. }
    rewrite Hd. simpl. rewrite length_app. simpl.
    rewrite Nat.add_1_r, seq_S. simpl.
    rewrite <- Permutation_cons_append. apply Permutation_skip.
    exact (wf_owned s H).
  - simpl. apply Forall_app. split; [exact (wf_dirs s H)|].
    apply Forall_cons. split; [exact Hc | constructor].
Qed.

Lemma attach_pd_counted content i s :
  counted s -> (forall f, dir_refs f content = 0%nat) ->
  counted (attach_pd content i s).
Proof.
  intros Hc H0 f Hf.
  change (mapcount s f =
          wrap32 (Z.of_nat (total_refs f (pd_mem s ++ [content])))).
  rewrite total_refs_app. unfold total_refs at 2. simpl.
  rewrite H0, !Nat.add_0_r. exact (Hc f Hf).
Qed.

Lemma zero_pd_wf : wf_dir zero_pd.
Proof.
  unfold zero_pd. split; [apply length_replicate|].
  apply Forall_replicate. intros H. discriminate.
Qed.

Lemma zero_pd_refs f : dir_refs f zero_pd = 0%nat.
Proof. apply dir_refs_invalid. unfold zero_pd. apply Forall_replicate. reflexivity. Qed.

Lemma clean_wf junk : clean junk -> wf_dir junk.
Proof.
  intros [Hl Hf]. split; [exact Hl|]. eapply Forall_impl; [exact Hf|].
  intros p Hp Hv. congruence.
Qed.

(** * The operations on page tables *)

Lemma alter_lookup_insert {A} (g : A -> A) i (l : list A) x :
  l !! i = Some x -> alter g i l = <[i := g x]> l.
Proof.
  revert i. induction l as [|a l IH]; intros [|i]; simpl; try discriminate.
  - intros [= ->]. reflexivity.
  - intros H. f_equal. apply IH, H.
Qed.

Lemma update_pte_write s pd e g dir x :
  pd_mem s !! pd = Some dir -> dir !! e = Some x ->
  update_pte pd e g s =
  mk_state (<[pd := <[e := g x]> dir]> (pd_mem s)) (proc_mem s) (processes s)
    (current s) (ptbr s) (tlb s) (mapcounts s).
Proof.
  intros Hd He. unfold update_pte, set_pd_mem.
  rewrite (alter_lookup_insert _ pd _ dir Hd), (alter_lookup_insert _ e _ x He).
  reflexivity.
Qed.

Lemma locate_pd_set_mapcounts content vpn mc s :
  locate_pd content vpn (set_mapcounts mc s) =
  ((locate_pd content vpn s).1, set_mapcounts mc (locate_pd content vpn s).2).
Proof.
  unfold locate_pd.
  change (proc_pde (set_mapcounts mc s) (current (set_mapcounts mc s)))
    with (proc_pde s (current s)).
  destruct (proc_pde s (current s) (page_dir_idx vpn)); reflexivity.
Qed.

(** [alloc_page] when a frame is free, in terms of the page-table page it
    finds or installs. *)
Lemma alloc_page_eq junk vpn rw s pfn pd s1 dir x :
  find_free (mapcounts s) 0 = Some pfn ->
  locate_pd junk vpn s = (pd, s1) ->
  pd_mem s1 !! pd = Some dir -> dir !! page_entry_idx vpn = Some x ->
  alloc_page junk vpn rw s =
  (Z.of_nat pfn,
   mk_state
     (<[pd := <[page_entry_idx vpn := mk_pte true rw (Z.of_nat pfn) (pte_private x)]> dir]>
        (pd_mem s1))
     (proc_mem s1) (processes s1) (current s1) (ptbr s1) (tlb s1)
     (<[pfn := 1]> (mapcounts s))).
Proof.
  intros Hf Hl Hd He. unfold alloc_page. rewrite Hf.
  rewrite locate_pd_set_mapcounts, Hl. simpl.
  rewrite (update_pte_write _ pd _ _ dir x) by assumption. reflexivity.
Qed.

Lemma alloc_page_full junk vpn rw s :
  find_free (mapcounts s) 0 = None ->
  alloc_page junk vpn rw s = (UINT_MINUS_1, s).
Proof. intros Hf. unfold alloc_page. rewrite Hf. reflexivity. Qed.

(** What [locate_pd] finds or builds in a well-formed state. *)
Lemma locate_pd_inv content vpn s :
  wf_state s -> in_range vpn -> wf_dir content ->
  exists pd s1 dir x,
    locate_pd content vpn s = (pd, s1) /\
    wf_state s1 /\
    mapcounts s1 = mapcounts s /\ tlb s1 = tlb s /\ current s1 = current s /\
    processes s1 = processes s /\ ptbr s1 = ptbr s /\
    proc_pde s1 (current s) (page_dir_idx vpn) = Some pd /\
    pd_mem s1 !! pd = Some dir /\ dir !! page_entry_idx vpn = Some x /\
    match pte_of s (current s) vpn with
    | Some y => x = y /\ s1 = s
    | None =>
        s1 = attach_pd content (page_dir_idx vpn) s /\
        pd = length (pd_mem s) /\ dir = content
    end.
Proof.
  intros H Hv Hc.
  destruct (wf_pte_lookup s (current s) vpn H (current_live s) Hv)
    as [[Habs Hnone]|(pd & dir & x & Hpd & Hdir & Hwd & Hx & Hsome)].
  - destruct (lookup_lt_is_Some_2 content (page_entry_idx vpn)) as [x Hx].
    { rewrite (proj1 Hc). apply page_entry_idx_lt, Hv. }
    exists (length (pd_mem s)), (attach_pd content (page_dir_idx vpn) s), content, x.
    rewrite Hnone. split_and!; try reflexivity.
    + apply locate_pd_absent, Habs.
    + apply attach_pd_wf; auto using page_dir_idx_lt.
    + apply attach_pd_pde_eq; auto using page_dir_idx_lt.
    + apply attach_pd_mem_new.
    + exact Hx.
  - exists pd, s, dir, x. rewrite Hsome. split_and!; try reflexivity; try assumption.
    apply locate_pd_present, Hpd.
Qed.

Lemma locate_pd_counted content vpn s :
  counted s -> (forall f, dir_refs f content = 0%nat) ->
  counted (locate_pd content vpn s).2.
Proof.
  intros Hc H0. unfold locate_pd.
  destruct (proc_pde s (current s) (page_dir_idx vpn)); [exact Hc|].
  apply (attach_pd_counted content (page_dir_idx vpn) s Hc H0).
Qed.

Lemma maps_frame_invalid f x : pte_valid x = false -> maps_frame f x = false.
Proof. unfold maps_frame. intros ->. reflexivity. Qed.

Lemma maps_frame_valid f x :
  pte_valid x = true -> maps_frame f x = bool_decide (pte_pfn x = f).
Proof.
  unfold maps_frame. intros ->. simpl.
  destruct (Z.eqb_spec (pte_pfn x) f); [rewrite bool_decide_eq_true_2 | rewrite bool_decide_eq_false_2]; auto.
Qed.

(** Mapping a free frame at an entry that is not valid keeps the state
    well formed and the counts right. *)
Lemma map_frame_inv s pd dir e x rw pfn t' :
  wf_state s -> counted s ->
  pd_mem s !! pd = Some dir -> dir !! e = Some x -> pte_valid x = false ->
  mapcounts s !! pfn = Some 0 ->
  let s' := mk_state (<[pd := <[e := mk_pte true rw (Z.of_nat pfn) (pte_private x)]> dir]>
                        (pd_mem s))
              (proc_mem s) (processes s) (current s) (ptbr s) t'
              (<[pfn := 1]> (mapcounts s)) in
  wf_state s' /\ counted s'.
Proof.
  intros H Hc Hd He Hx Hpfn s'.
  pose proof (lookup_lt_Some _ _ _ Hpfn) as Hlt.
  split.
  - apply wf_write_pte; auto.
    + intros _. simpl. rewrite <- (wf_mapcounts s H). lia.
    + rewrite length_insert. exact (wf_mapcounts s H).
    + apply Forall_insert; [exact (wf_counts s H) | lia].
  - apply (counted_write_pte s pd e dir x); auto.
    intros f Hf. rewrite mc_get_insert by lia.
    rewrite (maps_frame_invalid f x Hx), maps_frame_valid by reflexivity. simpl.
    destruct (decide (f = Z.of_nat pfn)) as [->|Hne].
    + rewrite bool_decide_eq_true_2 by reflexivity.
      unfold mapcount, mc_get. rewrite Nat2Z.id, Hpfn. reflexivity.
    + rewrite bool_decide_eq_false_2 by congruence. simpl.
      rewrite Z.sub_0_r, Z.add_0_r. symmetry. apply wrap32_small.
      apply mc_get_range, (wf_counts s H).
Qed.

(** [alloc_page] on a page that is not mapped. *)
Lemma alloc_page_inv junk vpn rw s :
  wf_state s -> counted s -> in_range vpn -> unmapped s vpn junk ->
  wf_state (alloc_page junk vpn rw s).2 /\ counted (alloc_page junk vpn rw s).2.
Proof.
  intros H Hc Hv Hu.
  destruct (find_free (mapcounts s) 0) as [pfn|] eqn:Hf.
  2:{ rewrite alloc_page_full by exact Hf. auto. }
  apply find_free_Some in Hf as Hfree. destruct Hfree as (_ & Hpfn & _).
  rewrite Nat.sub_0_r in Hpfn.
  unfold unmapped in Hu.
  destruct (wf_pte_lookup s (current s) vpn H (current_live s) Hv)
    as [[Habs Hnone]|(pd & dir & x & Hpd & Hdir & Hwd & Hx & Hsome)].
  - rewrite Hnone in Hu.
    destruct (locate_pd_inv junk vpn s H Hv (clean_wf junk Hu)) as
      (pd & s1 & dir & x & Hl & Hwf1 & Hmc & _ & _ & _ & _ & _ & Hd & Hx & Hm).
    rewrite Hnone in Hm. destruct Hm as (Hs1 & _ & ->).
    rewrite (alloc_page_eq junk vpn rw s pfn pd s1 junk x Hf Hl Hd Hx). simpl.
    rewrite <- Hmc. apply map_frame_inv; auto.
    + pose proof (locate_pd_counted junk vpn s Hc) as Hc1. rewrite Hl in Hc1.
      apply Hc1. intros f. apply dir_refs_invalid, Hu.
    + exact (proj1 (Forall_lookup _ _) (proj2 Hu) _ _ Hx).
    + rewrite Hmc. exact Hpfn.
  - rewrite Hsome in Hu.
    rewrite (alloc_page_eq junk vpn rw s pfn pd s dir x Hf
               (locate_pd_present junk vpn s pd Hpd) Hdir Hx). simpl.
    apply map_frame_inv; auto.
Qed.

Lemma update_pte_after_write mem pm ps c pb t mc pd e dir x g :
  (pd < length mem)%nat -> (e < length dir)%nat ->
  update_pte pd e g (mk_state (<[pd := <[e := x]> dir]> mem) pm ps c pb t mc) =
  mk_state (<[pd := <[e := g x]> dir]> mem) pm ps c pb t mc.
Proof.
  intros Hpd He.
  rewrite (update_pte_write _ pd e g (<[e := x]> dir) x); simpl.
  - rewrite !list_insert_insert_eq. reflexivity.
  - apply list_lookup_insert_eq, Hpd.
  - apply list_lookup_insert_eq, He.
Qed.

Lemma update_pte_compose pd e g1 g2 s :
  update_pte pd e g2 (update_pte pd e g1 s) = update_pte pd e (g2 ∘ g1) s.
Proof.
  unfold update_pte, set_pd_mem. simpl. rewrite list_alter_alter_eq. f_equal.
  apply list_alter_ext; [|reflexivity]. intros dir _. simpl.
  apply list_alter_alter_eq.
Qed.

(** [free_page] on a mapped page. *)
Lemma free_page_valid vpn s pd dir x :
  proc_pde s (current s) (page_dir_idx vpn) = Some pd ->
  pd_mem s !! pd = Some dir -> dir !! page_entry_idx vpn = Some x ->
  pte_valid x = true ->
  free_page vpn s =
  mk_state (<[pd := <[page_entry_idx vpn := mk_pte false 0 0 (pte_private x)]> dir]>
              (pd_mem s))
    (proc_mem s) (processes s) (current s) (ptbr s)
    (tlb_invalidate_pfn (pte_pfn x) (tlb s))
    (alter (fun m => wrap32 (m - 1)) (Z.to_nat (pte_pfn x)) (mapcounts s)).
Proof.
  intros Hpd Hd Hx Hv. unfold free_page, read_pte. rewrite Hpd, Hd, Hx, Hv.
  rewrite (update_pte_write _ pd _ _ dir x) by assumption. reflexivity.
Qed.

(** [free_page] on a page that is not mapped. *)
Lemma free_page_invalid vpn s :
  pte_of s (current s) vpn = None \/
  (exists x, pte_of s (current s) vpn = Some x /\ pte_valid x = false) ->
  free_page vpn s = s.
Proof.
  unfold pte_of, free_page.
  destruct (proc_pde s (current s) (page_dir_idx vpn)) as [pd|]; [|reflexivity].
  intros [->|(x & -> & ->)]; reflexivity.
Qed.

Lemma wf_pte_of_dir dir e x : wf_dir dir -> dir !! e = Some x -> wf_pte x.
Proof. intros [_ H] He. exact (proj1 (Forall_lookup _ _) H _ _ He). Qed.

Lemma Forall_alter_range h i mc :
  Forall (fun m => 0 <= m < 4294967296) mc ->
  (forall m, 0 <= h m < 4294967296) ->
  Forall (fun m => 0 <= m < 4294967296) (alter h i mc).
Proof.
  intros H Hh. apply Forall_lookup. intros j m. rewrite list_lookup_alter.
  destruct (decide (i = j)) as [->|Hne].
  - destruct (mc !! j); simpl; [intros [= <-]; apply Hh | discriminate].
  - intros Hj. exact (proj1 (Forall_lookup _ _) H _ _ Hj).
Qed.

(** Unmapping a valid entry and releasing its frame keeps the state well
    formed and the counts right. *)
Lemma unmap_frame_inv s pd dir e x p' t' :
  wf_state s -> counted s ->
  pd_mem s !! pd = Some dir -> dir !! e = Some x -> pte_valid x = true ->
  pte_valid p' = false ->
  let s' := mk_state (<[pd := <[e := p']> dir]> (pd_mem s))
              (proc_mem s) (processes s) (current s) (ptbr s) t'
              (alter (fun m => wrap32 (m - 1)) (Z.to_nat (pte_pfn x)) (mapcounts s)) in
  wf_state s' /\ counted s'.
Proof.
  intros H Hc Hd He Hx Hp' s'.
  assert (Hwd : wf_dir dir) by exact (proj1 (Forall_lookup _ _) (wf_dirs s H) pd dir Hd).
  pose proof (wf_pte_of_dir dir e x Hwd He Hx) as Hpfn.
  split.
  - apply wf_write_pte; auto.
    + intros Hv. congruence.
    + rewrite length_alter. exact (wf_mapcounts s H).
    + apply Forall_alter_range; [exact (wf_counts s H) | intros m; apply wrap32_range].
  - apply (counted_write_pte s pd e dir x); auto.
    intros f Hf. rewrite mc_get_alter by lia.
    rewrite (maps_frame_invalid f p' Hp'), maps_frame_valid by exact Hx.
    destruct (decide (f = pte_pfn x)) as [->|Hne].
    + rewrite bool_decide_eq_true_2 by reflexivity. simpl. rewrite Z.add_0_r.
      unfold mapcount, mc_get.
      destruct (lookup_lt_is_Some_2 (mapcounts s) (Z.to_nat (pte_pfn x))) as [m Hm].
      { rewrite (wf_mapcounts s H). lia. }
      rewrite Hm. reflexivity.
    + rewrite bool_decide_eq_false_2 by congruence. simpl.
      rewrite Z.sub_0_r, Z.add_0_r. symmetry. apply wrap32_small.
      apply mc_get_range, (wf_counts s H).
Qed.

Lemma free_page_inv vpn s :
  wf_state s -> counted s -> in_range vpn ->
  wf_state (free_page vpn s) /\ counted (free_page vpn s).
Proof.
  intros H Hc Hv.
  destruct (wf_pte_lookup s (current s) vpn H (current_live s) Hv)
    as [[Habs Hnone]|(pd & dir & x & Hpd & Hdir & Hwd & Hx & Hsome)].
  - rewrite free_page_invalid by auto. auto.
  - destruct (pte_valid x) eqn:Hval.
    + rewrite (free_page_valid vpn s pd dir x) by assumption.
      apply unmap_frame_inv; auto.
    + rewrite free_page_invalid by eauto. auto.
Qed.

(** * The page-fault handler, case by case *)

(** First touch: the entry is not valid, the allocator decides. *)
Lemma handle_page_fault_first_touch vpn rw s pd s1 x :
  locate_pd zero_pd vpn s = (pd, s1) ->
  read_pte s1 pd (page_entry_idx vpn) = Some x -> pte_valid x = false ->
  handle_page_fault vpn rw s =
  (negb ((alloc_page [] vpn rw s1).1 =? UINT_MINUS_1), (alloc_page [] vpn rw s1).2).
Proof.
  intros Hl Hr Hx. unfold handle_page_fault. rewrite Hl, Hr, Hx. simpl.
  destruct (alloc_page [] vpn rw s1) as [r s2]. simpl.
  destruct (r =? UINT_MINUS_1); reflexivity.
Qed.

(** The entry is valid: the four outcomes. *)
Lemma handle_page_fault_valid vpn rw s pd dir x :
  proc_pde s (current s) (page_dir_idx vpn) = Some pd ->
  pd_mem s !! pd = Some dir -> dir !! page_entry_idx vpn = Some x ->
  pte_valid x = true ->
  handle_page_fault vpn rw s =
  if negb (pte_rw x =? rw) && nonzero (Z.land rw ACCESS_WRITE) then
    if nonzero (Z.land (pte_rw x) ACCESS_READ)
       && nonzero (Z.land (pte_private x) ACCESS_WRITE) then
      if 1 <? mapcount s (pte_pfn x) then
        (true,
         match find_free (mapcounts s) 0 with
         | Some new =>
             mk_state
               (<[pd := <[page_entry_idx vpn :=
                            mk_pte true 3 (Z.of_nat new) (pte_private x)]> dir]> (pd_mem s))
               (proc_mem s) (processes s) (current s) (ptbr s) (tlb s)
               (alter (fun m => wrap32 (m - 1)) (Z.to_nat (pte_pfn x))
                      (<[new := 1]> (mapcounts s)))
         | None =>
             mk_state
               (<[pd := <[page_entry_idx vpn :=
                            mk_pte true (Z.lor (pte_rw x) ACCESS_WRITE) UINT_MINUS_1
                              (pte_private x)]> dir]> (pd_mem s))
               (proc_mem s) (processes s) (current s) (ptbr s) (tlb s)
               (alter (fun m => wrap32 (m - 1)) (Z.to_nat (pte_pfn x)) (mapcounts s))
         end)
      else
        (true,
         mk_state
           (<[pd := <[page_entry_idx vpn :=
                        mk_pte true (Z.lor (pte_rw x) ACCESS_WRITE) (pte_pfn x)
                          (pte_private x)]> dir]> (pd_mem s))
           (proc_mem s) (processes s) (current s) (ptbr s) (tlb s) (mapcounts s))
    else (false, s)
  else (true, s).
Proof.
  intros Hpd Hd Hx Hv. unfold handle_page_fault.
  rewrite (locate_pd_present zero_pd vpn s pd Hpd). unfold read_pte at 1.
  rewrite Hd, Hx, Hv. simpl negb. cbv iota.
  pose proof (lookup_lt_Some _ _ _ Hd) as Hlt1.
  pose proof (lookup_lt_Some _ _ _ Hx) as Hlt2.
  destruct (negb (pte_rw x =? rw) && nonzero (Z.land rw ACCESS_WRITE)); [|reflexivity].
  destruct (nonzero (Z.land (pte_rw x) ACCESS_READ)
            && nonzero (Z.land (pte_private x) ACCESS_WRITE)); [|reflexivity].
  destruct (1 <? mapcount s (pte_pfn x)).
  - destruct (find_free (mapcounts s) 0) as [new|] eqn:Hf.
    + rewrite (alloc_page_eq [] vpn 3 s new pd s dir x Hf
                 (locate_pd_present [] vpn s pd Hpd) Hd Hx).
      unfold set_mapcounts. simpl.
      do 2 (rewrite update_pte_after_write by assumption). reflexivity.
    + rewrite alloc_page_full by exact Hf.
      rewrite update_pte_compose.
      rewrite (update_pte_write _ pd _ _ dir x) by assumption.
      simpl. rewrite Hv. reflexivity.
  - rewrite (update_pte_write _ pd _ _ dir x) by assumption. rewrite Hv. reflexivity.
Qed.

(** Changing the permissions of an entry keeps the state well formed and
    the counts right. *)
Lemma retag_inv s pd dir e x p' t' :
  wf_state s -> counted s ->
  pd_mem s !! pd = Some dir -> dir !! e = Some x ->
  pte_valid p' = pte_valid x -> pte_pfn p' = pte_pfn x ->
  let s' := mk_state (<[pd := <[e := p']> dir]> (pd_mem s))
              (proc_mem s) (processes s) (current s) (ptbr s) t' (mapcounts s) in
  wf_state s' /\ counted s'.
Proof.
  intros H Hc Hd He Hv Hp s'.
  assert (Hwd : wf_dir dir) by exact (proj1 (Forall_lookup _ _) (wf_dirs s H) pd dir Hd).
  pose proof (wf_pte_of_dir dir e x Hwd He) as Hx.
  split.
  - apply wf_write_pte; auto.
    + unfold wf_pte in *. rewrite Hv, Hp. exact Hx.
    + exact (wf_mapcounts s H).
    + exact (wf_counts s H).
  - apply (counted_write_pte s pd e dir x); auto.
    intros f Hf. unfold maps_frame. rewrite Hv, Hp.
    replace (mapcount s f - Z.b2z (pte_valid x && (pte_pfn x =? f))
             + Z.b2z (pte_valid x && (pte_pfn x =? f))) with (mapcount s f) by lia.
    symmetry. apply wrap32_small. apply mc_get_range, (wf_counts s H).
Qed.

(** Moving a valid entry to a free frame and releasing its old frame
    keeps the state well formed and the counts right. *)
Lemma remap_frame_inv s pd dir e x rw' priv new t' :
  wf_state s -> counted s ->
  pd_mem s !! pd = Some dir -> dir !! e = Some x -> pte_valid x = true ->
  mapcounts s !! new = Some 0 -> pte_pfn x <> Z.of_nat new ->
  let s' := mk_state (<[pd := <[e := mk_pte true rw' (Z.of_nat new) priv]> dir]> (pd_mem s))
              (proc_mem s) (processes s) (current s) (ptbr s) t'
              (alter (fun m => wrap32 (m - 1)) (Z.to_nat (pte_pfn x))
                     (<[new := 1]> (mapcounts s))) in
  wf_state s' /\ counted s'.
Proof.
  intros H Hc Hd He Hx Hnew Hne s'.
  assert (Hwd : wf_dir dir) by exact (proj1 (Forall_lookup _ _) (wf_dirs s H) pd dir Hd).
  pose proof (wf_pte_of_dir dir e x Hwd He Hx) as Hpfn.
  pose proof (lookup_lt_Some _ _ _ Hnew) as Hlt.
  pose proof (wf_mapcounts s H) as Hlen.
  split.
  - apply wf_write_pte; auto.
    + intros _. simpl. lia.
    + rewrite length_alter, length_insert. exact Hlen.
    + apply Forall_alter_range; [|intros m; apply wrap32_range].
      apply Forall_insert; [exact (wf_counts s H) | lia].
  - apply (counted_write_pte s pd e dir x); auto.
    intros f Hf. rewrite mc_get_alter by lia.
    rewrite !maps_frame_valid by (reflexivity || exact Hx). simpl.
    destruct (decide (f = pte_pfn x)) as [->|Hne1].
    + rewrite list_lookup_insert_ne by lia.
      rewrite bool_decide_eq_true_2 by reflexivity.
      rewrite bool_decide_eq_false_2 by congruence. simpl. rewrite Z.add_0_r.
      unfold mapcount, mc_get.
      destruct (lookup_lt_is_Some_2 (mapcounts s) (Z.to_nat (pte_pfn x))) as [m Hm]; [lia|].
      rewrite Hm. reflexivity.
    + rewrite mc_get_insert by lia.
      rewrite (bool_decide_eq_false_2 (pte_pfn x = f)) by congruence. simpl.
      destruct (decide (f = Z.of_nat new)) as [->|Hne2].
      * rewrite bool_decide_eq_true_2 by reflexivity.
        unfold mapcount, mc_get. rewrite Nat2Z.id, Hnew. reflexivity.
      * rewrite bool_decide_eq_false_2 by congruence. simpl.
        rewrite Z.sub_0_r, Z.add_0_r. symmetry. apply wrap32_small.
        apply mc_get_range, (wf_counts s H).
Qed.

Lemma nonzero_true z : nonzero z = true <-> z <> 0.
Proof. unfold nonzero. destruct (Z.eqb_spec z 0); simpl; split; congruence. Qed.

Lemma zero_pd_lookup e x : zero_pd !! e = Some x -> x = mk_pte false 0 0 0.
Proof. unfold zero_pd. intros H. apply lookup_replicate in H. apply H. Qed.

(** [handle_page_fault] when no copy is attempted without a free frame. *)
Lemma handle_page_fault_inv vpn rw s :
  wf_state s -> counted s -> in_range vpn ->
  (cow_copy s vpn rw -> has_free s) ->
  wf_state (handle_page_fault vpn rw s).2 /\ counted (handle_page_fault vpn rw s).2.
Proof.
  intros H Hc Hv Hfree.
  destruct (locate_pd_inv zero_pd vpn s H Hv zero_pd_wf) as
    (pd & s1 & dir & x & Hl & Hwf1 & Hmc & Ht & Hcur & Hps & Hpb & Hpd & Hd & Hx & Hm).
  pose proof (locate_pd_counted zero_pd vpn s Hc zero_pd_refs) as Hc1.
  rewrite Hl in Hc1. simpl in Hc1.
  assert (Hr : read_pte s1 pd (page_entry_idx vpn) = Some x)
    by (unfold read_pte; rewrite Hd; exact Hx).
  destruct (pte_valid x) eqn:Hval.
  - (* the entry is valid: the page-table page was there *)
    destruct (pte_of s (current s) vpn) as [y|] eqn:Hy.
    2:{ destruct Hm as (_ & _ & ->). apply zero_pd_lookup in Hx. subst x. discriminate. }
    destruct Hm as [<- ->].
    rewrite (handle_page_fault_valid vpn rw s pd dir x Hpd Hd Hx Hval).
    destruct (negb (pte_rw x =? rw) && nonzero (Z.land rw ACCESS_WRITE)) eqn:C1; [|auto].
    destruct (nonzero (Z.land (pte_rw x) ACCESS_READ)
              && nonzero (Z.land (pte_private x) ACCESS_WRITE)) eqn:C2; [|auto].
    destruct (1 <? mapcount s (pte_pfn x)) eqn:C3; simpl.
    + apply andb_true_iff in C1 as [C1a C1b]. apply andb_true_iff in C2 as [C2a C2b].
      apply negb_true_iff, Z.eqb_neq in C1a.
      apply nonzero_true in C1b, C2a, C2b. apply Z.ltb_lt in C3.
      destruct (has_free_find s) as [new Hnew].
      { apply Hfree. exists x. auto 10. }
      rewrite Hnew. apply find_free_Some in Hnew as (_ & Hz & _).
      rewrite Nat.sub_0_r in Hz.
      apply remap_frame_inv; auto.
      intros E. unfold mapcount, mc_get in C3. rewrite E, Nat2Z.id, Hz in C3.
      simpl in C3. lia.
    + apply (retag_inv s pd dir _ x); auto.
  - rewrite (handle_page_fault_first_touch vpn rw s pd s1 x Hl Hr Hval). simpl.
    apply alloc_page_inv; auto.
    unfold unmapped, pte_of. rewrite Hcur, Hpd, Hr. exact Hval.
Qed.

(** When the page-table page is there, [alloc_page] ignores the content
    it is given for a new page. *)
Lemma alloc_page_junk_unused junk junk' vpn rw s pd :
  proc_pde s (current s) (page_dir_idx vpn) = Some pd ->
  alloc_page junk vpn rw s = alloc_page junk' vpn rw s.
Proof.
  intros Hpd. unfold alloc_page.
  destruct (find_free (mapcounts s) 0) as [pfn|]; [|reflexivity].
  rewrite !locate_pd_set_mapcounts.
  rewrite (locate_pd_present junk vpn s pd Hpd), (locate_pd_present junk' vpn s pd Hpd).
  reflexivity.
Qed.

(** * The fork *)

Lemma fork_pte_eq c mc :
  fork_pte c mc =
  (cow_pte c, cow_pte c,
   if pte_valid c then alter (fun m => wrap32 (m + 1)) (Z.to_nat (pte_pfn c)) mc else mc).
Proof.
  unfold fork_pte, cow_pte, nonzero. destruct c as [v r p q]. simpl.
  destruct v; [|reflexivity]. destruct (q =? 0); reflexivity.
Qed.

(** The inner loop gives parent and child the same downgraded entries. *)
Lemma fork_ptes_eq dir mc :
  fork_ptes dir mc = (cow_pte <$> dir, cow_pte <$> dir, fork_counts dir mc).
Proof.
  revert mc. induction dir as [|c dir IH]; intros mc; simpl; [reflexivity|].
  rewrite fork_pte_eq, IH. reflexivity.
Qed.

Lemma cow_pte_maps_frame f c : maps_frame f (cow_pte c) = maps_frame f c.
Proof. unfold cow_pte, maps_frame. destruct (pte_valid c) eqn:E; simpl; rewrite ?E; reflexivity. Qed.

Lemma cow_pte_refs f dir : dir_refs f (cow_pte <$> dir) = dir_refs f dir.
Proof.
  induction dir as [|c dir IH]; simpl; [reflexivity|].
  rewrite cow_pte_maps_frame. f_equal. exact IH.
Qed.

Lemma cow_pte_wf_dir dir : wf_dir dir -> wf_dir (cow_pte <$> dir).
Proof.
  intros [Hl Hf]. split; [rewrite length_fmap; exact Hl|].
  apply Forall_fmap. eapply Forall_impl; [exact Hf|].
  intros c Hc. unfold wf_pte, cow_pte in *. simpl.
  destruct (pte_valid c) eqn:E; simpl; [auto | rewrite E; discriminate].
Qed.

Lemma fork_counts_length dir mc : length (fork_counts dir mc) = length mc.
Proof.
  revert mc. induction dir as [|c dir IH]; intros mc; simpl; [reflexivity|].
  rewrite IH. destruct (pte_valid c); [apply length_alter | reflexivity].
Qed.

Lemma fork_counts_range dir mc :
  Forall (fun m => 0 <= m < 4294967296) mc ->
  Forall (fun m => 0 <= m < 4294967296) (fork_counts dir mc).
Proof.
  revert mc. induction dir as [|c dir IH]; intros mc H; simpl; [exact H|].
  apply IH. destruct (pte_valid c); [|exact H].
  apply Forall_alter_range; [exact H | intros m; apply wrap32_range].
Qed.

(** Every valid entry of the page adds one to the count of its frame. *)
Lemma fork_counts_get f dir mc :
  Forall wf_pte dir -> length mc = NR_PAGEFRAMES ->
  Forall (fun m => 0 <= m < 4294967296) mc ->
  0 <= f < Z.of_nat NR_PAGEFRAMES ->
  mc_get (fork_counts dir mc) f = wrap32 (mc_get mc f + Z.of_nat (dir_refs f dir)).
Proof.
  intros Hd. revert mc. induction Hd as [|c dir Hc _ IH]; intros mc Hlen Hrng Hf; simpl.
  - rewrite Z.add_0_r. symmetry. apply wrap32_small, mc_get_range, Hrng.
  - destruct (pte_valid c) eqn:Hv.
    + specialize (Hc Hv).
      rewrite IH; [| rewrite length_alter; exact Hlen
                   | apply Forall_alter_range; [exact Hrng | intros m; apply wrap32_range]
                   | exact Hf].
      rewrite mc_get_alter by lia. rewrite maps_frame_valid by exact Hv.
      destruct (decide (f = pte_pfn c)) as [->|Hne].
      * rewrite bool_decide_eq_true_2 by reflexivity.
        unfold mc_get.
        destruct (lookup_lt_is_Some_2 mc (Z.to_nat (pte_pfn c))) as [m Hm]; [lia|].
        rewrite Hm. simpl default. rewrite wrap32_add_l. f_equal. simpl Nat.b2n. lia.
      * rewrite bool_decide_eq_false_2 by congruence. reflexivity.
    + rewrite (IH mc Hlen Hrng Hf), (maps_frame_invalid f c Hv). reflexivity.
Qed.

Lemma sum_refs_cons f mem d ds :
  sum_refs f mem (d :: ds) =
  (dir_refs f (default [] (mem !! d)) + sum_refs f mem ds)%nat.
Proof. reflexivity. Qed.

Lemma sum_refs_ext f mem mem' ds :
  (forall d, d ∈ ds ->
             dir_refs f (default [] (mem' !! d)) = dir_refs f (default [] (mem !! d))) ->
  sum_refs f mem' ds = sum_refs f mem ds.
Proof.
  induction ds as [|d ds IH]; intros H; [reflexivity|].
  rewrite !sum_refs_cons, IH, (H d).
  - reflexivity.
  - apply list_elem_of_here.
  - intros d' Hd'. apply H. apply list_elem_of_further, Hd'.
Qed.

Lemma dirs_of_cons_Some d l : dirs_of (Some d :: l) = d :: dirs_of l.
Proof. reflexivity. Qed.

Lemma dirs_of_cons_None l : dirs_of (None :: l) = dirs_of l.
Proof. reflexivity. Qed.

(** The outer loop of the fork: sizes, well-formedness and counts. *)
Lemma fork_pdes_counts cur : forall mem mc ns mem' mc',
  fork_pdes cur mem mc = (ns, mem', mc') ->
  (forall d, d ∈ dirs_of cur -> (d < length mem)%nat) ->
  Forall wf_dir mem -> length mc = NR_PAGEFRAMES ->
  Forall (fun m => 0 <= m < 4294967296) mc ->
  length ns = length cur /\
  dirs_of ns = seq (length mem) (length (dirs_of cur)) /\
  length mem' = (length mem + length (dirs_of cur))%nat /\
  Forall wf_dir mem' /\ length mc' = NR_PAGEFRAMES /\
  Forall (fun m => 0 <= m < 4294967296) mc' /\
  forall f, 0 <= f < Z.of_nat NR_PAGEFRAMES ->
    total_refs f mem' = (total_refs f mem + sum_refs f mem (dirs_of cur))%nat /\
    mc_get mc' f = wrap32 (mc_get mc f + Z.of_nat (sum_refs f mem (dirs_of cur))).
Proof.
  induction cur as [|[d|] cur IH]; intros mem mc ns mem' mc' E Hlt Hwf Hlen Hrng.
  - simpl in E. injection E as <- <- <-. simpl. split_and!; auto.
    intros f Hf. split; [unfold sum_refs; simpl; lia|].
    unfold sum_refs. simpl. rewrite Z.add_0_r. symmetry.
    apply wrap32_small, mc_get_range, Hrng.
  - simpl in E. rewrite fork_ptes_eq in E.
    destruct (fork_pdes cur _ _) as [[ns1 mem1] mc1] eqn:E1.
    injection E as <- <- <-.
    assert (Hd : (d < length mem)%nat) by (apply Hlt; rewrite dirs_of_cons_Some; apply list_elem_of_here).
    destruct (lookup_lt_is_Some_2 mem d Hd) as [dir Hdir].
    rewrite Hdir in E1. simpl in E1.
    assert (Hwd : wf_dir dir) by exact (proj1 (Forall_lookup _ _) Hwf d dir Hdir).
    specialize (IH _ _ _ _ _ E1).
    destruct IH as (I1 & I2 & I3 & I4 & I5 & I6 & I7).
    { intros d' Hd'. rewrite length_app, length_insert. simpl.
      assert (d' < length mem)%nat
        by (apply Hlt; rewrite dirs_of_cons_Some; apply list_elem_of_further, Hd').
      lia. }
    { apply Forall_app. split.
      - apply Forall_insert; [exact Hwf | apply cow_pte_wf_dir, Hwd].
      - apply Forall_cons. split; [apply cow_pte_wf_dir, Hwd | constructor]. }
    { rewrite fork_counts_length. exact Hlen. }
    { apply fork_counts_range, Hrng. }
    rewrite length_app, length_insert in I2, I3. simpl in I2, I3.
    rewrite dirs_of_cons_Some. simpl length.
    split_and!; [simpl; f_equal; exact I1 | | lia | exact I4 | exact I5 | exact I6 |].
    + change (dirs_of (Some (length mem) :: ns1)) with (length mem :: dirs_of ns1).
      rewrite I2. simpl. f_equal. f_equal. lia.
    + intros f Hf. destruct (I7 f Hf) as [J1 J2].
      assert (Hs : sum_refs f (<[d:=cow_pte <$> dir]> mem ++ [cow_pte <$> dir]) (dirs_of cur)
                   = sum_refs f mem (dirs_of cur)).
      { apply sum_refs_ext. intros d' Hd'.
        assert (d' < length mem)%nat
          by (apply Hlt; rewrite dirs_of_cons_Some; apply list_elem_of_further, Hd').
        rewrite lookup_app_l by (rewrite length_insert; lia).
        destruct (decide (d = d')) as [<-|Hne].
        - rewrite list_lookup_insert_eq by lia. rewrite Hdir. simpl. apply cow_pte_refs.
        - rewrite list_lookup_insert_ne by exact Hne. reflexivity. }
      rewrite Hs in J1, J2. rewrite dirs_of_cons_Some, sum_refs_cons, Hdir. simpl default.
      pose proof (total_refs_insert f d mem dir (cow_pte <$> dir) Hdir) as Ht.
      rewrite cow_pte_refs in Ht.
      split.
      * rewrite J1, total_refs_app. unfold total_refs at 2. simpl.
        rewrite cow_pte_refs. lia.
      * rewrite J2, (fork_counts_get f dir mc (proj2 Hwd) Hlen Hrng Hf).
        rewrite wrap32_add_l. f_equal. lia.
  - simpl in E. destruct (fork_pdes cur mem mc) as [[ns1 mem1] mc1] eqn:E1.
    injection E as <- <- <-.
    specialize (IH _ _ _ _ _ E1 Hlt Hwf Hlen Hrng).
    destruct IH as (I1 & I2 & I3 & I4 & I5 & I6 & I7).
    rewrite !dirs_of_cons_None. split_and!; auto. simpl. f_equal. exact I1.
Qed.

(** * [switch_process] *)

Lemma find_process_Some mem q target k i p :
  find_process mem q target k = Some (i, p) ->
  (k <= i)%nat /\ q !! (i - k)%nat = Some p /\
  (exists pr, mem !! p = Some pr /\ pid pr = target) /\
  forall j p' pr', (j < i - k)%nat -> q !! j = Some p' -> mem !! p' = Some pr' ->
                   pid pr' <> target.
Proof.
  revert k. induction q as [|a q IH]; intros k; simpl; [discriminate|].
  destruct (mem !! a) as [pr|] eqn:Ea.
  - destruct (Z.eqb_spec (pid pr) target) as [Hp|Hp].
    + intros [= <- <-]. rewrite Nat.sub_diag. split_and!; eauto. intros j p' pr' Hj. lia.
    + intros H. destruct (IH _ H) as (H1 & H2 & H3 & H4).
      replace (i - k)%nat with (S (i - S k)) by lia.
      split_and!; [lia | exact H2 | exact H3 |].
      intros [|j] p' pr' Hj; simpl.
      * intros [= <-] Hm. congruence.
      * apply H4. lia.
  - intros H. destruct (IH _ H) as (H1 & H2 & H3 & H4).
    replace (i - k)%nat with (S (i - S k)) by lia.
    split_and!; [lia | exact H2 | exact H3 |].
    intros [|j] p' pr' Hj; simpl.
    + intros [= <-] Hm. congruence.
    + apply H4. lia.
Qed.

Lemma find_process_None mem q target k :
  find_process mem q target k = None <->
  forall p pr, p ∈ q -> mem !! p = Some pr -> pid pr <> target.
Proof.
  revert k. induction q as [|a q IH]; intros k; simpl.
  - split; [intros _ p pr Hp; inversion Hp | reflexivity].
  - destruct (mem !! a) as [pr|] eqn:Ea.
    + destruct (Z.eqb_spec (pid pr) target) as [Hp|Hp].
      * split; [discriminate|]. intros H. exfalso.
        exact (H a pr (list_elem_of_here _ _) Ea Hp).
      * rewrite IH. split.
        -- intros H p pr' Hin Hm. apply elem_of_cons in Hin as [->|Hin]; [congruence | eauto].
        -- intros H p pr' Hin. apply H. apply list_elem_of_further, Hin.
    + rewrite IH. split.
      * intros H p pr' Hin Hm. apply elem_of_cons in Hin as [->|Hin]; [congruence | eauto].
      * intros H p pr' Hin. apply H. apply list_elem_of_further, Hin.
Qed.

Lemma switch_process_resume target s i next :
  find_process (proc_mem s) (processes s) target 0 = Some (i, next) ->
  switch_process target s =
  mk_state (pd_mem s) (proc_mem s) (delete i (processes s) ++ [current s]) next next
    (tlb_flush (tlb s)) (mapcounts s).
Proof. intros E. unfold switch_process. rewrite E. reflexivity. Qed.

Lemma switch_process_fork target s ns mem mc :
  find_process (proc_mem s) (processes s) target 0 = None ->
  fork_pdes (cur_pdes s) (pd_mem s) (mapcounts s) = (ns, mem, mc) ->
  switch_process target s =
  mk_state mem (proc_mem s ++ [mk_process target (mk_pagetable ns)])
    (processes s ++ [current s]) (length (proc_mem s)) (length (proc_mem s))
    (tlb_flush (tlb s)) mc.
Proof. intros E F. unfold switch_process. rewrite E, F. reflexivity. Qed.

Lemma cur_pdes_dirs s : dirs_of (cur_pdes s) = proc_dirs s (current s).
Proof. unfold cur_pdes, proc_dirs. destruct (proc_mem s !! current s); reflexivity. Qed.

Lemma wf_live_lt s p : wf_state s -> p ∈ live s -> (p < length (proc_mem s))%nat.
Proof.
  intros H Hp. destruct (proj1 (Forall_forall _ _) (wf_procs s H) p Hp) as (pr & Hpr & _).
  exact (lookup_lt_Some _ _ _ Hpr).
Qed.

Lemma wf_all_dirs_lt s d : wf_state s -> d ∈ all_dirs s -> (d < length (pd_mem s))%nat.
Proof. intros H Hd. rewrite (wf_owned s H) in Hd. apply elem_of_seq in Hd. lia. Qed.

Lemma switch_process_inv target s :
  wf_state s -> counted s ->
  wf_state (switch_process target s) /\ counted (switch_process target s).
Proof.
  intros H Hc.
  destruct (find_process (proc_mem s) (processes s) target 0) as [[i next]|] eqn:E.
  - rewrite (switch_process_resume target s i next E).
    apply find_process_Some in E as (_ & Hi & _). rewrite Nat.sub_0_r in Hi.
    assert (Hperm : next :: delete i (processes s) ++ [current s] ≡ₚ live s).
    { unfold live. rewrite <- Permutation_cons_append.
      rewrite Permutation_swap. apply Permutation_skip.
      symmetry. apply delete_Permutation, Hi. }
    split; [|exact Hc].
    constructor; cbn [current processes proc_mem pd_mem mapcounts tlb ptbr].
    + exact (wf_mapcounts s H).
    + exact (wf_counts s H).
    + unfold live; cbn [current processes proc_mem pd_mem mapcounts tlb ptbr]. rewrite Hperm. exact (wf_live s H).
    + unfold live; cbn [current processes proc_mem pd_mem mapcounts tlb ptbr]. rewrite Hperm. exact (wf_procs s H).
    + unfold all_dirs, live; cbn [current processes proc_mem pd_mem mapcounts tlb ptbr].
      change (proc_dirs _) with (proc_dirs s).
      rewrite Hperm. exact (wf_owned s H).
    + exact (wf_dirs s H).
  - destruct (fork_pdes (cur_pdes s) (pd_mem s) (mapcounts s)) as [[ns mem] mc] eqn:F.
    rewrite (switch_process_fork target s ns mem mc E F).
    destruct (wf_current s H) as (pr & Hpr & Hlen).
    destruct (fork_pdes_counts _ _ _ _ _ _ F) as (I1 & I2 & I3 & I4 & I5 & I6 & I7).
    { intros d Hd. rewrite cur_pdes_dirs in Hd.
      apply wf_all_dirs_lt; [exact H|].
      eapply all_dirs_elem; [apply current_live | exact Hd]. }
    { exact (wf_dirs s H). }
    { exact (wf_mapcounts s H). }
    { exact (wf_counts s H). }
    assert (Hold : forall p, p ∈ live s ->
              (proc_mem s ++ [mk_process target (mk_pagetable ns)]) !! p = proc_mem s !! p).
    { intros p Hp. apply lookup_app_l, wf_live_lt; assumption. }
    assert (Hperm : processes s ++ [current s] ≡ₚ live s).
    { unfold live. symmetry. apply Permutation_cons_append. }
    split.
    + constructor; cbn [current processes proc_mem pd_mem mapcounts tlb ptbr].
      * exact I5.
      * exact I6.
      * unfold live; cbn [current processes proc_mem pd_mem mapcounts tlb ptbr]. apply NoDup_cons. split.
        -- rewrite Hperm. intros Hin. apply (wf_live_lt s _ H) in Hin. lia.
        -- rewrite Hperm. exact (wf_live s H).
      * unfold live; cbn [current processes proc_mem pd_mem mapcounts tlb ptbr]. apply Forall_cons. split.
        -- unfold wf_proc. simpl. rewrite lookup_app_r, Nat.sub_diag by lia.
           eexists. split; [reflexivity|]. simpl. rewrite I1.
           unfold cur_pdes. rewrite Hpr. exact Hlen.
        -- apply Forall_forall. intros p Hp. rewrite Hperm in Hp.
           destruct (proj1 (Forall_forall _ _) (wf_procs s H) p Hp) as (pr' & Hpr' & Hlen').
           exists pr'. simpl. rewrite (Hold p Hp). auto.
      * unfold all_dirs, live; cbn [current processes proc_mem pd_mem mapcounts tlb ptbr].
        match goal with
        | |- (?n :: ?l) ≫= ?f ≡ₚ _ => change ((n :: l) ≫= f) with (f n ++ (l ≫= f))
        end.
        rewrite (bind_ext_in _ (proc_dirs s) (processes s ++ [current s])).
        2:{ intros p Hp. rewrite Hperm in Hp. unfold proc_dirs. simpl.
            rewrite (Hold p Hp). reflexivity. }
        assert (Hb : (processes s ++ [current s]) ≫= proc_dirs s
                     ≡ₚ seq 0 (length (pd_mem s))).
        { rewrite Hperm. exact (wf_owned s H). }
        assert (Hn : proc_dirs
                       (mk_state mem (proc_mem s ++ [mk_process target (mk_pagetable ns)])
                          (processes s ++ [current s]) (length (proc_mem s))
                          (length (proc_mem s)) (tlb_flush (tlb s)) mc)
                       (length (proc_mem s)) = dirs_of ns).
        { unfold proc_dirs. simpl. rewrite lookup_app_r, Nat.sub_diag by lia. reflexivity. }
        rewrite Hn, I2, I3, seq_app. simpl.
        etransitivity; [apply Permutation_app_comm|].
        apply Permutation_app; [exact Hb | reflexivity].
      * exact I4.
    + intros f Hf. destruct (I7 f Hf) as [J1 J2].
      change (mc_get mc f = wrap32 (Z.of_nat (total_refs f mem))).
      rewrite J2, J1. fold (mapcount s f). rewrite (Hc f Hf), wrap32_add_l.
      f_equal. lia.
Qed.

(** * Refcount conservation *)

Lemma dirs_of_replicate_None n : dirs_of (replicate n None) = [].
Proof. induction n as [|n IH]; [reflexivity | exact IH]. Qed.

Lemma init_state_wf pid0 : wf_state (init_state pid0).
Proof.
  constructor; simpl.
  - apply length_replicate.
  - apply Forall_replicate. lia.
  - unfold live. simpl. apply NoDup_singleton.
  - unfold live. simpl. apply Forall_cons. split; [|constructor].
    eexists. split; [reflexivity|]. simpl. apply length_replicate.
  - unfold all_dirs, live, proc_dirs. simpl.
    rewrite dirs_of_replicate_None. reflexivity.
  - constructor.
Qed.

Lemma init_state_counted pid0 : counted (init_state pid0).
Proof.
  intros f Hf. unfold mapcount, mc_get. simpl.
  rewrite lookup_replicate_2 by lia. reflexivity.
Qed.

Lemma step_inv s s' :
  step unmapped s s' -> wf_state s /\ counted s -> wf_state s' /\ counted s'.
Proof.
  intros Hstep [H Hc]. destruct Hstep as [junk vpn rw s Hv _ _ Hu|vpn s Hv|vpn rw s Hv Hfree|target s].
  - apply alloc_page_inv; assumption.
  - apply free_page_inv; assumption.
  - apply handle_page_fault_inv; try assumption.
    intros Hcow. apply Hfree. right. right. exact Hcow.
  - apply switch_process_inv; assumption.
Qed.

Lemma reachable_inv pid0 s :
  reachable unmapped pid0 s -> wf_state s /\ counted s.
Proof.
  induction 1 as [|s s' _ IH Hstep].
  - split; [apply init_state_wf | apply init_state_counted].
  - exact (step_inv s s' Hstep IH).
Qed.

(** C1, amended: along every run from the initial state in which
    [alloc_page] is only called for a page that is not mapped (and obtains
    memory without valid entries when it has to install a page-table
    page), the map count of every frame is the number of valid page-table
    entries of the live processes that map the frame, as a 32-bit value,
    and is that number itself while it is below 2^32. *)
Theorem refcount_conservation pid0 s f :
  reachable unmapped pid0 s ->
  0 <= f < Z.of_nat NR_PAGEFRAMES ->
  mapcount s f = wrap32 (Z.of_nat (refs s f)) /\
  (Z.of_nat (refs s f) < 4294967296 -> mapcount s f = Z.of_nat (refs s f)).
Proof.
  intros Hr Hf. destruct (reachable_inv pid0 s Hr) as [H Hc].
  rewrite (refs_total s f (wf_owned s H)).
  split; [exact (Hc f Hf)|].
  intros Hlt. rewrite (Hc f Hf). apply wrap32_small. lia.
Qed.

(** * [free_page] and [alloc_page] *)

(** C9: [free_page] on a page whose entry is not valid, or whose
    page-table page is absent, leaves the whole state as it is. *)
Theorem free_page_unmapped_noop vpn s :
  pte_of s (current s) vpn = None \/
  (exists x, pte_of s (current s) vpn = Some x /\ pte_valid x = false) ->
  free_page vpn s = s.
Proof. apply free_page_invalid. Qed.

(** X21: [free_page] is idempotent: whatever the first call does, a
    second [free_page] of the same page changes nothing. *)
Lemma free_page_twice vpn s :
  wf_state s -> in_range vpn ->
  free_page vpn (free_page vpn s) = free_page vpn s.
Proof.
  intros H Hv.
  destruct (wf_pte_lookup s (current s) vpn H (current_live s) Hv)
    as [[Habs Hnone]|(pd & dir & x & Hpd & Hdir & Hwd & Hx & Hsome)].
  - rewrite (free_page_invalid vpn s) by auto. apply free_page_invalid. auto.
  - destruct (pte_valid x) eqn:Hval.
    + apply free_page_invalid. right.
      rewrite (free_page_valid vpn s pd dir x) by assumption.
      exists (mk_pte false 0 0 (pte_private x)). split; [|reflexivity].
      unfold pte_of, proc_pde, read_pte in *. simpl.
      destruct (proc_mem s !! current s) as [pr|]; [|discriminate].
      destruct (pdes (proc_pagetable pr) !! page_dir_idx vpn) as [o|]; [|discriminate].
      subst o. rewrite list_lookup_insert_eq by (eapply lookup_lt_Some; exact Hdir).
      apply list_lookup_insert_eq. eapply lookup_lt_Some; exact Hx.
    + rewrite (free_page_invalid vpn s) by eauto. apply free_page_invalid. eauto.
Qed.

(** The entry of [vpn] after it has been written. *)
Lemma pte_of_written s s' pd dir e vpn x :
  e = page_entry_idx vpn ->
  proc_mem s' = proc_mem s ->
  proc_pde s (current s) (page_dir_idx vpn) = Some pd ->
  (pd < length (pd_mem s))%nat -> (e < length dir)%nat ->
  pd_mem s' = <[pd := <[e := x]> dir]> (pd_mem s) ->
  pte_of s' (current s) vpn = Some x.
Proof.
  intros -> Hpm Hpd Hlt He Hmem. unfold pte_of, proc_pde, read_pte in *.
  rewrite Hpm, Hmem.
  destruct (proc_mem s !! current s) as [pr|]; [|discriminate].
  destruct (pdes (proc_pagetable pr) !! page_dir_idx vpn) as [o|]; [|discriminate].
  subst o. rewrite list_lookup_insert_eq by exact Hlt.
  apply list_lookup_insert_eq, He.
Qed.

(** C8: when a frame is free, [alloc_page] returns the smallest free
    frame, sets its map count to 1 and leaves the other counts alone, and
    makes the entry of [vpn] in the current process valid, with that frame
    and the requested access; when no frame is free it returns
    [(unsigned)-1] and leaves the whole state as it is. *)
Theorem alloc_page_smallest_free junk vpn rw s :
  wf_state s -> in_range vpn -> length junk = NR_PTES_PER_PAGE ->
  (has_free s ->
   exists (pfn : nat) (x : pte),
     (alloc_page junk vpn rw s).1 = Z.of_nat pfn /\
     (pfn < NR_PAGEFRAMES)%nat /\
     mapcounts s !! pfn = Some 0 /\
     (forall g, (g < pfn)%nat -> mapcounts s !! g <> Some 0) /\
     mapcounts (alloc_page junk vpn rw s).2 = <[pfn := 1]> (mapcounts s) /\
     mapcount (alloc_page junk vpn rw s).2 (Z.of_nat pfn) = 1 /\
     pte_of (alloc_page junk vpn rw s).2 (current s) vpn = Some x /\
     current (alloc_page junk vpn rw s).2 = current s /\
     pte_valid x = true /\ pte_pfn x = Z.of_nat pfn /\ pte_rw x = rw) /\
  (~ has_free s -> alloc_page junk vpn rw s = (UINT_MINUS_1, s)).
Proof.
  intros H Hv Hj. split.
  - intros Hfree. destruct (has_free_find s Hfree) as [pfn Hf].
    pose proof (find_free_Some _ _ _ Hf) as (_ & Hz & Hmin).
    rewrite Nat.sub_0_r in Hz, Hmin.
    pose proof (lookup_lt_Some _ _ _ Hz) as Hlt.
    assert (Hone : forall mc', mc' = <[pfn := 1]> (mapcounts s) ->
                               mc_get mc' (Z.of_nat pfn) = 1).
    { intros mc' ->. rewrite mc_get_insert by lia. rewrite decide_True; reflexivity. }
    destruct (wf_pte_lookup s (current s) vpn H (current_live s) Hv)
      as [[Habs Hnone]|(pd & dir & y & Hpd & Hdir & Hwd & Hy & Hsome)].
    + destruct (lookup_lt_is_Some_2 junk (page_entry_idx vpn)) as [y Hy].
      { rewrite Hj. apply page_entry_idx_lt, Hv. }
      rewrite (alloc_page_eq junk vpn rw s pfn (length (pd_mem s))
                 (attach_pd junk (page_dir_idx vpn) s) junk y Hf
                 (locate_pd_absent junk vpn s Habs)
                 (attach_pd_mem_new junk _ s) Hy).
      exists pfn, (mk_pte true rw (Z.of_nat pfn) (pte_private y)).
      cbn [fst snd mapcounts current attach_pd].
      split_and!; try reflexivity; try assumption.
      * rewrite <- (wf_mapcounts s H). exact Hlt.
      * apply Hone. reflexivity.
      * change (current s) with (current (attach_pd junk (page_dir_idx vpn) s)).
        apply (pte_of_written (attach_pd junk (page_dir_idx vpn) s) _
                 (length (pd_mem s)) junk (page_entry_idx vpn) vpn);
          try reflexivity.
        -- exact (attach_pd_pde_eq junk _ s H (page_dir_idx_lt vpn Hv)).
        -- simpl. rewrite length_app. simpl. lia.
        -- rewrite Hj. apply page_entry_idx_lt, Hv.
    + rewrite (alloc_page_eq junk vpn rw s pfn pd s dir y Hf
                 (locate_pd_present junk vpn s pd Hpd) Hdir Hy).
      exists pfn, (mk_pte true rw (Z.of_nat pfn) (pte_private y)).
      cbn [fst snd mapcounts current].
      split_and!; try reflexivity; try assumption.
      * rewrite <- (wf_mapcounts s H). exact Hlt.
      * apply Hone. reflexivity.
      * apply (pte_of_written s _ pd dir (page_entry_idx vpn) vpn);
          try reflexivity; try assumption.
        -- eapply lookup_lt_Some; exact Hdir.
        -- eapply lookup_lt_Some; exact Hy.
  - intros Hno. apply alloc_page_full.
    destruct (find_free (mapcounts s) 0) as [pfn|] eqn:Hf; [|reflexivity].
    exfalso. apply Hno. apply find_free_Some in Hf as (_ & Hz & _).
    rewrite Nat.sub_0_r in Hz. exists pfn. exact Hz.
Qed.

(** * Ownership of page-table pages *)

Lemma NoDup_bind_disjoint {A B} (g : A -> list B) l x y d :
  NoDup (l ≫= g) -> x ∈ l -> y ∈ l -> x <> y -> d ∈ g x -> d ∈ g y -> False.
Proof.
  induction l as [|a l IH]; intros Hnd Hx Hy Hne Hdx Hdy; [inversion Hx|].
  change ((a :: l) ≫= g) with (g a ++ (l ≫= g)) in Hnd.
  apply NoDup_app in Hnd as (_ & Hdisj & Hnd).
  apply elem_of_cons in Hx as [->|Hx]; apply elem_of_cons in Hy as [->|Hy].
  - congruence.
  - apply (Hdisj d Hdx). apply list_elem_of_bind. eauto.
  - apply (Hdisj d Hdy). apply list_elem_of_bind. eauto.
  - exact (IH Hnd Hx Hy Hne Hdx Hdy).
Qed.

Lemma NoDup_bind_elem {A B} (g : A -> list B) l x :
  NoDup (l ≫= g) -> x ∈ l -> NoDup (g x).
Proof.
  induction l as [|a l IH]; intros Hnd Hx; [inversion Hx|].
  change ((a :: l) ≫= g) with (g a ++ (l ≫= g)) in Hnd.
  apply NoDup_app in Hnd as (Ha & _ & Hnd).
  apply elem_of_cons in Hx as [->|Hx]; [exact Ha | exact (IH Hnd Hx)].
Qed.

Lemma dirs_of_NoDup_inj l i j d :
  NoDup (dirs_of l) -> l !! i = Some (Some d) -> l !! j = Some (Some d) -> i = j.
Proof.
  revert i j. induction l as [|o l IH]; intros i j Hnd Hi Hj; [destruct i; discriminate|].
  assert (Hin : forall k, l !! k = Some (Some d) -> d ∈ dirs_of l).
  { intros k Hk. unfold dirs_of. apply list_elem_of_omap. exists (Some d).
    split; [eapply list_elem_of_lookup_2; exact Hk | reflexivity]. }
  destruct o as [d'|].
  - rewrite dirs_of_cons_Some in Hnd. apply NoDup_cons in Hnd as [Hnin Hnd].
    destruct i as [|i], j as [|j]; simpl in Hi, Hj.
    + reflexivity.
    + injection Hi as ->. exfalso. apply Hnin. eapply Hin, Hj.
    + injection Hj as ->. exfalso. apply Hnin. eapply Hin, Hi.
    + f_equal. exact (IH i j Hnd Hi Hj).
  - rewrite dirs_of_cons_None in Hnd.
    destruct i as [|i], j as [|j]; simpl in Hi, Hj; try discriminate.
    f_equal. exact (IH i j Hnd Hi Hj).
Qed.

Lemma wf_all_dirs_NoDup s : wf_state s -> NoDup (all_dirs s).
Proof. intros H. rewrite (wf_owned s H). apply NoDup_seq. Qed.

(** Two slots of live processes that hold the same page-table page are
    the same slot of the same process. *)
Lemma wf_pde_inj s p q i j d :
  wf_state s -> p ∈ live s -> q ∈ live s ->
  proc_pde s p i = Some d -> proc_pde s q j = Some d -> p = q /\ i = j.
Proof.
  intros H Hp Hq Hi Hj.
  pose proof (wf_all_dirs_NoDup s H) as Hnd. unfold all_dirs in Hnd.
  destruct (decide (p = q)) as [->|Hne].
  - split; [reflexivity|].
    pose proof (NoDup_bind_elem _ _ q Hnd Hq) as Hndq.
    unfold proc_pde, proc_dirs in *.
    destruct (proc_mem s !! q) as [pr|]; [|discriminate].
    destruct (pdes (proc_pagetable pr) !! i) as [oi|] eqn:Ei; [|discriminate].
    destruct (pdes (proc_pagetable pr) !! j) as [oj|] eqn:Ej; [|discriminate].
    subst oi oj. exact (dirs_of_NoDup_inj _ i j d Hndq Ei Ej).
  - exfalso. eapply (NoDup_bind_disjoint _ _ p q d Hnd Hp Hq Hne);
      eapply proc_pde_in_dirs; eassumption.
Qed.

(** Writing one entry of the current process leaves every other entry of
    every live process as it is. *)
Lemma pte_of_write_other s pd dir vpn y ps c pb t mc q v :
  wf_state s -> in_range vpn -> in_range v ->
  proc_pde s (current s) (page_dir_idx vpn) = Some pd ->
  pd_mem s !! pd = Some dir ->
  q ∈ live s -> (q <> current s \/ v <> vpn) ->
  pte_of (mk_state (<[pd := <[page_entry_idx vpn := y]> dir]> (pd_mem s))
            (proc_mem s) ps c pb t mc) q v = pte_of s q v.
Proof.
  intros H Hvpn Hv Hpd Hdir Hq Hne. unfold pte_of.
  change (proc_pde (mk_state _ (proc_mem s) ps c pb t mc) q) with (proc_pde s q).
  destruct (proc_pde s q (page_dir_idx v)) as [d|] eqn:Hd; [|reflexivity].
  unfold read_pte. simpl.
  destruct (decide (d = pd)) as [->|Hdne].
  - destruct (wf_pde_inj s q (current s) _ _ pd H Hq (current_live s) Hd Hpd) as [-> Hidx].
    rewrite list_lookup_insert_eq by (eapply lookup_lt_Some; exact Hdir).
    rewrite Hdir. apply list_lookup_insert_ne. intros He.
    destruct Hne as [Hne|Hne]; [congruence|].
    apply Hne. apply page_idx_inj; auto.
  - rewrite list_lookup_insert_ne by congruence. reflexivity.
Qed.

(** * The copy-on-write fault *)

Lemma pte_of_lookup s vpn x :
  wf_state s -> in_range vpn ->
  pte_of s (current s) vpn = Some x ->
  exists pd dir,
    proc_pde s (current s) (page_dir_idx vpn) = Some pd /\
    pd_mem s !! pd = Some dir /\ wf_dir dir /\
    dir !! page_entry_idx vpn = Some x.
Proof.
  intros H Hv Hx.
  destruct (wf_pte_lookup s (current s) vpn H (current_live s) Hv)
    as [[_ Hnone]|(pd & dir & y & Hpd & Hdir & Hwd & Hy & Hsome)]; [congruence|].
  exists pd, dir. rewrite Hsome in Hx. injection Hx as <-. auto.
Qed.

(** The copy-on-write fault while a frame is free.  On a write fault on a
    valid entry that is readable, not
    writable, and whose [private] includes write, when the frame is
    mapped more than once and a frame is free the handler succeeds, maps
    the smallest free frame read-write at the entry, gives that frame the
    count 1, takes one from the count of the old frame and touches no
    other entry of any live process; when the frame is mapped at most once
    the handler succeeds and only adds the write bit to [rw] of the
    entry. *)
Lemma cow_write_fault vpn rw s x :
  wf_state s -> in_range vpn ->
  pte_of s (current s) vpn = Some x -> pte_valid x = true ->
  Z.land (pte_rw x) ACCESS_READ <> 0 ->
  Z.land (pte_rw x) ACCESS_WRITE = 0 ->
  Z.land (pte_private x) ACCESS_WRITE <> 0 ->
  Z.land rw ACCESS_WRITE <> 0 ->
  (1 < mapcount s (pte_pfn x) -> has_free s ->
   (handle_page_fault vpn rw s).1 = true /\
   exists new : nat,
     (new < NR_PAGEFRAMES)%nat /\ mapcounts s !! new = Some 0 /\
     (forall g, (g < new)%nat -> mapcounts s !! g <> Some 0) /\
     mapcount (handle_page_fault vpn rw s).2 (Z.of_nat new) = 1 /\
     mapcount (handle_page_fault vpn rw s).2 (pte_pfn x) = mapcount s (pte_pfn x) - 1 /\
     (forall f, 0 <= f -> f <> Z.of_nat new -> f <> pte_pfn x ->
                mapcount (handle_page_fault vpn rw s).2 f = mapcount s f) /\
     pte_of (handle_page_fault vpn rw s).2 (current s) vpn =
       Some (mk_pte true 3 (Z.of_nat new) (pte_private x)) /\
     Z.of_nat new <> pte_pfn x /\
     forall q v, q ∈ live s -> in_range v -> (q <> current s \/ v <> vpn) ->
                 pte_of (handle_page_fault vpn rw s).2 q v = pte_of s q v) /\
  (mapcount s (pte_pfn x) <= 1 ->
   (handle_page_fault vpn rw s).1 = true /\
   mapcounts (handle_page_fault vpn rw s).2 = mapcounts s /\
   pte_of (handle_page_fault vpn rw s).2 (current s) vpn =
     Some (mk_pte true (Z.lor (pte_rw x) ACCESS_WRITE) (pte_pfn x) (pte_private x)) /\
   forall q v, q ∈ live s -> in_range v -> (q <> current s \/ v <> vpn) ->
               pte_of (handle_page_fault vpn rw s).2 q v = pte_of s q v).
Proof.
  intros H Hv Hx Hval Hr Hw Hp Ha.
  destruct (pte_of_lookup s vpn x H Hv Hx) as (pd & dir & Hpd & Hdir & Hwd & He).
  pose proof (lookup_lt_Some _ _ _ Hdir) as Hlt1.
  pose proof (lookup_lt_Some _ _ _ He) as Hlt2.
  pose proof (wf_pte_of_dir dir _ x Hwd He Hval) as Hpfn.
  rewrite (handle_page_fault_valid vpn rw s pd dir x Hpd Hdir He Hval).
  assert (C1 : negb (pte_rw x =? rw) && nonzero (Z.land rw ACCESS_WRITE) = true).
  { apply andb_true_iff. split; [|apply nonzero_true, Ha].
    apply negb_true_iff, Z.eqb_neq. intros E. rewrite E in Hw. contradiction. }
  assert (C2 : nonzero (Z.land (pte_rw x) ACCESS_READ)
               && nonzero (Z.land (pte_private x) ACCESS_WRITE) = true).
  { apply andb_true_iff. split; apply nonzero_true; assumption. }
  rewrite C1, C2. split.
  - intros Hm Hfree. apply Z.ltb_lt in Hm as Hm'. rewrite Hm'.
    destruct (has_free_find s Hfree) as [new Hnew]. rewrite Hnew.
    apply find_free_Some in Hnew as (_ & Hz & Hmin). rewrite Nat.sub_0_r in Hz, Hmin.
    pose proof (lookup_lt_Some _ _ _ Hz) as Hlt.
    assert (Hne : Z.of_nat new <> pte_pfn x).
    { intros E. unfold mapcount, mc_get in Hm. rewrite <- E, Nat2Z.id, Hz in Hm.
      simpl in Hm. lia. }
    cbn [fst snd]. split; [reflexivity|]. exists new.
    split_and!; try assumption.
    + rewrite <- (wf_mapcounts s H). exact Hlt.
    + unfold mapcount. cbn [mapcounts].
      rewrite mc_get_alter, decide_False by lia.
      rewrite mc_get_insert, decide_True by (lia || reflexivity). reflexivity.
    + unfold mapcount. cbn [mapcounts].
      rewrite mc_get_alter, decide_True by (lia || reflexivity).
      rewrite list_lookup_insert_ne by lia. unfold mc_get.
      destruct (lookup_lt_is_Some_2 (mapcounts s) (Z.to_nat (pte_pfn x))) as [m Hm0].
      { rewrite (wf_mapcounts s H). lia. }
      rewrite Hm0. simpl. apply wrap32_small.
      pose proof (proj1 (Forall_lookup _ _) (wf_counts s H) _ _ Hm0) as Hrng.
      simpl in Hrng.
      unfold mapcount, mc_get in Hm. rewrite Hm0 in Hm. simpl in Hm. lia.
    + intros f Hf Hf1 Hf2. unfold mapcount. cbn [mapcounts].
      rewrite mc_get_alter, decide_False by (lia || congruence).
      rewrite mc_get_insert, decide_False by (lia || congruence). reflexivity.
    + apply (pte_of_written s _ pd dir (page_entry_idx vpn) vpn); auto.
    + intros q v Hq Hv' Hne'. apply pte_of_write_other; auto.
  - intros Hm. apply Z.ltb_ge in Hm as Hm'. rewrite Hm'. cbn [fst snd mapcounts].
    split_and!; try reflexivity.
    + apply (pte_of_written s _ pd dir (page_entry_idx vpn) vpn); auto.
    + intros q v Hq Hv' Hne'. apply pte_of_write_other; auto.
Qed.

(** * Failure of the page-fault handler *)

(** When [handle_page_fault] returns false. *)
Lemma handle_page_fault_false_iff vpn rw s :
  wf_state s -> in_range vpn -> Z.of_nat NR_PAGEFRAMES < UINT_MINUS_1 ->
  (handle_page_fault vpn rw s).1 = false <->
  ((pte_of s (current s) vpn = None \/
    exists x, pte_of s (current s) vpn = Some x /\ pte_valid x = false) /\
   ~ has_free s) \/
  (exists x, pte_of s (current s) vpn = Some x /\ pte_valid x = true /\
             pte_rw x <> rw /\ Z.land rw ACCESS_WRITE <> 0 /\
             ~ (Z.land (pte_rw x) ACCESS_READ <> 0 /\
                Z.land (pte_private x) ACCESS_WRITE <> 0)).
Proof.
  intros H Hv Hbig.
  destruct (locate_pd_inv zero_pd vpn s H Hv zero_pd_wf) as
    (pd & s1 & dir & x & Hl & Hwf1 & Hmc & Ht & Hcur & Hps & Hpb & Hpd & Hd & Hx & Hm).
  assert (Hr : read_pte s1 pd (page_entry_idx vpn) = Some x)
    by (unfold read_pte; rewrite Hd; exact Hx).
  assert (Hfree : has_free s1 <-> has_free s) by (unfold has_free; rewrite Hmc; tauto).
  destruct (pte_valid x) eqn:Hval.
  - destruct (pte_of s (current s) vpn) as [y|] eqn:Hy.
    2:{ destruct Hm as (_ & _ & ->). apply zero_pd_lookup in Hx. subst x. discriminate. }
    destruct Hm as [<- ->].
    rewrite (handle_page_fault_valid vpn rw s pd dir x Hpd Hd Hx Hval).
    unfold nonzero.
    destruct (Z.eqb_spec (pte_rw x) rw) as [E1|E1];
      destruct (Z.eqb_spec (Z.land rw ACCESS_WRITE) 0) as [E2|E2];
      destruct (Z.eqb_spec (Z.land (pte_rw x) ACCESS_READ) 0) as [E3|E3];
      destruct (Z.eqb_spec (Z.land (pte_private x) ACCESS_WRITE) 0) as [E4|E4];
      simpl; try destruct (1 <? mapcount s (pte_pfn x)); simpl;
      (split;
       [ try discriminate; intros _; right; exists x; split_and!; auto; tauto
       | try reflexivity;
         intros [[[C|(y & C & C')] _]|(y & C & _ & C1 & C2 & C3)];
         try discriminate; injection C as <-; try congruence; tauto ]).
  - rewrite (handle_page_fault_first_touch vpn rw s pd s1 x Hl Hr Hval). cbn [fst].
    assert (Hinv : pte_of s (current s) vpn = None \/
                   exists y, pte_of s (current s) vpn = Some y /\ pte_valid y = false).
    { destruct (pte_of s (current s) vpn) as [y|]; [right | left; reflexivity].
      destruct Hm as [<- _]. eauto. }
    destruct (find_free (mapcounts s1) 0) as [pfn|] eqn:Hf.
    + rewrite (alloc_page_eq [] vpn rw s1 pfn pd s1 dir x Hf) by
        (try assumption; apply locate_pd_present; rewrite Hcur; exact Hpd).
      cbn [fst]. apply find_free_Some in Hf as (_ & Hz & _). rewrite Nat.sub_0_r in Hz.
      pose proof (lookup_lt_Some _ _ _ Hz) as Hlt. rewrite (wf_mapcounts s1 Hwf1) in Hlt.
      destruct (Z.eqb_spec (Z.of_nat pfn) UINT_MINUS_1) as [E|E];
        [unfold UINT_MINUS_1 in E, Hbig; lia|].
      simpl. split; [discriminate|].
      intros [[_ Hno]|(y & C & C' & _)].
      * exfalso. apply Hno, Hfree. exists pfn. exact Hz.
      * destruct Hinv as [Hn|(z & Hz1 & Hz2)]; congruence.
    + rewrite alloc_page_full by exact Hf. cbn [fst]. simpl. split; [|reflexivity].
      intros _. left. split; [exact Hinv|].
      intros Hfr. apply Hfree in Hfr. destruct Hfr as [g Hg].
      rewrite find_free_None in Hf. exact (Hf g Hg).
Qed.

(** X14: the copy branch does not test the result of [alloc_page].  On a
    write fault on a copy-on-write entry whose frame is mapped more than
    once, when no frame is free, the allocator fails and the handler still
    returns true, having released the old frame and stored [(unsigned)-1]
    as the frame of the entry. *)
Lemma handle_page_fault_cow_out_of_memory vpn rw s x :
  wf_state s -> in_range vpn ->
  pte_of s (current s) vpn = Some x -> pte_valid x = true ->
  pte_rw x <> rw -> Z.land rw ACCESS_WRITE <> 0 ->
  Z.land (pte_rw x) ACCESS_READ <> 0 ->
  Z.land (pte_private x) ACCESS_WRITE <> 0 ->
  1 < mapcount s (pte_pfn x) ->
  ~ has_free s ->
  (handle_page_fault vpn rw s).1 = true /\
  pte_of (handle_page_fault vpn rw s).2 (current s) vpn =
    Some (mk_pte true (Z.lor (pte_rw x) ACCESS_WRITE) UINT_MINUS_1 (pte_private x)) /\
  mapcount (handle_page_fault vpn rw s).2 (pte_pfn x) = mapcount s (pte_pfn x) - 1.
Proof.
  intros H Hv Hx Hval Hne Ha Hr Hp Hm Hno.
  destruct (pte_of_lookup s vpn x H Hv Hx) as (pd & dir & Hpd & Hdir & Hwd & He).
  pose proof (lookup_lt_Some _ _ _ Hdir) as Hlt1.
  pose proof (lookup_lt_Some _ _ _ He) as Hlt2.
  pose proof (wf_pte_of_dir dir _ x Hwd He Hval) as Hpfn.
  rewrite (handle_page_fault_valid vpn rw s pd dir x Hpd Hdir He Hval).
  apply Z.eqb_neq in Hne. apply nonzero_true in Ha, Hr, Hp.
  apply Z.ltb_lt in Hm as Hm'.
  rewrite Hne, Ha, Hr, Hp, Hm'. simpl negb. simpl andb. cbv iota.
  assert (Hf : find_free (mapcounts s) 0 = None).
  { destruct (find_free (mapcounts s) 0) as [pfn|] eqn:Hf; [|reflexivity].
    exfalso. apply Hno. apply find_free_Some in Hf as (_ & Hz & _).
    rewrite Nat.sub_0_r in Hz. exists pfn. exact Hz. }
  rewrite Hf. cbn [fst snd]. split_and!; [reflexivity | |].
  - apply (pte_of_written s _ pd dir (page_entry_idx vpn) vpn); auto.
  - unfold mapcount. cbn [mapcounts].
    rewrite mc_get_alter, decide_True by (lia || reflexivity). unfold mc_get.
    destruct (lookup_lt_is_Some_2 (mapcounts s) (Z.to_nat (pte_pfn x))) as [m Hm0].
    { rewrite (wf_mapcounts s H). lia. }
    rewrite Hm0. simpl. apply wrap32_small.
    pose proof (proj1 (Forall_lookup _ _) (wf_counts s H) _ _ Hm0) as Hrng.
    simpl in Hrng.
    unfold mapcount, mc_get in Hm. rewrite Hm0 in Hm. simpl in Hm. lia.
Qed.

(** The handler in the copy branch when no frame is free. *)
Lemma handle_page_fault_copy_no_frame vpn rw s x pd dir :
  proc_pde s (current s) (page_dir_idx vpn) = Some pd ->
  pd_mem s !! pd = Some dir -> dir !! page_entry_idx vpn = Some x ->
  pte_valid x = true ->
  pte_rw x <> rw -> Z.land rw ACCESS_WRITE <> 0 ->
  Z.land (pte_rw x) ACCESS_READ <> 0 ->
  Z.land (pte_private x) ACCESS_WRITE <> 0 ->
  1 < mapcount s (pte_pfn x) ->
  ~ has_free s ->
  handle_page_fault vpn rw s =
  (true,
   mk_state
     (<[pd := <[page_entry_idx vpn :=
                  mk_pte true (Z.lor (pte_rw x) ACCESS_WRITE) UINT_MINUS_1
                    (pte_private x)]> dir]> (pd_mem s))
     (proc_mem s) (processes s) (current s) (ptbr s) (tlb s)
     (alter (fun m => wrap32 (m - 1)) (Z.to_nat (pte_pfn x)) (mapcounts s))).
Proof.
  intros Hpd Hdir He Hval Hne Ha Hr Hp Hm Hno.
  rewrite (handle_page_fault_valid vpn rw s pd dir x Hpd Hdir He Hval).
  apply Z.eqb_neq in Hne. apply nonzero_true in Ha, Hr, Hp.
  apply Z.ltb_lt in Hm.
  rewrite Hne, Ha, Hr, Hp, Hm. simpl negb. simpl andb. cbv iota.
  assert (Hf : find_free (mapcounts s) 0 = None).
  { destruct (find_free (mapcounts s) 0) as [pfn|] eqn:Hf; [|reflexivity].
    exfalso. apply Hno. apply find_free_Some in Hf as (_ & Hz & _).
    rewrite Nat.sub_0_r in Hz. exists pfn. exact Hz. }
  rewrite Hf. reflexivity.
Qed.

(** C2: the copy branch of [handle_page_fault] does not test the result
    of [alloc_page], which the first-touch branch does.  On a write fault
    on a valid entry that is readable, not writable, and whose [private]
    includes write, when the frame is mapped more than once and no frame
    is free, the handler returns true although no frame has been
    allocated: the entry stays valid and becomes writable with
    [(unsigned)-1] as its frame, the count of the old frame goes down by
    one and no other count changes, so no frame has received the page;
    [(unsigned)-1] is not an index of [mapcounts] when the machine has
    at most [2^32 - 1] frames. *)
Theorem cow_write_fault_without_free_frame vpn rw s x :
  wf_state s -> in_range vpn ->
  pte_of s (current s) vpn = Some x -> pte_valid x = true ->
  Z.land (pte_rw x) ACCESS_READ <> 0 ->
  Z.land (pte_rw x) ACCESS_WRITE = 0 ->
  Z.land (pte_private x) ACCESS_WRITE <> 0 ->
  Z.land rw ACCESS_WRITE <> 0 ->
  1 < mapcount s (pte_pfn x) ->
  ~ has_free s ->
  (handle_page_fault vpn rw s).1 = true /\
  pte_of (handle_page_fault vpn rw s).2 (current s) vpn =
    Some (mk_pte true (Z.lor (pte_rw x) ACCESS_WRITE) UINT_MINUS_1 (pte_private x)) /\
  mapcount (handle_page_fault vpn rw s).2 (pte_pfn x) = mapcount s (pte_pfn x) - 1 /\
  (forall f, 0 <= f -> f <> pte_pfn x ->
             mapcount (handle_page_fault vpn rw s).2 f = mapcount s f) /\
  ~ has_free (handle_page_fault vpn rw s).2 /\
  (Z.of_nat NR_PAGEFRAMES <= UINT_MINUS_1 ->
   mapcounts (handle_page_fault vpn rw s).2 !! Z.to_nat UINT_MINUS_1 = None).
Proof.
  intros H Hv Hx Hval Hr Hw Hp Ha Hm Hno.
  destruct (pte_of_lookup s vpn x H Hv Hx) as (pd & dir & Hpd & Hdir & Hwd & He).
  pose proof (lookup_lt_Some _ _ _ Hdir) as Hlt1.
  pose proof (lookup_lt_Some _ _ _ He) as Hlt2.
  pose proof (wf_pte_of_dir dir _ x Hwd He Hval) as Hpfn.
  assert (Hne : pte_rw x <> rw).
  { intros E. rewrite E in Hw. contradiction. }
  rewrite (handle_page_fault_copy_no_frame vpn rw s x pd dir Hpd Hdir He Hval
             Hne Ha Hr Hp Hm Hno).
  cbn [fst snd].
  destruct (lookup_lt_is_Some_2 (mapcounts s) (Z.to_nat (pte_pfn x))) as [m Hm0].
  { rewrite (wf_mapcounts s H). lia. }
  pose proof (proj1 (Forall_lookup _ _) (wf_counts s H) _ _ Hm0) as Hrng.
  simpl in Hrng.
  assert (Hm1 : m = mapcount s (pte_pfn x)).
  { unfold mapcount, mc_get. rewrite Hm0. reflexivity. }
  split_and!.
  - reflexivity.
  - apply (pte_of_written s _ pd dir (page_entry_idx vpn) vpn); auto.
  - unfold mapcount at 1. cbn [mapcounts].
    rewrite mc_get_alter, decide_True by (lia || reflexivity).
    rewrite Hm0, Hm1. apply wrap32_small. lia.
  - intros f Hf Hfne. unfold mapcount. cbn [mapcounts].
    rewrite mc_get_alter, decide_False by (lia || congruence). reflexivity.
  - intros [f Hf]. cbn [mapcounts] in Hf.
    destruct (decide (f = Z.to_nat (pte_pfn x))) as [->|Hfne].
    + rewrite list_lookup_alter_eq, Hm0 in Hf. simpl in Hf. injection Hf as Hf.
      rewrite wrap32_small in Hf by lia. lia.
    + rewrite list_lookup_alter_ne in Hf by congruence. apply Hno. exists f. exact Hf.
  - intros Hbig. cbn [mapcounts]. apply lookup_ge_None_2.
    rewrite length_alter, (wf_mapcounts s H). unfold UINT_MINUS_1 in *. lia.
Qed.

(** C5: the handler does not fail when the allocator, called to copy a
    shared page, finds no free frame.  The call of [alloc_page] returns
    [(unsigned)-1] and changes nothing, and the handler, which tests
    that result on a first touch only, returns true. *)
Theorem handle_page_fault_true_on_failed_copy vpn rw s :
  wf_state s -> in_range vpn ->
  cow_copy s vpn rw -> ~ has_free s ->
  fault_allocates s vpn rw /\
  alloc_page [] vpn 3 s = (UINT_MINUS_1, s) /\
  (handle_page_fault vpn rw s).1 = true.
Proof.
  intros H Hv Hcow Hno. split; [right; right; exact Hcow|].
  split.
  - apply alloc_page_full.
    destruct (find_free (mapcounts s) 0) as [pfn|] eqn:Hf; [|reflexivity].
    exfalso. apply Hno. apply find_free_Some in Hf as (_ & Hz & _).
    rewrite Nat.sub_0_r in Hz. exists pfn. exact Hz.
  - destruct Hcow as (x & Hx & Hval & Hne & Ha & Hr & Hp & Hm).
    destruct (pte_of_lookup s vpn x H Hv Hx) as (pd & dir & Hpd & Hdir & Hwd & He).
    rewrite (handle_page_fault_copy_no_frame vpn rw s x pd dir Hpd Hdir He Hval
               Hne Ha Hr Hp Hm Hno).
    reflexivity.
Qed.

(** * Fork semantics *)

Lemma dirs_of_elem l i d : l !! i = Some (Some d) -> d ∈ dirs_of l.
Proof.
  intros H. unfold dirs_of. apply list_elem_of_omap. exists (Some d).
  split; [eapply list_elem_of_lookup_2; exact H | reflexivity].
Qed.

(** The outer loop of the fork, slot by slot: the child gets a new page
    for every page of the parent, both pages hold the downgraded entries
    of the parent's page, and no other page-table page changes. *)
Lemma fork_pdes_tables cur : forall mem mc ns mem' mc',
  fork_pdes cur mem mc = (ns, mem', mc') ->
  NoDup (dirs_of cur) ->
  (forall d, d ∈ dirs_of cur -> (d < length mem)%nat) ->
  (length mem <= length mem')%nat /\
  (forall i, cur !! i = Some None -> ns !! i = Some None) /\
  (forall i d, cur !! i = Some (Some d) ->
     exists nd dir,
       ns !! i = Some (Some nd) /\ (length mem <= nd)%nat /\
       mem !! d = Some dir /\
       mem' !! d = Some (cow_pte <$> dir) /\ mem' !! nd = Some (cow_pte <$> dir)) /\
  (forall d, (d < length mem)%nat -> d ∉ dirs_of cur -> mem' !! d = mem !! d).
Proof.
  induction cur as [|[d|] cur IH]; intros mem mc ns mem' mc' E Hnd Hlt.
  - simpl in E. injection E as <- <- <-.
    split_and!; [lia | discriminate | discriminate | reflexivity].
  - simpl in E. rewrite fork_ptes_eq in E.
    destruct (fork_pdes cur _ _) as [[ns1 mem1] mc1] eqn:E1.
    injection E as <- <- <-.
    rewrite dirs_of_cons_Some in Hnd, Hlt.
    apply NoDup_cons in Hnd as [Hnin Hnd].
    assert (Hd : (d < length mem)%nat) by (apply Hlt, list_elem_of_here).
    destruct (lookup_lt_is_Some_2 mem d Hd) as [dir Hdir].
    rewrite Hdir in E1. simpl in E1.
    assert (Hlen1 : length (<[d:=cow_pte <$> dir]> mem ++ [cow_pte <$> dir])
                    = S (length mem)).
    { rewrite length_app, length_insert. simpl. lia. }
    destruct (IH _ _ _ _ _ E1 Hnd) as (I0 & I1 & I2 & I3).
    { intros d' Hd'. rewrite Hlen1.
      assert (d' < length mem)%nat by (apply Hlt, list_elem_of_further, Hd'). lia. }
    rewrite Hlen1 in I0, I2, I3.
    assert (Hnew : length mem ∉ dirs_of cur).
    { intros Hin. assert (length mem < length mem)%nat
        by (apply Hlt, list_elem_of_further, Hin). lia. }
    split_and!.
    + lia.
    + intros [|i] Hi; [discriminate|]. simpl in Hi |- *. apply I1, Hi.
    + intros [|i] d0 Hi; simpl in Hi |- *.
      * injection Hi as <-. exists (length mem), dir.
        split_and!; [reflexivity | lia | exact Hdir | |].
        -- rewrite I3 by (lia || assumption).
           rewrite lookup_app_l by (rewrite length_insert; lia).
           apply list_lookup_insert_eq, Hd.
        -- rewrite I3 by (lia || assumption).
           rewrite lookup_app_r by (rewrite length_insert; lia).
           rewrite length_insert, Nat.sub_diag. reflexivity.
      * destruct (I2 i d0 Hi) as (nd & dir0 & J1 & J2 & J3 & J4 & J5).
        exists nd, dir0. split_and!; [exact J1 | lia | | exact J4 | exact J5].
        assert (d0 ∈ dirs_of cur) by (eapply dirs_of_elem; exact Hi).
        assert (d0 < length mem)%nat by (apply Hlt, list_elem_of_further; assumption).
        rewrite lookup_app_l in J3 by (rewrite length_insert; lia).
        rewrite list_lookup_insert_ne in J3 by (intros ->; contradiction).
        exact J3.
    + intros d0 Hd0 Hnin0. rewrite dirs_of_cons_Some in Hnin0.
      rewrite not_elem_of_cons in Hnin0. destruct Hnin0 as [Hne Hnin0].
      rewrite I3 by (lia || assumption).
      rewrite lookup_app_l by (rewrite length_insert; lia).
      apply list_lookup_insert_ne. congruence.
  - simpl in E. destruct (fork_pdes cur mem mc) as [[ns1 mem1] mc1] eqn:E1.
    injection E as <- <- <-. rewrite dirs_of_cons_None in Hnd, Hlt.
    destruct (IH _ _ _ _ _ E1 Hnd Hlt) as (I0 & I1 & I2 & I3).
    split_and!.
    + exact I0.
    + intros [|i] Hi; [reflexivity|]. simpl in Hi |- *. apply I1, Hi.
    + intros [|i] d0 Hi; [discriminate|]. simpl in Hi |- *. apply I2, Hi.
    + intros d0 Hd0 Hnin0. rewrite dirs_of_cons_None in Hnin0. apply I3; assumption.
Qed.

(** C3: when no process of the ready queue has the requested pid,
    [switch_process] creates a new process object with that pid and makes
    it current.  Every valid entry of the parent is then, in both the
    parent and the child, valid, read-only, with the frame of the parent's
    entry, and with [private] set to the parent's former [rw] if the
    parent's [private] was zero (to the parent's former [private]
    otherwise).  The map count of every frame grows by the number of valid
    entries of the parent that map it (32-bit arithmetic), that is by
    exactly one for a frame the parent maps once.  The page-table pages of
    the child are new objects, none of them a page of a process that
    existed before, and the parent keeps its own pages. *)
Theorem fork_semantics target s :
  wf_state s ->
  (forall p pr, p ∈ processes s -> proc_mem s !! p = Some pr -> pid pr <> target) ->
  current (switch_process target s) = length (proc_mem s) /\
  (current (switch_process target s) ∉ live s) /\
  (exists pr, proc_mem (switch_process target s) !! length (proc_mem s) = Some pr /\
              pid pr = target) /\
  (forall vpn x,
     in_range vpn -> pte_of s (current s) vpn = Some x -> pte_valid x = true ->
     exists c p',
       pte_of (switch_process target s) (length (proc_mem s)) vpn = Some c /\
       pte_of (switch_process target s) (current s) vpn = Some p' /\
       pte_valid c = true /\ pte_valid p' = true /\
       pte_pfn c = pte_pfn x /\ pte_pfn p' = pte_pfn x /\
       pte_rw c = ACCESS_READ /\ pte_rw p' = ACCESS_READ /\
       (pte_private x = 0 -> pte_private c = pte_rw x /\ pte_private p' = pte_rw x) /\
       (pte_private x <> 0 ->
        pte_private c = pte_private x /\ pte_private p' = pte_private x)) /\
  (forall f, 0 <= f < Z.of_nat NR_PAGEFRAMES ->
     mapcount (switch_process target s) f =
       wrap32 (mapcount s f + Z.of_nat (proc_refs s f (current s))) /\
     (proc_refs s f (current s) = 1%nat -> mapcount s f < 4294967295 ->
      mapcount (switch_process target s) f = mapcount s f + 1)) /\
  (forall i d, proc_pde (switch_process target s) (length (proc_mem s)) i = Some d ->
     (length (pd_mem s) <= d)%nat /\
     forall q j, q ∈ live s -> proc_pde (switch_process target s) q j <> Some d) /\
  (forall q j, q ∈ live s ->
     proc_pde (switch_process target s) q j = proc_pde s q j).
Proof.
  intros H Hpid.
  assert (E : find_process (proc_mem s) (processes s) target 0 = None)
    by (apply find_process_None; exact Hpid).
  destruct (fork_pdes (cur_pdes s) (pd_mem s) (mapcounts s)) as [[ns mem] mc] eqn:F.
  rewrite (switch_process_fork target s ns mem mc E F).
  cbn [current proc_mem].
  destruct (wf_current s H) as (pr & Hpr & Hlen).
  assert (Hdlt : forall d, d ∈ dirs_of (cur_pdes s) -> (d < length (pd_mem s))%nat).
  { intros d Hd. rewrite cur_pdes_dirs in Hd. apply wf_all_dirs_lt; [exact H|].
    eapply all_dirs_elem; [apply current_live | exact Hd]. }
  assert (Hndc : NoDup (dirs_of (cur_pdes s))).
  { rewrite cur_pdes_dirs.
    exact (NoDup_bind_elem _ _ _ (wf_all_dirs_NoDup s H) (current_live s)). }
  destruct (fork_pdes_counts _ _ _ _ _ _ F Hdlt (wf_dirs s H) (wf_mapcounts s H)
              (wf_counts s H)) as (I1 & I2 & I3 & I4 & I5 & I6 & I7).
  destruct (fork_pdes_tables _ _ _ _ _ _ F Hndc Hdlt) as (T0 & T1 & T2 & T3).
  assert (Hold : forall q j, q ∈ live s ->
            proc_pde (mk_state mem (proc_mem s ++ [mk_process target (mk_pagetable ns)])
                        (processes s ++ [current s]) (length (proc_mem s))
                        (length (proc_mem s)) (tlb_flush (tlb s)) mc) q j
            = proc_pde s q j).
  { intros q j Hq. unfold proc_pde. cbn [proc_mem].
    rewrite lookup_app_l by (apply wf_live_lt; assumption). reflexivity. }
  assert (Hnew : forall j,
            proc_pde (mk_state mem (proc_mem s ++ [mk_process target (mk_pagetable ns)])
                        (processes s ++ [current s]) (length (proc_mem s))
                        (length (proc_mem s)) (tlb_flush (tlb s)) mc)
                     (length (proc_mem s)) j
            = match ns !! j with Some d => d | None => None end).
  { intros j. unfold proc_pde. cbn [proc_mem].
    rewrite lookup_app_r, Nat.sub_diag by lia. reflexivity. }
  split_and!.
  - reflexivity.
  - intros Hin. apply (wf_live_lt s _ H) in Hin. lia.
  - eexists. rewrite lookup_app_r, Nat.sub_diag by lia. split; reflexivity.
  - intros vpn x Hv Hx Hval.
    destruct (pte_of_lookup s vpn x H Hv Hx) as (pd & dir & Hpd & Hdir & Hwd & He).
    assert (Hslot : cur_pdes s !! page_dir_idx vpn = Some (Some pd)).
    { unfold proc_pde in Hpd. unfold cur_pdes. rewrite Hpr in Hpd |- *.
      destruct (pdes (proc_pagetable pr) !! page_dir_idx vpn) as [o|]; [|discriminate].
      rewrite Hpd. reflexivity. }
    destruct (T2 _ _ Hslot) as (nd & dir' & J1 & J2 & J3 & J4 & J5).
    rewrite Hdir in J3. injection J3 as <-.
    assert (Hce : (cow_pte <$> dir) !! page_entry_idx vpn = Some (cow_pte x))
      by (rewrite list_lookup_fmap, He; reflexivity).
    exists (cow_pte x), (cow_pte x).
    assert (Hcow : cow_pte x =
                   mk_pte true ACCESS_READ (pte_pfn x)
                     (if pte_private x =? 0 then pte_rw x else pte_private x))
      by (unfold cow_pte; rewrite Hval; reflexivity).
    split_and!.
    + unfold pte_of. rewrite Hnew, J1. unfold read_pte. cbn [pd_mem].
      rewrite J5. exact Hce.
    + unfold pte_of. rewrite (Hold _ _ (current_live s)), Hpd.
      unfold read_pte. cbn [pd_mem]. rewrite J4. exact Hce.
    + rewrite Hcow. reflexivity.
    + rewrite Hcow. reflexivity.
    + rewrite Hcow. reflexivity.
    + rewrite Hcow. reflexivity.
    + rewrite Hcow. reflexivity.
    + rewrite Hcow. reflexivity.
    + intros E0. rewrite Hcow. simpl. rewrite E0. simpl. auto.
    + intros E0. rewrite Hcow. simpl.
      destruct (Z.eqb_spec (pte_private x) 0); [contradiction | auto].
  - intros f Hf. destruct (I7 f Hf) as [_ J2].
    match goal with |- ?L = ?R /\ _ => assert (Hm : L = R) end.
    { unfold mapcount, proc_refs. cbn [mapcounts]. rewrite <- cur_pdes_dirs. exact J2. }
    split; [exact Hm|]. intros Hone Hsmall. rewrite Hm, Hone. apply wrap32_small.
    pose proof (mc_get_range (mapcounts s) f (wf_counts s H)) as Hr.
    unfold mapcount in *. lia.
  - intros i d Hd.
    assert (Hin : d ∈ dirs_of ns).
    { rewrite Hnew in Hd. destruct (ns !! i) as [o|] eqn:Ei; [|discriminate].
      subst o. eapply dirs_of_elem; exact Ei. }
    rewrite I2 in Hin. apply elem_of_seq in Hin.
    split; [lia|]. intros q j Hq. rewrite (Hold q j Hq). intros Hq'.
    assert (d < length (pd_mem s))%nat; [|lia].
    apply wf_all_dirs_lt; [exact H|].
    eapply all_dirs_elem; [exact Hq | eapply proc_pde_in_dirs; exact Hq'].
  - exact Hold.
Qed.

(** * A duplicate pid *)

(** C10: [switch_process] looks for the pid in the ready queue only.
    Called with the pid of the running process, which is in no process of
    the ready queue, it forks: the new current process is a new object
    with that pid, and the process that was running, now last in the
    ready queue, has the same pid. *)
Theorem switch_process_own_pid_forks s pr :
  proc_mem s !! current s = Some pr ->
  (forall p pr', p ∈ processes s -> proc_mem s !! p = Some pr' -> pid pr' <> pid pr) ->
  let s' := switch_process (pid pr) s in
  current s' = length (proc_mem s) /\
  current s' <> current s /\
  processes s' = processes s ++ [current s] /\
  (current s ∈ live s') /\ (current s' ∈ live s') /\
  (exists pr', proc_mem s' !! current s' = Some pr' /\ pid pr' = pid pr) /\
  proc_mem s' !! current s = Some pr.
Proof.
  intros Hpr Hpid s'.
  assert (E : find_process (proc_mem s) (processes s) (pid pr) 0 = None)
    by (apply find_process_None; exact Hpid).
  destruct (fork_pdes (cur_pdes s) (pd_mem s) (mapcounts s)) as [[ns mem] mc] eqn:F.
  unfold s'. rewrite (switch_process_fork (pid pr) s ns mem mc E F).
  unfold live. cbn [current proc_mem processes].
  pose proof (lookup_lt_Some _ _ _ Hpr) as Hlt.
  split_and!.
  - reflexivity.
  - lia.
  - reflexivity.
  - apply list_elem_of_further, elem_of_app. right. apply list_elem_of_here.
  - apply list_elem_of_here.
  - eexists. rewrite lookup_app_r, Nat.sub_diag by lia. split; reflexivity.
  - rewrite lookup_app_l by exact Hlt. exact Hpr.
Qed.
(** * More on the TLB *)

(** ** What the operations on page tables leave alone *)

Lemma locate_pd_frame content vpn s :
  tlb (locate_pd content vpn s).2 = tlb s /\
  processes (locate_pd content vpn s).2 = processes s /\
  current (locate_pd content vpn s).2 = current s /\
  ptbr (locate_pd content vpn s).2 = ptbr s /\
  mapcounts (locate_pd content vpn s).2 = mapcounts s.
Proof.
  unfold locate_pd. destruct (proc_pde _ _ _); simpl; auto.
Qed.

Lemma alloc_page_frame junk vpn rw s :
  tlb (alloc_page junk vpn rw s).2 = tlb s /\
  processes (alloc_page junk vpn rw s).2 = processes s /\
  current (alloc_page junk vpn rw s).2 = current s /\
  ptbr (alloc_page junk vpn rw s).2 = ptbr s.
Proof.
  unfold alloc_page. destruct (find_free _ _) as [pfn|]; [|simpl; auto].
  destruct (locate_pd junk vpn (set_mapcounts _ s)) as [pd s1] eqn:E.
  pose proof (locate_pd_frame junk vpn (set_mapcounts (<[pfn := 1]> (mapcounts s)) s))
    as (H1 & H2 & H3 & H4 & _).
  rewrite E in H1, H2, H3, H4. simpl in *. auto.
Qed.

Lemma handle_page_fault_frame vpn rw s :
  tlb (handle_page_fault vpn rw s).2 = tlb s /\
  processes (handle_page_fault vpn rw s).2 = processes s /\
  current (handle_page_fault vpn rw s).2 = current s /\
  ptbr (handle_page_fault vpn rw s).2 = ptbr s.
Proof.
  unfold handle_page_fault.
  destruct (locate_pd zero_pd vpn s) as [pd s1] eqn:E.
  pose proof (locate_pd_frame zero_pd vpn s) as (H1 & H2 & H3 & H4 & _).
  rewrite E in H1, H2, H3, H4. simpl in H1, H2, H3, H4.
  pose proof (alloc_page_frame [] vpn rw s1) as (A1 & A2 & A3 & A4).
  pose proof (alloc_page_frame [] vpn 3 s1) as (B1 & B2 & B3 & B4).
  destruct (read_pte s1 pd (page_entry_idx vpn)) as [p|]; [|simpl; auto].
  destruct (negb (pte_valid p)).
  - destruct (alloc_page [] vpn rw s1) as [r s2]. simpl in A1, A2, A3, A4.
    destruct (r =? UINT_MINUS_1); simpl; rewrite A1, A2, A3, A4; auto.
  - destruct (negb (pte_rw p =? rw) && nonzero (Z.land rw ACCESS_WRITE)); [|simpl; auto].
    destruct (nonzero (Z.land (pte_rw p) ACCESS_READ)
              && nonzero (Z.land (pte_private p) ACCESS_WRITE)); [|simpl; auto].
    destruct (1 <? mapcount s1 (pte_pfn p)); [|simpl; auto].
    destruct (alloc_page [] vpn 3 s1) as [r s2]. simpl in B1, B2, B3, B4.
    simpl. rewrite B1, B2, B3, B4. auto.
Qed.

Lemma free_page_tlb vpn s :
  tlb (free_page vpn s) = tlb s \/
  exists f, tlb (free_page vpn s) = tlb_invalidate_pfn f (tlb s).
Proof.
  unfold free_page. destruct (proc_pde _ _ _) as [pd|]; [|auto].
  destruct (read_pte _ _ _) as [p|]; [|auto].
  destruct (pte_valid p); [|auto]. right. exists (pte_pfn p). reflexivity.
Qed.

(** ** What [lookup_tlb] returns *)

(** X23: [lookup_tlb] hits exactly when some entry of the TLB, valid
    or not, holds [vpn] with an access bit in common with the access,
    and it returns the frame of the first such entry. *)
Theorem lookup_tlb_first_overlap vpn rw s pfn :
  lookup_tlb vpn rw s = Some pfn <->
  exists i e,
    tlb s !! i = Some e /\ tlb_vpn e = vpn /\ Z.land (tlb_rw e) rw <> 0 /\
    tlb_pfn e = pfn /\
    forall j e', (j < i)%nat -> tlb s !! j = Some e' ->
                 ~ (tlb_vpn e' = vpn /\ Z.land (tlb_rw e') rw <> 0).
Proof.
  apply lookup_tlb_from_Some.
Qed.

(** [insert_tlb] writes the TLB only. *)
Lemma insert_tlb_wf vpn rw pfn s : wf_state s -> wf_state (insert_tlb vpn rw pfn s).
Proof.
  intros H. destruct H. constructor; assumption.
Qed.

(** ** [insert_tlb] followed by [lookup_tlb] *)

(** X1: when the TLB has an invalid slot or an entry for [vpn], the
    translation that [insert_tlb] stores is the one a following
    [lookup_tlb] of [vpn] returns, for every access that shares a bit
    with the stored one. *)
Theorem insert_tlb_lookup_tlb s vpn rw pfn rw' :
  (exists e, e ∈ tlb s /\ (tlb_valid e = false \/ tlb_vpn e = vpn)) ->
  Z.land rw rw' <> 0 ->
  lookup_tlb vpn rw' (insert_tlb vpn rw pfn s) = Some pfn.
Proof.
  intros Hslot Hrw. unfold lookup_tlb, insert_tlb. simpl.
  assert (Hnz : nonzero (Z.land rw rw') = true).
  { unfold nonzero. destruct (Z.eqb_spec (Z.land rw rw') 0); [tauto | reflexivity]. }
  induction (tlb s) as [|a t IH]; simpl.
  - destruct Hslot as (e & He & _). inversion He.
  - destruct (tlb_valid a) eqn:Ha; simpl.
    + destruct (Z.eqb_spec (tlb_vpn a) vpn) as [Hv|Hv]; simpl.
      * rewrite Hv, Z.eqb_refl, Hnz. reflexivity.
      * destruct (Z.eqb_spec (tlb_vpn a) vpn); [tauto|]. simpl.
        apply IH. destruct Hslot as (e & He & Hor).
        apply elem_of_cons in He as [->|He]; [|eauto].
        destruct Hor; congruence.
    + rewrite Z.eqb_refl, Hnz. reflexivity.
Qed.

(** X2: when every slot of the TLB is valid and none holds [vpn],
    [insert_tlb] drops the translation: the state is unchanged and a
    following [lookup_tlb] of [vpn] misses. *)
Theorem insert_tlb_full_drops s vpn rw pfn rw' :
  Forall (fun a => tlb_valid a = true /\ tlb_vpn a <> vpn) (tlb s) ->
  insert_tlb vpn rw pfn s = s /\
  lookup_tlb vpn rw' (insert_tlb vpn rw pfn s) = None.
Proof.
  intros H. unfold insert_tlb, lookup_tlb.
  rewrite (insert_tlb_from_full _ vpn rw pfn H). split.
  - destruct s; reflexivity.
  - simpl. induction H as [|a t [_ Ha] _ IH]; simpl; [reflexivity|].
    destruct (Z.eqb_spec (tlb_vpn a) vpn); [tauto|]. exact IH.
Qed.

(** ** Hits come from valid entries *)

Lemma insert_tlb_from_ok t vpn rw pfn :
  tlb_ok t -> tlb_ok (insert_tlb_from t vpn rw pfn).
Proof.
  unfold tlb_ok. intros H. induction H as [|a t Ha H IH]; simpl; [constructor|].
  destruct (tlb_valid a) eqn:E; simpl.
  - destruct (tlb_vpn a =? vpn).
    + constructor; [discriminate | assumption].
    + constructor; [rewrite E; discriminate | exact IH].
  - constructor; [discriminate | assumption].
Qed.

Lemma tlb_invalidate_pfn_ok f t : tlb_ok t -> tlb_ok (tlb_invalidate_pfn f t).
Proof.
  unfold tlb_ok, tlb_invalidate_pfn. intros H. apply Forall_fmap.
  eapply Forall_impl; [exact H|]. intros e He. simpl.
  destruct (tlb_valid e && (tlb_pfn e =? f)); [reflexivity | exact He].
Qed.

Lemma tlb_flush_ok t : tlb_ok t -> tlb_ok (tlb_flush t).
Proof.
  unfold tlb_ok. intros H. induction H as [|a t Ha H IH]; simpl; [constructor|].
  destruct (tlb_valid a) eqn:E; simpl; constructor; auto.
Qed.

Lemma exec_tlb_ok c s : tlb_ok (tlb s) -> tlb_ok (tlb (exec c s)).
Proof.
  intros H. destruct c as [vpn rw pfn|junk vpn rw|vpn|vpn rw|target]; simpl.
  - apply insert_tlb_from_ok, H.
  - destruct (alloc_page_frame junk vpn rw s) as [-> _]. exact H.
  - destruct (free_page_tlb vpn s) as [->|[f ->]];
      [exact H | apply tlb_invalidate_pfn_ok, H].
  - destruct (handle_page_fault_frame vpn rw s) as [-> _]. exact H.
  - rewrite switch_process_tlb. apply tlb_flush_ok, H.
Qed.

Lemma run_tlb_ok cs : forall s, tlb_ok (tlb s) -> tlb_ok (tlb (run cs s)).
Proof.
  unfold run. induction cs as [|c cs IH]; simpl; intros s H; [exact H|].
  apply IH, exec_tlb_ok, H.
Qed.

Lemma lookup_tlb_from_valid t vpn rw pfn :
  tlb_ok t -> lookup_tlb_from t vpn rw = Some pfn ->
  exists e, e ∈ t /\ tlb_valid e = true /\ tlb_vpn e = vpn /\
            tlb_pfn e = pfn /\ Z.land (tlb_rw e) rw <> 0.
Proof.
  intros Hok Hhit.
  apply lookup_tlb_from_Some in Hhit as (i & e & Hi & Hv & Hrw & Hp & _).
  exists e. split_and!; try assumption.
  - eapply list_elem_of_lookup_2, Hi.
  - unfold tlb_ok in Hok. rewrite Forall_forall in Hok.
    destruct (tlb_valid e) eqn:E; [reflexivity|].
    exfalso. apply Hrw. rewrite (Hok e); [reflexivity | | exact E].
    eapply list_elem_of_lookup_2, Hi.
Qed.

(** X3: [lookup_tlb] does not test [valid], yet a hit is always served
    by a valid entry: started with a TLB whose invalid entries have no
    access bit (such as the all-zero TLB), every sequence of calls leads
    to a TLB in which [lookup_tlb] can only return the frame of a valid
    entry for the page, cached with a bit of the access. *)
Theorem lookup_tlb_hit_is_valid cs s vpn rw pfn :
  tlb_ok (tlb s) ->
  lookup_tlb vpn rw (run cs s) = Some pfn ->
  exists e, e ∈ tlb (run cs s) /\ tlb_valid e = true /\ tlb_vpn e = vpn /\
            tlb_pfn e = pfn /\ Z.land (tlb_rw e) rw <> 0.
Proof.
  intros Hok Hhit. apply (lookup_tlb_from_valid _ _ _ _ (run_tlb_ok cs s Hok) Hhit).
Qed.

(** ** The flush at a process switch *)

Lemma tlb_packed_invalid t :
  Forall (fun e => tlb_valid e = false) t -> tlb_packed t.
Proof.
  intros H. destruct H as [|a t Ha H]; simpl; [exact I|]. rewrite Ha. exact H.
Qed.

Lemma insert_tlb_from_packed t vpn rw pfn :
  tlb_packed t -> tlb_packed (insert_tlb_from t vpn rw pfn).
Proof.
  induction t as [|a t IH]; simpl; [auto|].
  destruct (tlb_valid a) eqn:E; simpl.
  - intros H. destruct (tlb_vpn a =? vpn); simpl; [exact H|].
    rewrite E. apply IH, H.
  - apply tlb_packed_invalid.
Qed.

Lemma tlb_flush_packed t :
  tlb_packed t -> Forall (fun e => tlb_valid e = false) (tlb_flush t).
Proof.
  induction t as [|a t IH]; simpl; [constructor|].
  destruct (tlb_valid a) eqn:E; simpl; intros H.
  - constructor; [reflexivity | apply IH, H].
  - constructor; assumption.
Qed.

Lemma exec_tlb_packed c s :
  not_free_page c -> tlb_packed (tlb s) -> tlb_packed (tlb (exec c s)).
Proof.
  intros Hc H. destruct c as [vpn rw pfn|junk vpn rw|vpn|vpn rw|target]; simpl.
  - apply insert_tlb_from_packed, H.
  - destruct (alloc_page_frame junk vpn rw s) as [-> _]. exact H.
  - destruct Hc.
  - destruct (handle_page_fault_frame vpn rw s) as [-> _]. exact H.
  - rewrite switch_process_tlb. apply tlb_packed_invalid, tlb_flush_packed, H.
Qed.

Lemma run_tlb_packed cs : forall s,
  Forall not_free_page cs -> tlb_packed (tlb s) -> tlb_packed (tlb (run cs s)).
Proof.
  unfold run. induction cs as [|c cs IH]; simpl; intros s Hcs H; [exact H|].
  inversion Hcs as [|? ? Hc Hcs']; subst.
  apply IH; [exact Hcs' | apply exec_tlb_packed; assumption].
Qed.

(** X4: as long as [free_page] is not called, the valid entries of the
    TLB stay in front of the invalid ones, so the loop of
    [switch_process], which stops at the first invalid entry, clears the
    whole TLB: after the switch no entry is valid, and if the invalid
    entries had no access bit at the start, every [lookup_tlb] misses. *)
Theorem switch_process_flushes_without_free_page cs s target :
  tlb_packed (tlb s) -> Forall not_free_page cs ->
  Forall (fun e => tlb_valid e = false) (tlb (switch_process target (run cs s))) /\
  (tlb_ok (tlb s) ->
   forall vpn rw, lookup_tlb vpn rw (switch_process target (run cs s)) = None).
Proof.
  intros Hp Hcs.
  assert (Hinv : Forall (fun e => tlb_valid e = false)
                   (tlb (switch_process target (run cs s)))).
  { rewrite switch_process_tlb. apply tlb_flush_packed, run_tlb_packed; assumption. }
  split; [exact Hinv|]. intros Hok vpn rw.
  destruct (lookup_tlb vpn rw (switch_process target (run cs s))) as [pfn|] eqn:E;
    [|reflexivity].
  exfalso. apply lookup_tlb_from_valid in E as (e & He & Hv & _).
  - rewrite Forall_forall in Hinv. rewrite (Hinv e He) in Hv. discriminate.
  - rewrite switch_process_tlb. apply tlb_flush_ok, run_tlb_ok, Hok.
Qed.
(** * More on [free_page], [alloc_page] and [handle_page_fault] *)

(** ** [free_page] of a mapped page *)

(** X5: [free_page] of a page with a valid entry clears [valid], [rw]
    and [pfn] of the entry and keeps its [private]; the count of the
    frame goes down by one and no other count changes; every other
    entry of the current process and every entry of the other live
    processes, among them those that share the frame, is as before. *)
Theorem free_page_unmaps vpn s x :
  wf_state s -> in_range vpn ->
  pte_of s (current s) vpn = Some x -> pte_valid x = true ->
  pte_of (free_page vpn s) (current s) vpn =
    Some (mk_pte false 0 0 (pte_private x)) /\
  mapcount (free_page vpn s) (pte_pfn x) = wrap32 (mapcount s (pte_pfn x) - 1) /\
  (0 < mapcount s (pte_pfn x) ->
   mapcount (free_page vpn s) (pte_pfn x) = mapcount s (pte_pfn x) - 1) /\
  (forall f, 0 <= f -> f <> pte_pfn x ->
             mapcount (free_page vpn s) f = mapcount s f) /\
  (forall q v, q ∈ live s -> in_range v -> (q <> current s \/ v <> vpn) ->
               pte_of (free_page vpn s) q v = pte_of s q v).
Proof.
  intros H Hv Hx Hval.
  destruct (pte_of_lookup s vpn x H Hv Hx) as (pd & dir & Hpd & Hdir & Hwd & He).
  pose proof (lookup_lt_Some _ _ _ Hdir) as Hlt1.
  pose proof (lookup_lt_Some _ _ _ He) as Hlt2.
  pose proof (wf_pte_of_dir dir _ x Hwd He Hval) as Hpfn.
  rewrite (free_page_valid vpn s pd dir x Hpd Hdir He Hval).
  destruct (lookup_lt_is_Some_2 (mapcounts s) (Z.to_nat (pte_pfn x))) as [m Hm0].
  { rewrite (wf_mapcounts s H). lia. }
  pose proof (proj1 (Forall_lookup _ _) (wf_counts s H) _ _ Hm0) as Hrng.
  simpl in Hrng.
  assert (Hcnt : mc_get (alter (fun m => wrap32 (m - 1)) (Z.to_nat (pte_pfn x))
                           (mapcounts s)) (pte_pfn x) =
                 wrap32 (mapcount s (pte_pfn x) - 1)).
  { rewrite mc_get_alter, decide_True by (lia || reflexivity).
    unfold mapcount, mc_get. rewrite Hm0. reflexivity. }
  split_and!.
  - apply (pte_of_written s _ pd dir (page_entry_idx vpn) vpn); auto.
  - exact Hcnt.
  - intros Hpos. unfold mapcount at 1. cbn [mapcounts]. rewrite Hcnt.
    apply wrap32_small. unfold mapcount, mc_get in Hpos |- *.
    rewrite Hm0 in Hpos |- *. simpl in Hpos |- *. lia.
  - intros f Hf Hne. unfold mapcount. cbn [mapcounts].
    rewrite mc_get_alter, decide_False by (lia || congruence). reflexivity.
  - intros q v Hq Hv' Hne. apply pte_of_write_other; auto.
Qed.

Lemma tlb_invalidate_pfn_valid f t :
  Forall (fun e => tlb_valid e = true -> tlb_pfn e <> f) (tlb_invalidate_pfn f t).
Proof.
  unfold tlb_invalidate_pfn. apply Forall_fmap, Forall_forall. intros e _. simpl.
  destruct (tlb_valid e) eqn:Ev; simpl.
  - destruct (Z.eqb_spec (tlb_pfn e) f); simpl; [discriminate|].
    rewrite Ev. auto.
  - rewrite Ev. discriminate.
Qed.

Lemma tlb_invalidate_pfn_lookup f t i e :
  t !! i = Some e ->
  tlb_invalidate_pfn f t !! i =
  Some (if tlb_valid e && (tlb_pfn e =? f)
        then mk_tlb_entry false 0 (tlb_vpn e) 0 (tlb_private e) else e).
Proof.
  intros Hi. unfold tlb_invalidate_pfn. rewrite list_lookup_fmap, Hi. reflexivity.
Qed.

(** X6: [free_page] of a page with a valid entry leaves no valid TLB
    entry for the frame of the page, whatever page the entry caches, and
    keeps every TLB entry that is invalid or caches another frame; with
    invalid entries free of access bits, no [lookup_tlb] returns a
    valid translation to the frame any more. *)
Theorem free_page_tlb_coherent vpn s x :
  wf_state s -> in_range vpn ->
  pte_of s (current s) vpn = Some x -> pte_valid x = true ->
  Forall (fun e => tlb_valid e = true -> tlb_pfn e <> pte_pfn x)
         (tlb (free_page vpn s)) /\
  (forall i e, tlb s !! i = Some e ->
               tlb_valid e = false \/ tlb_pfn e <> pte_pfn x ->
               tlb (free_page vpn s) !! i = Some e) /\
  (tlb_ok (tlb s) ->
   forall v rw, lookup_tlb v rw (free_page vpn s) <> Some (pte_pfn x)).
Proof.
  intros H Hv Hx Hval.
  destruct (pte_of_lookup s vpn x H Hv Hx) as (pd & dir & Hpd & Hdir & Hwd & He).
  rewrite (free_page_valid vpn s pd dir x Hpd Hdir He Hval). cbn [tlb].
  split_and!.
  - apply tlb_invalidate_pfn_valid.
  - intros i e Hi Hor. rewrite (tlb_invalidate_pfn_lookup _ _ _ _ Hi).
    destruct Hor as [Hinv|Hne].
    + rewrite Hinv. reflexivity.
    + destruct (Z.eqb_spec (tlb_pfn e) (pte_pfn x)); [tauto|].
      rewrite andb_false_r. reflexivity.
  - intros Hok v rw Hhit. unfold lookup_tlb in Hhit. cbn [tlb] in Hhit.
    apply lookup_tlb_from_valid in Hhit as (e & He' & Hv' & _ & Hp & _);
      [|apply tlb_invalidate_pfn_ok, Hok].
    pose proof (tlb_invalidate_pfn_valid (pte_pfn x) (tlb s)) as Hall.
    rewrite Forall_forall in Hall. exact (Hall e He' Hv' Hp).
Qed.

(** ** Accesses the handler lets through *)

(** X7: on a page with a valid entry, [handle_page_fault] returns true
    and changes nothing when the access has no write bit or equals [rw]
    of the entry; the access bits of the entry are not consulted, so a
    read of a page mapped with [rw = 0] is let through as well. *)
Theorem handle_page_fault_valid_noop vpn rw s x :
  wf_state s -> in_range vpn ->
  pte_of s (current s) vpn = Some x -> pte_valid x = true ->
  Z.land rw ACCESS_WRITE = 0 \/ pte_rw x = rw ->
  handle_page_fault vpn rw s = (true, s).
Proof.
  intros H Hv Hx Hval Hor.
  destruct (pte_of_lookup s vpn x H Hv Hx) as (pd & dir & Hpd & Hdir & Hwd & He).
  rewrite (handle_page_fault_valid vpn rw s pd dir x Hpd Hdir He Hval).
  destruct Hor as [Hz|Heq].
  - unfold nonzero at 1. rewrite Hz. simpl. rewrite andb_false_r. reflexivity.
  - rewrite Heq, Z.eqb_refl. reflexivity.
Qed.

(** ** The state after [alloc_page] *)

(** The state [alloc_page] leaves when a frame is free: the entry of
    [vpn] is written in the page-table page [pd] of the store [mem],
    which is the page of the current process when it has one, and
    otherwise a new page with the content that [malloc] returned. *)
Lemma alloc_page_state junk vpn rw s pfn :
  wf_state s -> in_range vpn -> length junk = NR_PTES_PER_PAGE ->
  find_free (mapcounts s) 0 = Some pfn ->
  exists pd dir y s1,
    alloc_page junk vpn rw s =
      (Z.of_nat pfn,
       mk_state
         (<[pd := <[page_entry_idx vpn :=
                      mk_pte true rw (Z.of_nat pfn) (pte_private y)]> dir]> (pd_mem s1))
         (proc_mem s1) (processes s) (current s) (ptbr s) (tlb s)
         (<[pfn := 1]> (mapcounts s))) /\
    pd_mem s1 !! pd = Some dir /\ dir !! page_entry_idx vpn = Some y /\
    proc_pde s1 (current s) (page_dir_idx vpn) = Some pd /\
    current s1 = current s /\
    ((s1 = s /\ pte_of s (current s) vpn = Some y) \/
     (s1 = attach_pd junk (page_dir_idx vpn) s /\ pd = length (pd_mem s) /\
      dir = junk /\ proc_pde s (current s) (page_dir_idx vpn) = None)).
Proof.
  intros H Hv Hj Hf.
  destruct (wf_pte_lookup s (current s) vpn H (current_live s) Hv)
    as [[Habs Hnone]|(pd & dir & y & Hpd & Hdir & Hwd & Hy & Hsome)].
  - destruct (lookup_lt_is_Some_2 junk (page_entry_idx vpn)) as [y Hy].
    { rewrite Hj. apply page_entry_idx_lt, Hv. }
    exists (length (pd_mem s)), junk, y, (attach_pd junk (page_dir_idx vpn) s).
    split_and!.
    + exact (alloc_page_eq junk vpn rw s pfn (length (pd_mem s))
               (attach_pd junk (page_dir_idx vpn) s) junk y Hf
               (locate_pd_absent junk vpn s Habs)
               (attach_pd_mem_new junk _ s) Hy).
    + apply attach_pd_mem_new.
    + exact Hy.
    + exact (attach_pd_pde_eq junk _ s H (page_dir_idx_lt vpn Hv)).
    + reflexivity.
    + right. auto.
  - exists pd, dir, y, s. split_and!; auto.
    exact (alloc_page_eq junk vpn rw s pfn pd s dir y Hf
             (locate_pd_present junk vpn s pd Hpd) Hdir Hy).
Qed.

Lemma find_free_has_free s pfn :
  find_free (mapcounts s) 0 = Some pfn ->
  mapcounts s !! pfn = Some 0 /\ forall g, (g < pfn)%nat -> mapcounts s !! g <> Some 0.
Proof.
  intros Hf. apply find_free_Some in Hf as (_ & Hz & Hmin).
  rewrite Nat.sub_0_r in Hz, Hmin. auto.
Qed.

Lemma no_free_find s : ~ has_free s -> find_free (mapcounts s) 0 = None.
Proof.
  intros Hno. destruct (find_free (mapcounts s) 0) as [pfn|] eqn:Hf; [|reflexivity].
  exfalso. apply Hno. exists pfn. apply find_free_has_free, Hf.
Qed.

(** ** [alloc_page] followed by [free_page] *)

(** X8: [free_page] undoes [alloc_page]: after the two calls for the
    same page every map count is what it was and the entry of the page
    is cleared; when the entry was a cleared one before, the page tables
    are as before as well. *)
Theorem alloc_page_free_page junk vpn rw s :
  wf_state s -> in_range vpn -> length junk = NR_PTES_PER_PAGE ->
  has_free s ->
  mapcounts (free_page vpn (alloc_page junk vpn rw s).2) = mapcounts s /\
  (exists priv,
     pte_of (free_page vpn (alloc_page junk vpn rw s).2) (current s) vpn =
       Some (mk_pte false 0 0 priv)) /\
  (forall priv,
     pte_of s (current s) vpn = Some (mk_pte false 0 0 priv) ->
     pd_mem (free_page vpn (alloc_page junk vpn rw s).2) = pd_mem s /\
     proc_mem (free_page vpn (alloc_page junk vpn rw s).2) = proc_mem s).
Proof.
  intros H Hv Hj Hfree. destruct (has_free_find s Hfree) as [pfn Hf].
  destruct (find_free_has_free s pfn Hf) as [Hz _].
  destruct (alloc_page_state junk vpn rw s pfn H Hv Hj Hf)
    as (pd & dir & y & s1 & -> & Hdir & Hy & Hpd & Hcur & Hcase).
  pose proof (lookup_lt_Some _ _ _ Hdir) as Hlt1.
  pose proof (lookup_lt_Some _ _ _ Hy) as Hlt2.
  pose proof (lookup_lt_Some _ _ _ Hz) as Hlt3.
  cbn [snd].
  rewrite (free_page_valid vpn _ pd
             (<[page_entry_idx vpn := mk_pte true rw (Z.of_nat pfn) (pte_private y)]> dir)
             (mk_pte true rw (Z.of_nat pfn) (pte_private y)));
    [ | exact Hpd
      | cbn [pd_mem]; apply list_lookup_insert_eq, Hlt1
      | apply list_lookup_insert_eq, Hlt2
      | reflexivity ].
  cbn [pd_mem proc_mem mapcounts processes current ptbr tlb pte_pfn pte_private].
  rewrite list_insert_insert_eq, list_insert_insert_eq.
  split_and!.
  - rewrite Nat2Z.id.
    rewrite (alter_lookup_insert _ pfn _ 1) by (apply list_lookup_insert_eq, Hlt3).
    rewrite list_insert_insert_eq. apply list_insert_id. exact Hz.
  - exists (pte_private y). rewrite <- Hcur in Hpd |- *.
    apply (pte_of_written s1 _ pd dir (page_entry_idx vpn) vpn); auto.
  - intros priv Hx. destruct Hcase as [[-> Hsome]|(_ & _ & _ & Habs)].
    + rewrite Hsome in Hx. injection Hx as ->. simpl. split; [|reflexivity].
      rewrite (list_insert_id dir) by exact Hy. apply list_insert_id, Hdir.
    + unfold pte_of in Hx. rewrite Habs in Hx. discriminate.
Qed.

(** ** What [alloc_page] writes *)

Lemma attach_pd_proc_pde_ne content i s q j :
  q <> current s \/ j <> i ->
  proc_pde (attach_pd content i s) q j = proc_pde s q j.
Proof.
  intros Hor. unfold proc_pde, attach_pd. simpl.
  destruct (decide (q = current s)) as [->|Hq].
  - rewrite list_lookup_alter_eq.
    destruct (proc_mem s !! current s) as [pr|]; simpl; [|reflexivity].
    rewrite list_lookup_insert_ne by (destruct Hor; congruence). reflexivity.
  - rewrite list_lookup_alter_ne by congruence. reflexivity.
Qed.

Lemma wf_proc_pde_lt s q j d :
  wf_state s -> q ∈ live s -> proc_pde s q j = Some d -> (d < length (pd_mem s))%nat.
Proof.
  intros H Hq Hd. apply (wf_all_dirs_lt s d H).
  apply (all_dirs_elem s q d Hq). eapply proc_pde_in_dirs, Hd.
Qed.

(** X9: [alloc_page] writes one page-table entry.  The entries of the
    other live processes are as before, and so is every other entry of
    the current process whose page-table page was there; this holds
    whether or not a frame is free. *)
Theorem alloc_page_writes_one_entry junk vpn rw s q v :
  wf_state s -> in_range vpn -> length junk = NR_PTES_PER_PAGE ->
  q ∈ live s -> in_range v ->
  q <> current s \/
  (v <> vpn /\ (page_dir_idx v <> page_dir_idx vpn \/
                proc_pde s (current s) (page_dir_idx vpn) <> None)) ->
  pte_of (alloc_page junk vpn rw s).2 q v = pte_of s q v.
Proof.
  intros H Hv Hj Hq Hv' Hor.
  destruct (find_free (mapcounts s) 0) as [pfn|] eqn:Hf;
    [|rewrite (alloc_page_full junk vpn rw s Hf); reflexivity].
  destruct (alloc_page_state junk vpn rw s pfn H Hv Hj Hf)
    as (pd & dir & y & s1 & -> & Hdir & Hy & Hpd & Hcur & Hcase).
  cbn [snd]. destruct Hcase as [[-> Hsome]|(-> & -> & -> & Habs)].
  - apply pte_of_write_other; auto. destruct Hor as [Hor|[Hor _]]; auto.
  - assert (Hor' : q <> current s \/ page_dir_idx v <> page_dir_idx vpn).
    { destruct Hor as [Hor|[_ [Hor|Hor]]]; auto; contradiction. }
    unfold pte_of.
    change (proc_pde (mk_state _ (proc_mem (attach_pd junk (page_dir_idx vpn) s))
                        _ _ _ _ _) q)
      with (proc_pde (attach_pd junk (page_dir_idx vpn) s) q).
    rewrite (attach_pd_proc_pde_ne junk _ s q _ Hor').
    destruct (proc_pde s q (page_dir_idx v)) as [d|] eqn:Hd; [|reflexivity].
    pose proof (wf_proc_pde_lt s q _ d H Hq Hd) as Hlt.
    unfold read_pte. simpl.
    rewrite list_lookup_insert_ne by lia. rewrite lookup_app_l by lia. reflexivity.
Qed.

(** X10: [alloc_page] does not clear the page-table page it obtains
    from [malloc].  When the page-table page of [vpn] is absent and a
    frame is free, the other pages of that page-table page get as their
    entries whatever the new memory holds. *)
Theorem alloc_page_new_page_uninitialised junk vpn rw s v :
  wf_state s -> in_range vpn -> length junk = NR_PTES_PER_PAGE ->
  has_free s ->
  proc_pde s (current s) (page_dir_idx vpn) = None ->
  in_range v -> page_dir_idx v = page_dir_idx vpn -> v <> vpn ->
  pte_of s (current s) v = None /\
  pte_of (alloc_page junk vpn rw s).2 (current s) v = junk !! page_entry_idx v.
Proof.
  intros H Hv Hj Hfree Habs Hv' Hsame Hne.
  split; [unfold pte_of; rewrite Hsame, Habs; reflexivity|].
  destruct (has_free_find s Hfree) as [pfn Hf].
  destruct (alloc_page_state junk vpn rw s pfn H Hv Hj Hf)
    as (pd & dir & y & s1 & -> & Hdir & Hy & Hpd & Hcur & Hcase).
  cbn [snd]. destruct Hcase as [[-> Hsome]|(-> & -> & -> & _)].
  - unfold pte_of in Hsome. rewrite Habs in Hsome. discriminate.
  - unfold pte_of. rewrite Hsame.
    change (proc_pde (mk_state _ (proc_mem (attach_pd junk (page_dir_idx vpn) s))
                        _ _ _ _ _) (current s))
      with (proc_pde (attach_pd junk (page_dir_idx vpn) s) (current s)).
    rewrite Hpd. unfold read_pte. cbn [pd_mem attach_pd].
    rewrite list_lookup_insert_eq by (rewrite length_app; simpl; lia).
    apply list_lookup_insert_ne. intros E. apply Hne. symmetry.
    apply page_idx_inj; auto.
Qed.

(** ** [private] outlives the mapping *)

(** X11: neither [free_page] nor [alloc_page] resets [private].  When
    the entry of an unmapped page still carries the write bit in
    [private], a page that [alloc_page] maps read-only is made writable
    by the first write fault: the handler takes it for a page shared by
    a fork, finds the frame mapped once and upgrades [rw] in place. *)
Theorem alloc_page_read_only_made_writable junk vpn rw s x :
  wf_state s -> in_range vpn -> length junk = NR_PTES_PER_PAGE ->
  has_free s ->
  pte_of s (current s) vpn = Some x -> pte_valid x = false ->
  Z.land (pte_private x) ACCESS_WRITE <> 0 ->
  Z.land rw ACCESS_WRITE <> 0 ->
  exists pfn : nat,
    mapcounts s !! pfn = Some 0 /\
    pte_of (alloc_page junk vpn ACCESS_READ s).2 (current s) vpn =
      Some (mk_pte true ACCESS_READ (Z.of_nat pfn) (pte_private x)) /\
    (handle_page_fault vpn rw (alloc_page junk vpn ACCESS_READ s).2).1 = true /\
    pte_of (handle_page_fault vpn rw (alloc_page junk vpn ACCESS_READ s).2).2
           (current s) vpn =
      Some (mk_pte true (Z.lor ACCESS_READ ACCESS_WRITE) (Z.of_nat pfn) (pte_private x)).
Proof.
  intros H Hv Hj Hfree Hx Hinv Hp Ha.
  destruct (has_free_find s Hfree) as [pfn Hf].
  destruct (find_free_has_free s pfn Hf) as [Hz _].
  pose proof (lookup_lt_Some _ _ _ Hz) as Hlt3.
  destruct (alloc_page_state junk vpn ACCESS_READ s pfn H Hv Hj Hf)
    as (pd & dir & y & s1 & -> & Hdir & Hy & Hpd & Hcur & Hcase).
  destruct Hcase as [[-> Hsome]|(_ & _ & _ & Habs)];
    [|unfold pte_of in Hx; rewrite Habs in Hx; discriminate].
  rewrite Hx in Hsome. injection Hsome as <-.
  pose proof (lookup_lt_Some _ _ _ Hdir) as Hlt1.
  pose proof (lookup_lt_Some _ _ _ Hy) as Hlt2.
  cbn [snd]. exists pfn. split; [exact Hz|]. split.
  { apply (pte_of_written s _ pd dir (page_entry_idx vpn) vpn); auto. }
  rewrite (handle_page_fault_valid vpn rw _ pd
             (<[page_entry_idx vpn := mk_pte true ACCESS_READ (Z.of_nat pfn) (pte_private x)]> dir)
             (mk_pte true ACCESS_READ (Z.of_nat pfn) (pte_private x)));
    [ | exact Hpd
      | cbn [pd_mem]; apply list_lookup_insert_eq, Hlt1
      | apply list_lookup_insert_eq, Hlt2
      | reflexivity ].
  cbn [pte_rw pte_pfn pte_private pd_mem proc_mem processes current ptbr tlb mapcounts].
  assert (C1 : negb (ACCESS_READ =? rw) && nonzero (Z.land rw ACCESS_WRITE) = true).
  { apply andb_true_iff. split; [|apply nonzero_true, Ha].
    apply negb_true_iff, Z.eqb_neq. intros E. apply Ha. rewrite <- E. reflexivity. }
  assert (C2 : nonzero (Z.land ACCESS_READ ACCESS_READ)
               && nonzero (Z.land (pte_private x) ACCESS_WRITE) = true).
  { apply andb_true_iff. split; [reflexivity | apply nonzero_true, Hp]. }
  assert (C3 : (1 <? mapcount
                  (mk_state
                     (<[pd := <[page_entry_idx vpn :=
                                  mk_pte true ACCESS_READ (Z.of_nat pfn) (pte_private x)]> dir]>
                        (pd_mem s))
                     (proc_mem s) (processes s) (current s) (ptbr s) (tlb s)
                     (<[pfn := 1]> (mapcounts s))) (Z.of_nat pfn)) = false).
  { unfold mapcount. cbn [mapcounts]. rewrite mc_get_insert by lia.
    rewrite decide_True by reflexivity. reflexivity. }
  rewrite C1, C2, C3. cbn [fst snd]. split; [reflexivity|].
  rewrite list_insert_insert_eq, list_insert_insert_eq.
  apply (pte_of_written s _ pd dir (page_entry_idx vpn) vpn); auto.
Qed.

(** ** The first touch of a page *)

(** The state in which the handler finds an unmapped page, after it has
    made sure that the page-table page exists. *)
Lemma first_touch_located vpn s :
  wf_state s -> in_range vpn ->
  (pte_of s (current s) vpn = None \/
   exists x, pte_of s (current s) vpn = Some x /\ pte_valid x = false) ->
  exists pd s1 dir x,
    locate_pd zero_pd vpn s = (pd, s1) /\ wf_state s1 /\
    mapcounts s1 = mapcounts s /\ current s1 = current s /\
    proc_pde s1 (current s1) (page_dir_idx vpn) = Some pd /\
    pd_mem s1 !! pd = Some dir /\ dir !! page_entry_idx vpn = Some x /\
    pte_valid x = false /\
    match proc_pde s (current s) (page_dir_idx vpn) with
    | Some _ => s1 = s
    | None =>
        s1 = attach_pd zero_pd (page_dir_idx vpn) s /\ pd = length (pd_mem s) /\
        dir = zero_pd /\ x = mk_pte false 0 0 0
    end.
Proof.
  intros H Hv Hun.
  destruct (locate_pd_inv zero_pd vpn s H Hv zero_pd_wf)
    as (pd & s1 & dir & x & Hloc & Hwf1 & Hmc & _ & Hcur & _ & _ & Hpd1 & Hdir1 &
        Hx1 & Hmatch).
  exists pd, s1, dir, x. rewrite Hcur.
  destruct (pte_of s (current s) vpn) as [y|] eqn:Hy.
  - destruct Hmatch as [-> ->].
    destruct Hun as [?|(x' & [= <-] & Hinv)]; [discriminate|].
    split_and!; auto. rewrite Hpd1. reflexivity.
  - destruct Hmatch as (-> & -> & ->).
    pose proof (zero_pd_lookup _ _ Hx1) as ->.
    destruct (wf_pte_lookup s (current s) vpn H (current_live s) Hv)
      as [[Habs _]|(? & ? & ? & _ & _ & _ & _ & Hsome)]; [|congruence].
    rewrite Habs. split_and!; auto.
Qed.

(** X12: the first touch of a page, while a frame is free, succeeds.
    The handler maps the page on the free frame with the smallest
    number, with [rw] the access of the fault, and sets the count of
    the frame to 1.  When the page-table page was absent the handler
    creates it zeroed, so the neighbouring pages have cleared entries.
    The same fault again is let through without any change. *)
Theorem handle_page_fault_first_touch_maps vpn rw s :
  wf_state s -> in_range vpn -> Z.of_nat NR_PAGEFRAMES < UINT_MINUS_1 ->
  has_free s ->
  (pte_of s (current s) vpn = None \/
   exists x, pte_of s (current s) vpn = Some x /\ pte_valid x = false) ->
  exists (pfn : nat) (priv : Z),
    mapcounts s !! pfn = Some 0 /\
    (forall g, (g < pfn)%nat -> mapcounts s !! g <> Some 0) /\
    (handle_page_fault vpn rw s).1 = true /\
    pte_of (handle_page_fault vpn rw s).2 (current s) vpn =
      Some (mk_pte true rw (Z.of_nat pfn) priv) /\
    mapcounts (handle_page_fault vpn rw s).2 = <[pfn := 1]> (mapcounts s) /\
    (pte_of s (current s) vpn = None ->
     forall v, in_range v -> page_dir_idx v = page_dir_idx vpn -> v <> vpn ->
               pte_of (handle_page_fault vpn rw s).2 (current s) v =
                 Some (mk_pte false 0 0 0)) /\
    handle_page_fault vpn rw (handle_page_fault vpn rw s).2 =
      (true, (handle_page_fault vpn rw s).2).
Proof.
  intros H Hv Hbig Hfree Hun.
  destruct (first_touch_located vpn s H Hv Hun)
    as (pd & s1 & dir & x & Hloc & Hwf1 & Hmc & Hcur & Hpd1 & Hdir1 & Hx1 & Hinv & Hmatch).
  destruct (has_free_find s Hfree) as [pfn Hf].
  destruct (find_free_has_free s pfn Hf) as [Hz Hmin].
  pose proof (lookup_lt_Some _ _ _ Hz) as Hlt3.
  pose proof (lookup_lt_Some _ _ _ Hdir1) as Hlt1.
  pose proof (lookup_lt_Some _ _ _ Hx1) as Hlt2.
  assert (Hrd : read_pte s1 pd (page_entry_idx vpn) = Some x).
  { unfold read_pte. rewrite Hdir1. exact Hx1. }
  rewrite (handle_page_fault_first_touch vpn rw s pd s1 x Hloc Hrd Hinv).
  assert (Hf1 : find_free (mapcounts s1) 0 = Some pfn) by (rewrite Hmc; exact Hf).
  rewrite (alloc_page_eq [] vpn rw s1 pfn pd s1 dir x Hf1
             (locate_pd_present [] vpn s1 pd Hpd1) Hdir1 Hx1).
  cbn [fst snd]. rewrite Hmc. exists pfn, (pte_private x).
  split_and!; try assumption; try reflexivity.
  - apply negb_true_iff, Z.eqb_neq. rewrite (wf_mapcounts s H) in Hlt3.
    unfold UINT_MINUS_1 in *. lia.
  - rewrite <- Hcur. apply (pte_of_written s1 _ pd dir (page_entry_idx vpn) vpn); auto.
  - intros Hnone v Hv' Hsame Hne. rewrite <- Hcur.
    rewrite (pte_of_write_other s1 pd dir vpn _ _ _ _ _ _ (current s1) v);
      auto using current_live.
    destruct (proc_pde s (current s) (page_dir_idx vpn)) eqn:Hp.
    { unfold pte_of in Hnone. rewrite Hp in Hnone.
      destruct (wf_pte_lookup s (current s) vpn H (current_live s) Hv)
        as [[Habs _]|(? & ? & ? & _ & _ & _ & _ & Hsome)]; congruence. }
    destruct Hmatch as (_ & _ & -> & _).
    unfold pte_of. rewrite Hsame, Hpd1. unfold read_pte. rewrite Hdir1.
    apply lookup_replicate_2. apply page_entry_idx_lt, Hv'.
  - rewrite (handle_page_fault_valid vpn rw _ pd
               (<[page_entry_idx vpn := mk_pte true rw (Z.of_nat pfn) (pte_private x)]> dir)
               (mk_pte true rw (Z.of_nat pfn) (pte_private x)));
      [ | exact Hpd1
        | cbn [pd_mem]; apply list_lookup_insert_eq, Hlt1
        | apply list_lookup_insert_eq, Hlt2
        | reflexivity ].
    cbn [pte_rw]. rewrite Z.eqb_refl. reflexivity.
Qed.

(** X13: the first touch of a page when no frame is free fails, and
    no count changes; but the handler has by then made sure that the
    page-table page exists, so when it was absent a new zeroed page
    stays attached to the page directory of the current process. *)
Theorem handle_page_fault_first_touch_out_of_memory vpn rw s :
  wf_state s -> in_range vpn -> ~ has_free s ->
  (pte_of s (current s) vpn = None \/
   exists x, pte_of s (current s) vpn = Some x /\ pte_valid x = false) ->
  (handle_page_fault vpn rw s).1 = false /\
  mapcounts (handle_page_fault vpn rw s).2 = mapcounts s /\
  match proc_pde s (current s) (page_dir_idx vpn) with
  | Some _ => (handle_page_fault vpn rw s).2 = s
  | None =>
      pd_mem (handle_page_fault vpn rw s).2 = pd_mem s ++ [zero_pd] /\
      proc_pde (handle_page_fault vpn rw s).2 (current s) (page_dir_idx vpn) =
        Some (length (pd_mem s)) /\
      pte_of (handle_page_fault vpn rw s).2 (current s) vpn = Some (mk_pte false 0 0 0)
  end.
Proof.
  intros H Hv Hno Hun.
  destruct (first_touch_located vpn s H Hv Hun)
    as (pd & s1 & dir & x & Hloc & Hwf1 & Hmc & Hcur & Hpd1 & Hdir1 & Hx1 & Hinv & Hmatch).
  assert (Hrd : read_pte s1 pd (page_entry_idx vpn) = Some x).
  { unfold read_pte. rewrite Hdir1. exact Hx1. }
  rewrite (handle_page_fault_first_touch vpn rw s pd s1 x Hloc Hrd Hinv).
  assert (Hf1 : find_free (mapcounts s1) 0 = None).
  { rewrite Hmc. apply no_free_find, Hno. }
  rewrite (alloc_page_full [] vpn rw s1 Hf1). cbn [fst snd].
  split; [reflexivity|]. split; [exact Hmc|].
  destruct (proc_pde s (current s) (page_dir_idx vpn)) eqn:Hp; [exact Hmatch|].
  destruct Hmatch as (-> & -> & -> & ->). split_and!.
  - reflexivity.
  - exact Hpd1.
  - unfold pte_of. change (current s) with (current (attach_pd zero_pd (page_dir_idx vpn) s)).
    rewrite Hpd1. exact Hrd.
Qed.
(** * More on [switch_process] and on the runs *)

(** ** The live processes across a switch *)

(** X15: [switch_process] neither loses nor repeats a process.  When
    the target is found in the ready queue the live processes are the
    same as before, and otherwise they are the former ones and the new
    process; the process objects that existed are unchanged. *)
Theorem switch_process_live target s :
  match find_process (proc_mem s) (processes s) target 0 with
  | Some _ => live (switch_process target s) ≡ₚ live s
  | None => live (switch_process target s) ≡ₚ length (proc_mem s) :: live s
  end /\
  forall p pr, proc_mem s !! p = Some pr ->
               proc_mem (switch_process target s) !! p = Some pr.
Proof.
  destruct (find_process (proc_mem s) (processes s) target 0) as [[i next]|] eqn:Hf.
  - rewrite (switch_process_resume target s i next Hf). unfold live. simpl.
    split; [|auto].
    apply find_process_Some in Hf as (_ & Hi & _). rewrite Nat.sub_0_r in Hi.
    rewrite (delete_Permutation (processes s) i next Hi) at 2.
    rewrite <- Permutation_cons_append. apply perm_swap.
  - destruct (fork_pdes (cur_pdes s) (pd_mem s) (mapcounts s)) as [[ns mem] mc] eqn:Hfork.
    rewrite (switch_process_fork target s ns mem mc Hf Hfork). unfold live. simpl.
    split.
    + constructor. rewrite <- Permutation_cons_append. reflexivity.
    + intros p pr Hp. apply lookup_app_l_Some, Hp.
Qed.

(** ** Switching away and back *)

Lemma find_process_tail mem q a pra target : forall k,
  (forall p pr, p ∈ q -> mem !! p = Some pr -> pid pr <> target) ->
  mem !! a = Some pra -> pid pra = target ->
  find_process mem (q ++ [a]) target k = Some ((k + length q)%nat, a).
Proof.
  induction q as [|p q IH]; simpl; intros k Hq Ha Hpid.
  - rewrite Ha, Hpid, Z.eqb_refl, Nat.add_0_r. reflexivity.
  - rewrite IH; auto.
    + replace (S k + length q)%nat with (k + S (length q))%nat by lia.
      destruct (mem !! p) as [pr|] eqn:Hp; [|reflexivity].
      destruct (Z.eqb_spec (pid pr) target) as [E|_]; [|reflexivity].
      exfalso. apply (Hq p pr); [left | exact Hp | exact E].
    + intros p' pr' Hin. apply Hq. right. exact Hin.
Qed.

(** X16: switching to a process of the ready queue and back again
    restores the running process and [ptbr], and leaves the page tables
    and the map counts as they were; in the ready queue the process
    that ran in between has moved to the tail.  The pid of the process
    that was running must not be the pid of another process of the
    queue, or the way back finds that process first. *)
Theorem switch_process_there_and_back target s i next pr :
  find_process (proc_mem s) (processes s) target 0 = Some (i, next) ->
  proc_mem s !! current s = Some pr ->
  (forall p pr', p ∈ delete i (processes s) -> proc_mem s !! p = Some pr' ->
                 pid pr' <> pid pr) ->
  current (switch_process target s) = next /\
  current (switch_process (pid pr) (switch_process target s)) = current s /\
  ptbr (switch_process (pid pr) (switch_process target s)) = current s /\
  processes (switch_process (pid pr) (switch_process target s)) =
    delete i (processes s) ++ [next] /\
  pd_mem (switch_process (pid pr) (switch_process target s)) = pd_mem s /\
  proc_mem (switch_process (pid pr) (switch_process target s)) = proc_mem s /\
  mapcounts (switch_process (pid pr) (switch_process target s)) = mapcounts s.
Proof.
  intros Hf Hpr Hq.
  rewrite (switch_process_resume target s i next Hf).
  rewrite (switch_process_resume (pid pr) _ (length (delete i (processes s))) (current s)).
  - cbn [pd_mem proc_mem processes current ptbr mapcounts].
    split_and!; try reflexivity.
    f_equal. rewrite delete_middle. apply app_nil_r.
  - cbn [proc_mem processes].
    apply (find_process_tail (proc_mem s) (delete i (processes s)) (current s) pr
             (pid pr) 0%nat Hq Hpr eq_refl).
Qed.

(** ** Distinct pids *)

Lemma omap_ext_in {A B} (f g : A -> option B) (l : list A) :
  (forall x, x ∈ l -> f x = g x) -> omap f l = omap g l.
Proof.
  induction l as [|a l IH]; intros Hfg; [reflexivity|].
  change (omap f (a :: l)) with (from_option (.:: omap f l) (omap f l) (f a)).
  change (omap g (a :: l)) with (from_option (.:: omap g l) (omap g l) (g a)).
  rewrite (Hfg a) by left. rewrite IH; [reflexivity|].
  intros x Hx. apply Hfg. right. exact Hx.
Qed.

(** X17: as long as the target of [switch_process] is not the pid of
    the running process, the live processes keep distinct pids. *)
Theorem switch_process_distinct_pids target s :
  wf_state s -> NoDup (live_pids s) ->
  (forall pr, proc_mem s !! current s = Some pr -> pid pr <> target) ->
  NoDup (live_pids (switch_process target s)).
Proof.
  intros H Hnd Hcur.
  destruct (find_process (proc_mem s) (processes s) target 0) as [[i next]|] eqn:Hf.
  - pose proof (switch_process_resume target s i next Hf) as E.
    assert (Hperm : live (switch_process target s) ≡ₚ live s).
    { rewrite E. unfold live. simpl.
      apply find_process_Some in Hf as (_ & Hi & _). rewrite Nat.sub_0_r in Hi.
      rewrite (delete_Permutation (processes s) i next Hi) at 2.
      rewrite <- Permutation_cons_append. apply perm_swap. }
    unfold live_pids. rewrite Hperm. rewrite E. exact Hnd.
  - destruct (fork_pdes (cur_pdes s) (pd_mem s) (mapcounts s)) as [[ns mem] mc] eqn:Hfork.
    rewrite (switch_process_fork target s ns mem mc Hf Hfork).
    unfold live_pids, live. cbn [proc_mem processes current].
    cbn [omap list_omap]. rewrite lookup_app_r by lia.
    rewrite Nat.sub_diag. cbn [lookup list_lookup fmap option_fmap option_map].
    rewrite (omap_ext_in _ (fun p => pid <$> proc_mem s !! p)).
    + apply NoDup_cons. split.
      * intros Hin. apply list_elem_of_omap in Hin as (p & Hp & Hpid).
        destruct (proc_mem s !! p) as [pr|] eqn:Hpr; [|discriminate].
        injection Hpid as Hpid.
        apply elem_of_app in Hp as [Hp|Hp].
        -- apply (proj1 (find_process_None _ _ _ _) Hf p pr Hp Hpr Hpid).
        -- apply list_elem_of_singleton in Hp as ->. apply (Hcur pr Hpr Hpid).
      * unfold live_pids, live in Hnd.
        rewrite <- Permutation_cons_append. exact Hnd.
    + intros p Hp. rewrite lookup_app_l; [reflexivity|].
      apply (wf_live_lt s p H). unfold live.
      apply elem_of_app in Hp as [Hp|Hp]; [right; exact Hp|].
      apply list_elem_of_singleton in Hp as ->. left.
Qed.

(** ** Invariants of the runs *)

(** X18: in every state reached from the initial state by calls for
    in-range pages without allocation failure, [alloc_page] being called
    on unmapped pages only, no page-table page is shared: two slots of
    the page directories of the live processes never hold the same
    pointer.  Every valid entry of a live process holds the number of a
    frame, so the accesses [mapcounts[pte->pfn]] are within the array,
    which keeps its size. *)
Theorem reachable_page_tables pid0 s :
  reachable unmapped pid0 s ->
  (forall p q i j d, p ∈ live s -> q ∈ live s ->
     proc_pde s p i = Some d -> proc_pde s q j = Some d -> p = q /\ i = j) /\
  (forall p v x, p ∈ live s -> in_range v ->
     pte_of s p v = Some x -> pte_valid x = true ->
     0 <= pte_pfn x < Z.of_nat NR_PAGEFRAMES) /\
  length (mapcounts s) = NR_PAGEFRAMES.
Proof.
  intros Hr. destruct (reachable_inv pid0 s Hr) as [H _]. split_and!.
  - intros p q i j d Hp Hq Hi Hj. exact (wf_pde_inj s p q i j d H Hp Hq Hi Hj).
  - intros p v x Hp Hv Hx Hval.
    destruct (wf_pte_lookup s p v H Hp Hv)
      as [[_ Hnone]|(pd & dir & y & _ & _ & Hwd & Hy & Hsome)]; [congruence|].
    rewrite Hx in Hsome. injection Hsome as <-.
    exact (wf_pte_of_dir dir _ x Hwd Hy Hval).
  - exact (wf_mapcounts s H).
Qed.

Lemma dir_refs_lookup f dir e x :
  dir !! e = Some x -> maps_frame f x = true -> (1 <= dir_refs f dir)%nat.
Proof.
  revert e. induction dir as [|a dir IH]; intros [|e] He Hm; simpl in *;
    try discriminate.
  - injection He as ->. rewrite Hm. simpl. lia.
  - specialize (IH e He Hm). lia.
Qed.

(** X19: in such a state a frame whose count is 0 is in no valid
    entry of any live process, provided the number of entries that map
    the frame is within 32 bits: [alloc_page], which takes a frame of
    count 0, never hands out a frame that is still mapped. *)
Theorem reachable_free_frame_unmapped pid0 s f p v x :
  reachable unmapped pid0 s ->
  0 <= f < Z.of_nat NR_PAGEFRAMES -> mapcount s f = 0 ->
  Z.of_nat (refs s f) < 4294967296 ->
  p ∈ live s -> in_range v -> pte_of s p v = Some x -> pte_valid x = true ->
  pte_pfn x <> f.
Proof.
  intros Hr Hf Hzero Hsmall Hp Hv Hx Hval Hpfn.
  destruct (reachable_inv pid0 s Hr) as [H Hc].
  rewrite (refs_total s f (wf_owned s H)) in Hsmall.
  specialize (Hc f Hf). rewrite Hzero in Hc.
  rewrite wrap32_small in Hc by lia.
  destruct (wf_pte_lookup s p v H Hp Hv)
    as [[_ Hnone]|(pd & dir & y & _ & Hdir & _ & Hy & Hsome)]; [congruence|].
  rewrite Hx in Hsome. injection Hsome as <-.
  assert (Hm : maps_frame f x = true).
  { unfold maps_frame. rewrite Hval, Hpfn, Z.eqb_refl. reflexivity. }
  pose proof (dir_refs_lookup f dir _ x Hy Hm) as H1.
  pose proof (sum_list_with_in dir (dir_refs f) (pd_mem s)
                (list_elem_of_lookup_2 _ _ _ Hdir)) as H2.
  unfold total_refs in Hc. lia.
Qed.

(** ** What the page-table operations leave to their caller *)

(** X20: [alloc_page] and [handle_page_fault] never touch the TLB, the
    ready queue, [current] or [ptbr], whatever they do to the page
    tables: a translation cached before the handler copies a shared
    page is still served afterwards. *)
Theorem page_fault_leaves_tlb vpn rw s :
  (forall junk,
     tlb (alloc_page junk vpn rw s).2 = tlb s /\
     processes (alloc_page junk vpn rw s).2 = processes s /\
     current (alloc_page junk vpn rw s).2 = current s /\
     ptbr (alloc_page junk vpn rw s).2 = ptbr s) /\
  tlb (handle_page_fault vpn rw s).2 = tlb s /\
  processes (handle_page_fault vpn rw s).2 = processes s /\
  current (handle_page_fault vpn rw s).2 = current s /\
  ptbr (handle_page_fault vpn rw s).2 = ptbr s /\
  forall v a, lookup_tlb v a (handle_page_fault vpn rw s).2 = lookup_tlb v a s.
Proof.
  destruct (handle_page_fault_frame vpn rw s) as (H1 & H2 & H3 & H4).
  split_and!; try assumption.
  - intros junk. apply alloc_page_frame.
  - intros v a. unfold lookup_tlb. rewrite H1. reflexivity.
Qed.

(** ** The page tables after a fork *)

(** X22: the fork copies the whole page table of the parent, not only
    its valid entries.  A page whose page-table page the parent lacks is
    absent in the child as well; an invalid entry of the parent is
    copied as it is, [private] included, and the parent keeps it; and
    the page tables of the processes of the ready queue are not
    touched. *)
Theorem fork_copies_page_table target s v :
  wf_state s ->
  (forall p pr, p ∈ processes s -> proc_mem s !! p = Some pr -> pid pr <> target) ->
  in_range v ->
  (pte_of s (current s) v = None ->
   pte_of (switch_process target s) (length (proc_mem s)) v = None /\
   pte_of (switch_process target s) (current s) v = None) /\
  (forall x, pte_of s (current s) v = Some x -> pte_valid x = false ->
   pte_of (switch_process target s) (length (proc_mem s)) v = Some x /\
   pte_of (switch_process target s) (current s) v = Some x) /\
  (forall q, q ∈ processes s ->
   pte_of (switch_process target s) q v = pte_of s q v).
Proof.
  intros H Hpid Hv.
  assert (E : find_process (proc_mem s) (processes s) target 0 = None)
    by (apply find_process_None; exact Hpid).
  destruct (fork_pdes (cur_pdes s) (pd_mem s) (mapcounts s)) as [[ns mem] mc] eqn:F.
  rewrite (switch_process_fork target s ns mem mc E F).
  destruct (wf_current s H) as (pr & Hpr & Hlen).
  assert (Hdlt : forall d, d ∈ dirs_of (cur_pdes s) -> (d < length (pd_mem s))%nat).
  { intros d Hd. rewrite cur_pdes_dirs in Hd. apply wf_all_dirs_lt; [exact H|].
    eapply all_dirs_elem; [apply current_live | exact Hd]. }
  assert (Hndc : NoDup (dirs_of (cur_pdes s))).
  { rewrite cur_pdes_dirs.
    exact (NoDup_bind_elem _ _ _ (wf_all_dirs_NoDup s H) (current_live s)). }
  destruct (fork_pdes_tables _ _ _ _ _ _ F Hndc Hdlt) as (T0 & T1 & T2 & T3).
  assert (Hold : forall q j, q ∈ live s ->
            proc_pde (mk_state mem (proc_mem s ++ [mk_process target (mk_pagetable ns)])
                        (processes s ++ [current s]) (length (proc_mem s))
                        (length (proc_mem s)) (tlb_flush (tlb s)) mc) q j
            = proc_pde s q j).
  { intros q j Hq. unfold proc_pde. cbn [proc_mem].
    rewrite lookup_app_l by (apply wf_live_lt; assumption). reflexivity. }
  assert (Hnew : forall j,
            proc_pde (mk_state mem (proc_mem s ++ [mk_process target (mk_pagetable ns)])
                        (processes s ++ [current s]) (length (proc_mem s))
                        (length (proc_mem s)) (tlb_flush (tlb s)) mc)
                     (length (proc_mem s)) j
            = match ns !! j with Some d => d | None => None end).
  { intros j. unfold proc_pde. cbn [proc_mem].
    rewrite lookup_app_r, Nat.sub_diag by lia. reflexivity. }
  split_and!.
  - intros Hnone.
    destruct (wf_pte_lookup s (current s) v H (current_live s) Hv)
      as [[Habs _]|(? & ? & ? & _ & _ & _ & _ & Hsome)]; [|congruence].
    destruct (wf_pde_absent s _ H (page_dir_idx_lt v Hv) Habs) as (pr' & Hpr' & Hslot).
    assert (Hslot' : cur_pdes s !! page_dir_idx v = Some None).
    { unfold cur_pdes. rewrite Hpr'. exact Hslot. }
    unfold pte_of. rewrite Hnew, (T1 _ Hslot'), (Hold _ _ (current_live s)), Habs.
    split; reflexivity.
  - intros x Hx Hinv.
    destruct (pte_of_lookup s v x H Hv Hx) as (pd & dir & Hpd & Hdir & Hwd & He).
    assert (Hslot : cur_pdes s !! page_dir_idx v = Some (Some pd)).
    { unfold proc_pde in Hpd. unfold cur_pdes. rewrite Hpr in Hpd |- *.
      destruct (pdes (proc_pagetable pr) !! page_dir_idx v) as [o|]; [|discriminate].
      rewrite Hpd. reflexivity. }
    destruct (T2 _ _ Hslot) as (nd & dir' & J1 & J2 & J3 & J4 & J5).
    rewrite Hdir in J3. injection J3 as <-.
    assert (Hce : (cow_pte <$> dir) !! page_entry_idx v = Some x).
    { rewrite list_lookup_fmap, He. unfold cow_pte. simpl. rewrite Hinv. reflexivity. }
    split.
    + unfold pte_of. rewrite Hnew, J1. unfold read_pte. cbn [pd_mem].
      rewrite J5. exact Hce.
    + unfold pte_of. rewrite (Hold _ _ (current_live s)), Hpd.
      unfold read_pte. cbn [pd_mem]. rewrite J4. exact Hce.
  - intros q Hq.
    assert (Hql : q ∈ live s) by (right; exact Hq).
    assert (Hne : q <> current s).
    { intros ->. pose proof (wf_live s H) as Hnd. unfold live in Hnd.
      apply NoDup_cons in Hnd as [Hnd _]. contradiction. }
    unfold pte_of. rewrite (Hold _ _ Hql).
    destruct (proc_pde s q (page_dir_idx v)) as [d|] eqn:Hd; [|reflexivity].
    unfold read_pte. cbn [pd_mem]. rewrite T3; [reflexivity | |].
    + exact (wf_proc_pde_lt s q _ d H Hql Hd).
    + rewrite cur_pdes_dirs. intros Hin.
      apply (NoDup_bind_disjoint (proc_dirs s) (live s) q (current s) d
               (wf_all_dirs_NoDup s H) Hql (current_live s) Hne);
        [eapply proc_pde_in_dirs; exact Hd | exact Hin].
Qed.
End VM.

(** * Concrete runs

    The machine of the runs below has 4 frames, 4 entries per page-table
    page, 4 directory slots and 4 TLB entries; the first process has pid 0
    (pid 1 in the run of the scenarios of the specification), and
    [malloc] returns zeroed memory. *)

(** Steps of a run from the initial state. *)
Local Ltac free_frame :=
  first [ exists 0%nat; reflexivity | exists 1%nat; reflexivity
        | exists 2%nat; reflexivity | exists 3%nat; reflexivity ].

Local Ltac one_step :=
  first
    [ apply step_switch_process
    | apply step_free_page; unfold in_range; lia
    | apply step_handle_page_fault; [unfold in_range; lia | intros _; free_frame]
    | apply step_alloc_page;
      [ unfold in_range; lia
      | free_frame
      | reflexivity
      | first [ exact I
              | vm_compute; reflexivity
              | vm_compute; split; [reflexivity | repeat constructor] ] ] ].

Local Ltac run_step :=
  first
    [ apply reachable_init
    | eapply reachable_step; cycle 1; [one_step | run_step] ].

(** The failing input of C6: after [insert_tlb(5, ACCESS_READ, 7)] on the
    empty TLB, [lookup_tlb(5, ACCESS_READ | ACCESS_WRITE, &pfn)] hits. *)
Lemma lookup_tlb_read_only_serves_read_write_witness :
  let s := insert_tlb 5 ACCESS_READ 7 (init_state 4 4 4 0) in
  lookup_tlb 5 (Z.lor ACCESS_READ ACCESS_WRITE) s = Some 7.
Proof.
  intros s.
  exact (lookup_tlb_read_only_serves_read_write s
           (mk_tlb_entry true ACCESS_READ 5 7 0)
           (replicate 3 (mk_tlb_entry false 0 0 0 0)) 5
           eq_refl eq_refl eq_refl eq_refl).
Defined.

(** The failing input of C7, reached from the initial state: pages 1 and
    2 are allocated and cached, page 1 is freed (which invalidates slot
    0), and page 2 is inserted again. *)
Lemma insert_tlb_duplicates_after_hole_witness :
  let s0 := init_state 4 4 4 0 in
  let s1 := insert_tlb 1 3 0 (alloc_page 4 (zero_pd 4) 1 3 s0).2 in
  let s2 := insert_tlb 2 3 1 (alloc_page 4 (zero_pd 4) 2 3 s1).2 in
  let s3 := free_page 4 1 s2 in
  tlb (insert_tlb 2 3 1 s3) !! 0%nat = Some (mk_tlb_entry true 3 2 1 0) /\
  tlb (insert_tlb 2 3 1 s3) !! 1%nat = Some (mk_tlb_entry true 3 2 1 0).
Proof.
  intros s0 s1 s2 s3.
  rewrite (insert_tlb_duplicates_after_hole s3
             (mk_tlb_entry false 0 1 0 0) (mk_tlb_entry true 3 2 1 0)
             (replicate 2 (mk_tlb_entry false 0 0 0 0)) 2 3 1
             eq_refl eq_refl eq_refl eq_refl).
  split; reflexivity.
Defined.

(** The failing input of C4, reached from the initial state: pages 1 and
    2 are allocated and cached, page 1 is freed, and the process forks.
    The translation of page 2 is still cached after the switch. *)
Lemma switch_process_keeps_tlb_entry_behind_hole_witness :
  let s0 := init_state 4 4 4 0 in
  let s1 := insert_tlb 1 3 0 (alloc_page 4 (zero_pd 4) 1 3 s0).2 in
  let s2 := insert_tlb 2 3 1 (alloc_page 4 (zero_pd 4) 2 3 s1).2 in
  let s3 := free_page 4 1 s2 in
  tlb (switch_process 1 s3) !! 1%nat = Some (mk_tlb_entry true 3 2 1 0).
Proof.
  intros s0 s1 s2 s3.
  exact (switch_process_keeps_tlb_entry_behind_hole s3
           (mk_tlb_entry false 0 1 0 0) (mk_tlb_entry true 3 2 1 0)
           (replicate 2 (mk_tlb_entry false 0 0 0 0)) 1
           eq_refl eq_refl eq_refl).
Defined.

(** The counterexample to C1 as stated: [alloc_page] is called twice for
    page 0.  The second call maps frame 1 over the valid entry, and the
    count of frame 0 stays 1 although no entry maps frame 0 any more. *)
Lemma refcount_conservation_fails_on_remap :
  let s := (alloc_page 4 (zero_pd 4) 0 3
              (alloc_page 4 (zero_pd 4) 0 3 (init_state 4 4 4 0)).2).2 in
  reachable 4 4 4 4 any_call 0 s /\ mapcount s 0 = 1 /\ refs s 0 = 0%nat.
Proof.
  intros s. split; [|split; reflexivity].
  unfold s. run_step.
Qed.

(** A run of C1: page 5 is allocated and the process forks. *)
Lemma refcount_conservation_witness :
  let s := switch_process 1 (alloc_page 4 (zero_pd 4) 5 3 (init_state 4 4 4 0)).2 in
  reachable 4 4 4 4 (unmapped 4) 0 s /\
  0 <= 0 < Z.of_nat 4 /\
  mapcount s 0 = wrap32 (Z.of_nat (refs s 0)) /\
  (Z.of_nat (refs s 0) < 4294967296 -> mapcount s 0 = Z.of_nat (refs s 0)).
Proof.
  intros s.
  assert (Hr : reachable 4 4 4 4 (unmapped 4) 0 s) by (unfold s; run_step).
  assert (Hf : 0 <= 0 < Z.of_nat 4) by lia.
  split; [exact Hr|]. split; [exact Hf|].
  exact (refcount_conservation 4 4 4 4 0 s 0 Hr Hf).
Defined.

(** A run of the copy while a frame is free: page 5 is allocated
    read-write, the process forks, and the child writes to the page while
    frame 0 is mapped twice. *)
Lemma cow_write_fault_run :
  let s := switch_process 1 (alloc_page 4 (zero_pd 4) 5 3 (init_state 4 4 4 0)).2 in
  let s' := (handle_page_fault 4 5 ACCESS_WRITE s).2 in
  (handle_page_fault 4 5 ACCESS_WRITE s).1 = true /\
  mapcount s 0 = 2 /\ mapcount s' 0 = 1 /\ mapcount s' 1 = 1 /\
  pte_of 4 s' (current s) 5 = Some (mk_pte true 3 1 3) /\
  pte_of 4 s' 0%nat 5 = Some (mk_pte true 1 0 3).
Proof.
  intros s s'.
  assert (Hr : reachable 4 4 4 4 (unmapped 4) 0 s) by (unfold s; run_step).
  destruct (reachable_inv 4 4 4 4 0 s Hr) as [Hwf _].
  assert (Hv : in_range 4 4 5) by (unfold in_range; lia).
  destruct (cow_write_fault 4 4 4 5 ACCESS_WRITE s (mk_pte true 1 0 3) Hwf Hv)
    as [Hcopy _]; try reflexivity; try discriminate.
  destruct Hcopy as (Hret & new & _ & Hnew & Hmin & Hc1 & Hc2 & _ & Hpte & _ & Hoth).
  { reflexivity. }
  { exists 1%nat. reflexivity. }
  assert (new = 1%nat) as ->.
  { destruct new as [|[|new]]; [discriminate | reflexivity |].
    exfalso. apply (Hmin 1%nat); [lia | reflexivity]. }
  subst s'.
  split_and!; [exact Hret | reflexivity | exact Hc2 | exact Hc1 | exact Hpte |].
  rewrite (Hoth 0%nat 5); [reflexivity | | exact Hv | left; discriminate].
  apply list_elem_of_further, list_elem_of_here.
Defined.

(** A run of C3, the scenarios A and B of the specification: process 1
    faults on page 5 for a write, then [switch_process(2)] forks. *)
Lemma fork_semantics_witness :
  let s := (handle_page_fault 4 5 ACCESS_WRITE (init_state 4 4 4 1)).2 in
  let s' := switch_process 2 s in
  current s' = 1%nat /\
  pte_of 4 s (current s) 5 = Some (mk_pte true ACCESS_WRITE 0 0) /\
  (exists c p',
     pte_of 4 s' 1%nat 5 = Some c /\ pte_of 4 s' 0%nat 5 = Some p' /\
     pte_valid c = true /\ pte_valid p' = true /\
     pte_pfn c = 0 /\ pte_pfn p' = 0 /\
     pte_rw c = ACCESS_READ /\ pte_rw p' = ACCESS_READ /\
     pte_private c = ACCESS_WRITE /\ pte_private p' = ACCESS_WRITE) /\
  mapcount s 0 = 1 /\ mapcount s' 0 = 2.
Proof.
  intros s s'.
  assert (Hr : reachable 4 4 4 4 (unmapped 4) 1 s) by (unfold s; run_step).
  destruct (reachable_inv 4 4 4 4 1 s Hr) as [Hwf _].
  assert (Hpid : forall p pr, p ∈ processes s -> proc_mem s !! p = Some pr -> pid pr <> 2).
  { intros p pr Hp. inversion Hp. }
  destruct (fork_semantics 4 4 4 2 s Hwf Hpid) as (Hcur & _ & _ & Hpte & Hmc & _ & _).
  destruct (Hpte 5 (mk_pte true ACCESS_WRITE 0 0)) as
    (c & p' & H1 & H2 & H3 & H4 & H5 & H6 & H7 & H8 & H9 & _);
    [unfold in_range; lia | reflexivity | reflexivity |].
  destruct (H9 eq_refl) as [H9a H9b].
  destruct (Hmc 0) as [_ Hone]; [lia|].
  subst s'.
  split_and!; [exact Hcur | reflexivity | | reflexivity |].
  - exists c, p'. split_and!; assumption.
  - rewrite Hone; [reflexivity | reflexivity | reflexivity].
Defined.

(** The failing input of C2: the four frames are mapped read-write, the
    process forks, and the child writes to page 0, whose frame is mapped
    twice.  The handler returns true; no frame has been allocated, the
    entry names [(unsigned)-1] as its frame, and frame 0 has lost one
    mapping. *)
Lemma cow_write_fault_without_free_frame_witness :
  let s := switch_process 1
             (alloc_page 4 (zero_pd 4) 3 3
                (alloc_page 4 (zero_pd 4) 2 3
                   (alloc_page 4 (zero_pd 4) 1 3
                      (alloc_page 4 (zero_pd 4) 0 3 (init_state 4 4 4 0)).2).2).2).2 in
  let s' := (handle_page_fault 4 0 ACCESS_WRITE s).2 in
  pte_of 4 s (current s) 0 = Some (mk_pte true ACCESS_READ 0 3) /\
  mapcounts s = [2; 2; 2; 2] /\
  (handle_page_fault 4 0 ACCESS_WRITE s).1 = true /\
  pte_of 4 s' (current s) 0 = Some (mk_pte true 3 UINT_MINUS_1 3) /\
  mapcounts s' = [1; 2; 2; 2] /\
  mapcounts s' !! Z.to_nat UINT_MINUS_1 = None.
Proof.
  intros s s'.
  assert (Hr : reachable 4 4 4 4 (unmapped 4) 0 s) by (unfold s; run_step).
  destruct (reachable_inv 4 4 4 4 0 s Hr) as [Hwf _].
  assert (Hv : in_range 4 4 0) by (unfold in_range; lia).
  assert (Hno : ~ has_free s).
  { intros [f Hf]. change (mapcounts s) with [2; 2; 2; 2] in Hf.
    destruct f as [|[|[|[|f]]]]; discriminate. }
  destruct (cow_write_fault_without_free_frame 4 4 4 0 ACCESS_WRITE s
              (mk_pte true ACCESS_READ 0 3) Hwf Hv)
    as (H1 & H2 & _ & _ & _ & H6);
    try reflexivity; try discriminate; try exact Hno.
  split_and!; [reflexivity | reflexivity | exact H1 | exact H2 | reflexivity |].
  apply H6. discriminate.
Defined.

(** The failing input of C5, the same run: the allocator is called for
    the copy, finds no frame, and the handler returns true. *)
Lemma handle_page_fault_true_on_failed_copy_witness :
  let s := switch_process 1
             (alloc_page 4 (zero_pd 4) 3 3
                (alloc_page 4 (zero_pd 4) 2 3
                   (alloc_page 4 (zero_pd 4) 1 3
                      (alloc_page 4 (zero_pd 4) 0 3 (init_state 4 4 4 0)).2).2).2).2 in
  mapcounts s = [2; 2; 2; 2] /\
  alloc_page 4 [] 0 3 s = (UINT_MINUS_1, s) /\
  (handle_page_fault 4 0 ACCESS_WRITE s).1 = true.
Proof.
  intros s.
  assert (Hr : reachable 4 4 4 4 (unmapped 4) 0 s) by (unfold s; run_step).
  destruct (reachable_inv 4 4 4 4 0 s Hr) as [Hwf _].
  assert (Hv : in_range 4 4 0) by (unfold in_range; lia).
  assert (Hno : ~ has_free s).
  { intros [f Hf]. change (mapcounts s) with [2; 2; 2; 2] in Hf.
    destruct f as [|[|[|[|f]]]]; discriminate. }
  assert (Hcow : cow_copy 4 s 0 ACCESS_WRITE).
  { exists (mk_pte true ACCESS_READ 0 3).
    split_and!; try reflexivity; discriminate. }
  destruct (handle_page_fault_true_on_failed_copy 4 4 4 0 ACCESS_WRITE s Hwf Hv Hcow Hno)
    as (_ & H2 & H3).
  split_and!; [reflexivity | exact H2 | exact H3].
Defined.

(** A run of X14, the unchecked allocation at work: all four frames are
    mapped, the process forks, and the child writes to page 0.  No frame
    is free for the copy, and the handler reports success with
    [(unsigned)-1] as the frame of the entry. *)
Lemma handle_page_fault_cow_out_of_memory_run :
  let s := switch_process 1
             (alloc_page 4 (zero_pd 4) 3 3
                (alloc_page 4 (zero_pd 4) 2 3
                   (alloc_page 4 (zero_pd 4) 1 3
                      (alloc_page 4 (zero_pd 4) 0 3 (init_state 4 4 4 0)).2).2).2).2 in
  mapcounts s = [2; 2; 2; 2] /\
  pte_of 4 s (current s) 0 = Some (mk_pte true ACCESS_READ 0 3) /\
  (handle_page_fault 4 0 ACCESS_WRITE s).1 = true /\
  pte_of 4 (handle_page_fault 4 0 ACCESS_WRITE s).2 (current s) 0 =
    Some (mk_pte true 3 UINT_MINUS_1 3) /\
  mapcount (handle_page_fault 4 0 ACCESS_WRITE s).2 0 = 1.
Proof.
  intros s.
  assert (Hr : reachable 4 4 4 4 (unmapped 4) 0 s) by (unfold s; run_step).
  destruct (reachable_inv 4 4 4 4 0 s Hr) as [Hwf _].
  assert (Hno : ~ has_free s).
  { intros [f Hf]. change (mapcounts s) with [2; 2; 2; 2] in Hf.
    destruct f as [|[|[|[|f]]]]; discriminate. }
  destruct (handle_page_fault_cow_out_of_memory 4 4 4 0 ACCESS_WRITE s
              (mk_pte true ACCESS_READ 0 3) Hwf) as (H1 & H2 & H3);
    try reflexivity; try discriminate; try exact Hno.
  { unfold in_range. lia. }
  split_and!; [reflexivity | reflexivity | exact H1 | exact H2 | exact H3].
Defined.

(** A run of C8: the first allocation on the initial state takes frame
    0. *)
Lemma alloc_page_smallest_free_witness :
  let s := init_state 4 4 4 0 in
  wf_state 4 4 4 s /\ in_range 4 4 5 /\ length (zero_pd 4) = 4%nat /\ has_free s /\
  exists (pfn : nat) (x : pte),
    (alloc_page 4 (zero_pd 4) 5 3 s).1 = Z.of_nat pfn /\
    (pfn < 4)%nat /\
    mapcounts s !! pfn = Some 0 /\
    (forall g, (g < pfn)%nat -> mapcounts s !! g <> Some 0) /\
    mapcounts (alloc_page 4 (zero_pd 4) 5 3 s).2 = <[pfn := 1]> (mapcounts s) /\
    mapcount (alloc_page 4 (zero_pd 4) 5 3 s).2 (Z.of_nat pfn) = 1 /\
    pte_of 4 (alloc_page 4 (zero_pd 4) 5 3 s).2 (current s) 5 = Some x /\
    current (alloc_page 4 (zero_pd 4) 5 3 s).2 = current s /\
    pte_valid x = true /\ pte_pfn x = Z.of_nat pfn /\ pte_rw x = 3.
Proof.
  intros s.
  assert (Hwf : wf_state 4 4 4 s) by apply (init_state_wf 4 4 4 4 0).
  assert (Hv : in_range 4 4 5) by (unfold in_range; lia).
  assert (Hfree : has_free s) by (exists 0%nat; reflexivity).
  split_and!; [exact Hwf | exact Hv | reflexivity | exact Hfree |].
  exact (proj1 (alloc_page_smallest_free 4 4 4 (zero_pd 4) 5 3 s Hwf Hv eq_refl) Hfree).
Defined.

(** A run of C9: freeing a page of the initial state, whose page table is
    empty. *)
Lemma free_page_unmapped_noop_witness :
  let s := init_state 4 4 4 0 in
  pte_of 4 s (current s) 5 = None /\ free_page 4 5 s = s.
Proof.
  intros s. split; [reflexivity|].
  apply (free_page_unmapped_noop 4 5 s). left. reflexivity.
Defined.

(** A run of C10: the first process, whose pid is 0, asks for pid 0. *)
Lemma switch_process_own_pid_forks_witness :
  let s := init_state 4 4 4 0 in
  let s' := switch_process 0 s in
  current s = 0%nat /\ current s' = 1%nat /\ processes s' = [0%nat] /\
  (exists pr', proc_mem s' !! 1%nat = Some pr' /\ pid pr' = 0) /\
  (exists pr, proc_mem s' !! 0%nat = Some pr /\ pid pr = 0).
Proof.
  intros s s'.
  destruct (switch_process_own_pid_forks s
              (mk_process 0 (mk_pagetable (replicate 4 None))) eq_refl)
    as (H1 & H2 & H3 & H4 & H5 & H6 & H7).
  { intros p pr' Hp. inversion Hp. }
  split_and!; [reflexivity | exact H1 | exact H3 | exact H6 |].
  eexists. split; [exact H7 | reflexivity].
Defined.

(** * More concrete runs *)

Local Ltac entries tac := simpl; repeat (constructor; [tac|]); try constructor.

(** A run of X1: a translation inserted into the empty TLB is found. *)
Lemma insert_tlb_lookup_tlb_witness :
  lookup_tlb 5 ACCESS_READ (insert_tlb 5 ACCESS_READ 7 (init_state 4 4 4 0)) = Some 7.
Proof.
  apply insert_tlb_lookup_tlb.
  - exists (mk_tlb_entry false 0 0 0 0). split; [left | left; reflexivity].
  - discriminate.
Defined.

(** A run of X2: the four slots hold pages 1 to 4, and page 9 is
    inserted. *)
Lemma insert_tlb_full_drops_witness :
  let s := insert_tlb 4 3 3 (insert_tlb 3 3 2 (insert_tlb 2 3 1
             (insert_tlb 1 3 0 (init_state 4 4 4 0)))) in
  insert_tlb 9 3 5 s = s /\ lookup_tlb 9 3 (insert_tlb 9 3 5 s) = None.
Proof.
  intros s. apply insert_tlb_full_drops.
  entries ltac:(split; [reflexivity | discriminate]).
Defined.

(** A run of X3: two pages are touched and cached, the first one is
    freed, and the second one is looked up. *)
Lemma lookup_tlb_hit_is_valid_witness :
  let cs := [call_handle_page_fault 5 ACCESS_READ; call_insert_tlb 5 ACCESS_READ 0;
             call_handle_page_fault 6 3; call_insert_tlb 6 3 1; call_free_page 5] in
  let s := run 4 cs (init_state 4 4 4 0) in
  lookup_tlb 6 ACCESS_READ s = Some 1 /\
  exists e, e ∈ tlb s /\ tlb_valid e = true /\ tlb_vpn e = 6 /\
            tlb_pfn e = 1 /\ Z.land (tlb_rw e) ACCESS_READ <> 0.
Proof.
  intros cs s. split; [reflexivity|].
  apply (lookup_tlb_hit_is_valid 4 cs (init_state 4 4 4 0) 6 ACCESS_READ 1).
  - entries ltac:(intros _; reflexivity).
  - reflexivity.
Defined.

(** A run of X4: two pages are mapped and cached, and the process
    forks. *)
Lemma switch_process_flushes_without_free_page_witness :
  let cs := [call_handle_page_fault 5 3; call_insert_tlb 5 3 0;
             call_alloc_page (zero_pd 4) 6 ACCESS_READ; call_insert_tlb 6 ACCESS_READ 1] in
  let s := run 4 cs (init_state 4 4 4 0) in
  lookup_tlb 5 3 s = Some 0 /\
  Forall (fun e => tlb_valid e = false) (tlb (switch_process 1 s)) /\
  lookup_tlb 5 3 (switch_process 1 s) = None.
Proof.
  intros cs s.
  destruct (switch_process_flushes_without_free_page 4 cs (init_state 4 4 4 0) 1)
    as [Hinv Hmiss].
  - entries ltac:(reflexivity).
  - entries ltac:(exact I).
  - split_and!; [reflexivity | exact Hinv |].
    apply Hmiss. entries ltac:(intros _; reflexivity).
Defined.

(** A run of X5: page 5 is mapped and the process forks; the child
    frees the page, and the parent still maps frame 0. *)
Lemma free_page_unmaps_witness :
  let s := switch_process 1 (alloc_page 4 (zero_pd 4) 5 3 (init_state 4 4 4 0)).2 in
  current s = 1%nat /\ mapcount s 0 = 2 /\
  pte_of 4 (free_page 4 5 s) 1%nat 5 = Some (mk_pte false 0 0 3) /\
  mapcount (free_page 4 5 s) 0 = 1 /\
  pte_of 4 (free_page 4 5 s) 0%nat 5 = Some (mk_pte true ACCESS_READ 0 3).
Proof.
  intros s.
  assert (Hr : reachable 4 4 4 4 (unmapped 4) 0 s) by (unfold s; run_step).
  destruct (reachable_inv 4 4 4 4 0 s Hr) as [Hwf _].
  assert (Hv : in_range 4 4 5) by (unfold in_range; lia).
  destruct (free_page_unmaps 4 4 4 5 s (mk_pte true ACCESS_READ 0 3) Hwf Hv
              eq_refl eq_refl) as (H1 & _ & H3 & _ & H5).
  split_and!; [reflexivity | reflexivity | exact H1 | exact (H3 eq_refl) |].
  rewrite (H5 0%nat 5); [reflexivity | | exact Hv | left; discriminate].
  apply list_elem_of_further, list_elem_of_here.
Defined.

(** A run of X6: pages 5 and 6 are mapped on frames 0 and 1 and
    cached, and page 5 is freed. *)
Lemma free_page_tlb_coherent_witness :
  let s0 := (alloc_page 4 (zero_pd 4) 6 3
               (alloc_page 4 (zero_pd 4) 5 3 (init_state 4 4 4 0)).2).2 in
  let s := insert_tlb 6 3 1 (insert_tlb 5 3 0 s0) in
  lookup_tlb 5 3 s = Some 0 /\
  Forall (fun e => tlb_valid e = true -> tlb_pfn e <> 0) (tlb (free_page 4 5 s)) /\
  tlb (free_page 4 5 s) !! 1%nat = Some (mk_tlb_entry true 3 6 1 0) /\
  forall v rw, lookup_tlb v rw (free_page 4 5 s) <> Some 0.
Proof.
  intros s0 s.
  assert (Hr : reachable 4 4 4 4 (unmapped 4) 0 s0) by (unfold s0; run_step).
  destruct (reachable_inv 4 4 4 4 0 s0 Hr) as [Hwf0 _].
  assert (Hwf : wf_state 4 4 4 s) by (unfold s; do 2 apply insert_tlb_wf; exact Hwf0).
  assert (Hv : in_range 4 4 5) by (unfold in_range; lia).
  destruct (free_page_tlb_coherent 4 4 4 5 s (mk_pte true 3 0 0) Hwf Hv
              eq_refl eq_refl) as (H1 & H2 & H3).
  split_and!; [reflexivity | exact H1 | |].
  - apply (H2 1%nat (mk_tlb_entry true 3 6 1 0)); [reflexivity | right; discriminate].
  - apply H3. entries ltac:(intros; try discriminate; reflexivity).
Defined.

(** A run of X7: page 0 is mapped with no access right, and a read
    fault on it is let through. *)
Lemma handle_page_fault_valid_noop_witness :
  let s := (alloc_page 4 (zero_pd 4) 0 0 (init_state 4 4 4 0)).2 in
  pte_of 4 s (current s) 0 = Some (mk_pte true 0 0 0) /\
  handle_page_fault 4 0 ACCESS_READ s = (true, s).
Proof.
  intros s.
  assert (Hr : reachable 4 4 4 4 (unmapped 4) 0 s) by (unfold s; run_step).
  destruct (reachable_inv 4 4 4 4 0 s Hr) as [Hwf _].
  assert (Hv : in_range 4 4 0) by (unfold in_range; lia).
  split; [reflexivity|].
  apply (handle_page_fault_valid_noop 4 4 4 0 ACCESS_READ s (mk_pte true 0 0 0) Hwf Hv);
    [reflexivity | reflexivity | left; reflexivity].
Defined.

(** A run of X8: page 5 is mapped on the initial state and freed. *)
Lemma alloc_page_free_page_witness :
  let s := init_state 4 4 4 0 in
  let s' := free_page 4 5 (alloc_page 4 (zero_pd 4) 5 3 s).2 in
  mapcounts (alloc_page 4 (zero_pd 4) 5 3 s).2 = [1; 0; 0; 0] /\
  mapcounts s' = mapcounts s /\
  exists priv, pte_of 4 s' (current s) 5 = Some (mk_pte false 0 0 priv).
Proof.
  intros s s'.
  assert (Hwf : wf_state 4 4 4 s) by apply (init_state_wf 4 4 4 4 0).
  assert (Hv : in_range 4 4 5) by (unfold in_range; lia).
  assert (Hfree : has_free s) by (exists 0%nat; reflexivity).
  destruct (alloc_page_free_page 4 4 4 (zero_pd 4) 5 3 s Hwf Hv eq_refl Hfree)
    as (H1 & H2 & _).
  split_and!; [reflexivity | exact H1 | exact H2].
Defined.

(** A run of X9: page 5 is mapped and the process forks; the child
    maps page 6, and the entry of the parent for page 5 is as it was. *)
Lemma alloc_page_writes_one_entry_witness :
  let s := switch_process 1 (alloc_page 4 (zero_pd 4) 5 3 (init_state 4 4 4 0)).2 in
  current s = 1%nat /\
  pte_of 4 (alloc_page 4 (zero_pd 4) 6 3 s).2 0%nat 5 =
    Some (mk_pte true ACCESS_READ 0 3).
Proof.
  intros s.
  assert (Hr : reachable 4 4 4 4 (unmapped 4) 0 s) by (unfold s; run_step).
  destruct (reachable_inv 4 4 4 4 0 s Hr) as [Hwf _].
  split; [reflexivity|].
  rewrite (alloc_page_writes_one_entry 4 4 4 (zero_pd 4) 6 3 s 0%nat 5 Hwf);
    [reflexivity | unfold in_range; lia | reflexivity | | unfold in_range; lia
    | left; discriminate].
  apply list_elem_of_further, list_elem_of_here.
Defined.

(** A run of X10: [malloc] returns memory whose first entry reads as a
    valid mapping of frame 2; after [alloc_page] for page 5, the
    neighbouring page 4 appears mapped on frame 2. *)
Lemma alloc_page_new_page_uninitialised_witness :
  let s := init_state 4 4 4 0 in
  let junk := mk_pte true 3 2 0 :: replicate 3 (mk_pte false 0 0 0) in
  pte_of 4 s (current s) 4 = None /\
  pte_of 4 (alloc_page 4 junk 5 3 s).2 (current s) 4 = Some (mk_pte true 3 2 0).
Proof.
  intros s junk.
  assert (Hwf : wf_state 4 4 4 s) by apply (init_state_wf 4 4 4 4 0).
  assert (Hfree : has_free s) by (exists 0%nat; reflexivity).
  apply (alloc_page_new_page_uninitialised 4 4 4 junk 5 3 s 4 Hwf);
    try reflexivity; try assumption; try (unfold in_range; lia).
Defined.

(** A run of X11: page 0 is mapped read-write and the process forks;
    the child frees the page, maps it again read-only, and writes to
    it. *)
Lemma alloc_page_read_only_made_writable_witness :
  let s := free_page 4 0
             (switch_process 1 (alloc_page 4 (zero_pd 4) 0 3 (init_state 4 4 4 0)).2) in
  let s1 := (alloc_page 4 (zero_pd 4) 0 ACCESS_READ s).2 in
  pte_of 4 s (current s) 0 = Some (mk_pte false 0 0 3) /\
  pte_of 4 s1 (current s) 0 = Some (mk_pte true ACCESS_READ 1 3) /\
  (handle_page_fault 4 0 ACCESS_WRITE s1).1 = true /\
  pte_of 4 (handle_page_fault 4 0 ACCESS_WRITE s1).2 (current s) 0 =
    Some (mk_pte true 3 1 3).
Proof.
  intros s s1.
  assert (Hr : reachable 4 4 4 4 (unmapped 4) 0 s) by (unfold s; run_step).
  destruct (reachable_inv 4 4 4 4 0 s Hr) as [Hwf _].
  assert (Hv : in_range 4 4 0) by (unfold in_range; lia).
  assert (Hfree : has_free s) by (exists 1%nat; reflexivity).
  destruct (alloc_page_read_only_made_writable 4 4 4 (zero_pd 4) 0 ACCESS_WRITE s
              (mk_pte false 0 0 3) Hwf Hv eq_refl Hfree eq_refl eq_refl)
    as (pfn & _ & Hp & Hret & Hq); try discriminate.
  assert (E : Some (mk_pte true ACCESS_READ 1 3) =
              Some (mk_pte true ACCESS_READ (Z.of_nat pfn) 3)) by exact Hp.
  assert (pfn = 1%nat) as -> by (injection E; lia).
  split_and!; [reflexivity | exact Hp | exact Hret | exact Hq].
Defined.

(** A run of X12: the first process writes to page 5. *)
Lemma handle_page_fault_first_touch_maps_witness :
  let s := init_state 4 4 4 0 in
  let s' := (handle_page_fault 4 5 ACCESS_WRITE s).2 in
  (handle_page_fault 4 5 ACCESS_WRITE s).1 = true /\
  pte_of 4 s' (current s) 5 = Some (mk_pte true ACCESS_WRITE 0 0) /\
  mapcounts s' = [1; 0; 0; 0] /\
  pte_of 4 s' (current s) 4 = Some (mk_pte false 0 0 0) /\
  handle_page_fault 4 5 ACCESS_WRITE s' = (true, s').
Proof.
  intros s s'.
  assert (Hwf : wf_state 4 4 4 s) by apply (init_state_wf 4 4 4 4 0).
  assert (Hv : in_range 4 4 5) by (unfold in_range; lia).
  assert (Hfree : has_free s) by (exists 0%nat; reflexivity).
  destruct (handle_page_fault_first_touch_maps 4 4 4 5 ACCESS_WRITE s Hwf Hv eq_refl Hfree)
    as (pfn & priv & _ & _ & Hret & _ & _ & Hnb & Hidem); [left; reflexivity|].
  split_and!; [exact Hret | reflexivity | reflexivity | | exact Hidem].
  apply (Hnb eq_refl 4); [unfold in_range; lia | reflexivity | discriminate].
Defined.

(** A run of X13: the four frames are taken by pages 0 to 3, which
    share one page-table page, and the process touches page 4. *)
Lemma handle_page_fault_first_touch_out_of_memory_witness :
  let s := (alloc_page 4 (zero_pd 4) 3 3
              (alloc_page 4 (zero_pd 4) 2 3
                 (alloc_page 4 (zero_pd 4) 1 3
                    (alloc_page 4 (zero_pd 4) 0 3 (init_state 4 4 4 0)).2).2).2).2 in
  let s' := (handle_page_fault 4 4 ACCESS_WRITE s).2 in
  (handle_page_fault 4 4 ACCESS_WRITE s).1 = false /\
  mapcounts s' = mapcounts s /\
  proc_pde s (current s) 1 = None /\
  pd_mem s' = pd_mem s ++ [zero_pd 4] /\
  proc_pde s' (current s) 1 = Some 1%nat.
Proof.
  intros s s'.
  assert (Hr : reachable 4 4 4 4 (unmapped 4) 0 s) by (unfold s; run_step).
  destruct (reachable_inv 4 4 4 4 0 s Hr) as [Hwf _].
  assert (Hv : in_range 4 4 4) by (unfold in_range; lia).
  assert (Hno : ~ has_free s).
  { intros [f Hf]. change (mapcounts s) with [1; 1; 1; 1] in Hf.
    destruct f as [|[|[|[|f]]]]; discriminate. }
  destruct (handle_page_fault_first_touch_out_of_memory 4 4 4 4 ACCESS_WRITE s Hwf Hv Hno)
    as (H1 & H2 & H3); [left; reflexivity|].
  destruct H3 as (H3 & H4 & _).
  split_and!; [exact H1 | exact H2 | reflexivity | exact H3 | exact H4].
Defined.

(** A run of X16: the first process forks twice; the third process
    switches to the first one and back. *)
Lemma switch_process_there_and_back_witness :
  let s := switch_process 2 (switch_process 1 (init_state 4 4 4 0)) in
  let s' := switch_process 2 (switch_process 0 s) in
  current s = 2%nat /\ processes s = [0%nat; 1%nat] /\
  current (switch_process 0 s) = 0%nat /\
  current s' = 2%nat /\ ptbr s' = 2%nat /\ processes s' = [1%nat; 0%nat] /\
  pd_mem s' = pd_mem s /\ proc_mem s' = proc_mem s /\ mapcounts s' = mapcounts s.
Proof.
  intros s s'.
  destruct (switch_process_there_and_back 0 s 0%nat 0%nat
              (mk_process 2 (mk_pagetable (replicate 4 None))) eq_refl eq_refl)
    as (H1 & H2 & H3 & H4 & H5 & H6 & H7).
  { intros p pr' Hp Hpr. apply list_elem_of_singleton in Hp as ->.
    injection Hpr as <-. discriminate. }
  split_and!; [reflexivity | reflexivity | exact H1 | exact H2 | exact H3 | exact H4
              | exact H5 | exact H6 | exact H7].
Defined.

(** A run of X17: the first process, of pid 0, forks process 1, which
    forks process 2. *)
Lemma switch_process_distinct_pids_witness :
  let s := switch_process 1 (init_state 4 4 4 0) in
  live_pids s = [1; 0] /\ live_pids (switch_process 2 s) = [2; 0; 1] /\
  NoDup (live_pids (switch_process 2 s)).
Proof.
  intros s.
  assert (Hr : reachable 4 4 4 4 (unmapped 4) 0 s) by (unfold s; run_step).
  destruct (reachable_inv 4 4 4 4 0 s Hr) as [Hwf _].
  split_and!; [reflexivity | reflexivity |].
  apply (switch_process_distinct_pids 4 4 4 2 s Hwf).
  - apply (bool_decide_unpack _). vm_compute. exact I.
  - intros pr Hpr. injection Hpr as <-. discriminate.
Defined.

(** A run of X18: page 5 is mapped and the process forks. *)
Lemma reachable_page_tables_witness :
  let s := switch_process 1 (alloc_page 4 (zero_pd 4) 5 3 (init_state 4 4 4 0)).2 in
  proc_pde s 0%nat 1 = Some 0%nat /\ proc_pde s 1%nat 1 = Some 1%nat /\
  (forall p q i j d, p ∈ live s -> q ∈ live s ->
     proc_pde s p i = Some d -> proc_pde s q j = Some d -> p = q /\ i = j) /\
  (forall p v x, p ∈ live s -> in_range 4 4 v ->
     pte_of 4 s p v = Some x -> pte_valid x = true -> 0 <= pte_pfn x < Z.of_nat 4) /\
  length (mapcounts s) = 4%nat.
Proof.
  intros s.
  assert (Hr : reachable 4 4 4 4 (unmapped 4) 0 s) by (unfold s; run_step).
  split; [reflexivity|]. split; [reflexivity|].
  exact (reachable_page_tables 4 4 4 4 0 s Hr).
Defined.

(** A run of X19: page 5 is mapped on frame 0 and the process forks;
    frame 1 is free, and the entry of the parent does not map it. *)
Lemma reachable_free_frame_unmapped_witness :
  let s := switch_process 1 (alloc_page 4 (zero_pd 4) 5 3 (init_state 4 4 4 0)).2 in
  mapcount s 1 = 0 /\ refs s 1 = 0%nat /\
  pte_of 4 s 0%nat 5 = Some (mk_pte true ACCESS_READ 0 3) /\
  pte_pfn (mk_pte true ACCESS_READ 0 3) <> 1.
Proof.
  intros s.
  assert (Hr : reachable 4 4 4 4 (unmapped 4) 0 s) by (unfold s; run_step).
  split_and!; [reflexivity | reflexivity | reflexivity |].
  apply (reachable_free_frame_unmapped 4 4 4 4 0 s 1 0%nat 5 _ Hr);
    [lia | reflexivity | reflexivity | | unfold in_range; lia | reflexivity | reflexivity].
  apply list_elem_of_further, list_elem_of_here.
Defined.

(** A run of X21: page 5 is mapped and freed twice. *)
Lemma free_page_twice_witness :
  let s := (alloc_page 4 (zero_pd 4) 5 3 (init_state 4 4 4 0)).2 in
  mapcounts (free_page 4 5 s) = [0; 0; 0; 0] /\
  free_page 4 5 (free_page 4 5 s) = free_page 4 5 s.
Proof.
  intros s.
  assert (Hr : reachable 4 4 4 4 (unmapped 4) 0 s) by (unfold s; run_step).
  destruct (reachable_inv 4 4 4 4 0 s Hr) as [Hwf _].
  split; [reflexivity|].
  apply (free_page_twice 4 4 4 5 s Hwf). unfold in_range. lia.
Defined.

(** A run of X22: page 0 is mapped and the process forks; the child
    frees the page and forks in turn.  The third process gets the
    cleared entry with its [private], and the entry of the first
    process, which waits in the ready queue, is as it was. *)
Lemma fork_copies_page_table_witness :
  let s := free_page 4 0
             (switch_process 1 (alloc_page 4 (zero_pd 4) 0 3 (init_state 4 4 4 0)).2) in
  let s' := switch_process 2 s in
  current s = 1%nat /\ processes s = [0%nat] /\
  pte_of 4 s 1%nat 0 = Some (mk_pte false 0 0 3) /\
  pte_of 4 s' 2%nat 0 = Some (mk_pte false 0 0 3) /\
  pte_of 4 s' 1%nat 0 = Some (mk_pte false 0 0 3) /\
  pte_of 4 s' 0%nat 0 = Some (mk_pte true ACCESS_READ 0 3).
Proof.
  intros s s'.
  assert (Hr : reachable 4 4 4 4 (unmapped 4) 0 s) by (unfold s; run_step).
  destruct (reachable_inv 4 4 4 4 0 s Hr) as [Hwf _].
  assert (Hv : in_range 4 4 0) by (unfold in_range; lia).
  destruct (fork_copies_page_table 4 4 4 2 s 0 Hwf) as (_ & Hcopy & Hq); [|exact Hv|].
  { intros p pr Hp Hpr. apply list_elem_of_singleton in Hp as ->.
    injection Hpr as <-. discriminate. }
  destruct (Hcopy (mk_pte false 0 0 3) eq_refl eq_refl) as [H1 H2].
  split_and!; [reflexivity | reflexivity | reflexivity | exact H1 | exact H2 |].
  unfold s'. rewrite (Hq 0%nat); [reflexivity | left].
Defined.
